(** * read_sensor_data.py: a DHT22 logger, embedded and verified

    The script polls DHT22 sensors, appends every reading to a local
    tab-separated log and uploads it to a Google Sheet.  This file embeds
    the script function by function.  The Python built-ins it relies on
    (string methods, [os.path], [glob], float formatting and rounding) are
    modelled first, then the external collaborators (file system, sensor
    driver, spreadsheet service, clocks) as an environment of scripted
    responses and a world state, then the functions of the script on top of
    a state-and-exception monad. *)

From Stdlib Require Import ZArith NArith Ascii String List Bool Lia.
From Stdlib Require Import Floats.PrimFloat Floats.FloatOps Floats.SpecFloat.
From Stdlib Require Floats.FloatAxioms.
From stdpp Require Import base option list gmap strings pretty.

Import ListNotations.
Local Open Scope string_scope.
Local Open Scope list_scope.

(* Decimal float literals stand for the nearest binary64 number, as they do
   in Python. *)
Set Warnings "-inexact-float".

(** ** Python strings *)

Module PyStr.

Definition TAB : ascii := "009"%char.
Definition LF : ascii := "010"%char.
Definition CR : ascii := "013"%char.
Definition SEP : ascii := "/"%char.
Definition DOT : ascii := "."%char.

Definition str (c : ascii) : string := String c "".

Definition is_empty (s : string) : bool :=
  match s with "" => true | _ => false end.

(** [str.isspace] on the ASCII range: TAB, LF, VT, FF, CR, the four
    separators FS GS RS US, and the blank. *)
Definition is_space (c : ascii) : bool :=
  let n := nat_of_ascii c in
  ((9 <=? n) && (n <=? 13) || (28 <=? n) && (n <=? 32))%nat.

(** [s.split()]: maximal runs of non-blank characters. *)
Fixpoint split_from (s cur : string) : list string :=
  match s with
  | "" => if is_empty cur then [] else [cur]
  | String c r =>
      if is_space c
      then (if is_empty cur then split_from r "" else cur :: split_from r "")
      else split_from r (cur +:+ str c)
  end.

Definition split (s : string) : list string := split_from s "".

(** [sub in s] *)
Fixpoint contains (sub s : string) : bool :=
  String.prefix sub s ||
  match s with
  | "" => false
  | String _ r => contains sub r
  end.

(** Iterating over a text file opened with universal newlines: the lines
    keep their terminator, and CR LF and a lone CR are read as LF. *)
Fixpoint lines_from (s cur : string) : list string :=
  match s with
  | "" => if is_empty cur then [] else [cur]
  | String c r =>
      if Ascii.eqb c LF then (cur +:+ str LF) :: lines_from r ""
      else if Ascii.eqb c CR then
        match r with
        | String c' r' =>
            if Ascii.eqb c' LF then (cur +:+ str LF) :: lines_from r' ""
            else (cur +:+ str LF) :: lines_from r ""
        | "" => [cur +:+ str LF]
        end
      else lines_from r (cur +:+ str c)
  end.

Definition readlines (s : string) : list string := lines_from s "".

(** [s.rstrip('/')] *)
Fixpoint rstrip_sep (s : string) : string :=
  match s with
  | "" => ""
  | String c r =>
      let r' := rstrip_sep r in
      if is_empty r' && Ascii.eqb c SEP then "" else String c r'
  end.

(** [(p[:i], p[i:])] with [i = p.rfind('/') + 1] *)
Fixpoint cut_last_sep (p : string) : string * string :=
  match p with
  | "" => ("", "")
  | String c r =>
      let (h, t) := cut_last_sep r in
      if is_empty h
      then (if Ascii.eqb c SEP then (str SEP, t) else ("", String c t))
      else (String c h, t)
  end.

(** [(s[:d], s[d:])] with [d = s.rfind('.')], when [s] has a dot *)
Fixpoint cut_last_dot (s : string) : option (string * string) :=
  match s with
  | "" => None
  | String c r =>
      match cut_last_dot r with
      | Some (a, b) => Some (String c a, b)
      | None => if Ascii.eqb c DOT then Some ("", s) else None
      end
  end.

Fixpoint all_dots (s : string) : bool :=
  match s with
  | "" => true
  | String c r => Ascii.eqb c DOT && all_dots r
  end.

Definition startswith_dot (s : string) : bool :=
  match s with
  | String c _ => Ascii.eqb c DOT
  | "" => false
  end.

Definition endswith_sep (s : string) : bool :=
  negb (is_empty s) && negb (String.eqb (rstrip_sep s) s).

Definition has_magic (s : string) : bool :=
  contains "*" s || contains "?" s || contains "[" s.

End PyStr.

(** ** [os.path] (posixpath) *)

Module OsPath.
Import PyStr.

(** [os.path.split]: the head loses its trailing separators unless it
    consists of separators only. *)
Definition split (p : string) : string * string :=
  let (head, tail) := cut_last_sep p in
  let stripped := rstrip_sep head in
  (if is_empty stripped then head else stripped, tail).

Definition basename (p : string) : string := snd (cut_last_sep p).

(** [os.path.splitext]: the extension starts at the last dot of the last
    component, provided some character other than a dot precedes it
    there. *)
Definition splitext (p : string) : string * string :=
  let (head, tail) := cut_last_sep p in
  match cut_last_dot tail with
  | Some (root, ext) =>
      if all_dots root then (p, "") else (head +:+ root, ext)
  | None => (p, "")
  end.

(** [os.path.join a b] for two components *)
Definition join (a b : string) : string :=
  if String.prefix "/" b then b
  else if is_empty a || endswith_sep a then a +:+ b
  else a +:+ "/" +:+ b.

End OsPath.

(** ** Python floats

    A Python [float] is an IEEE 754 binary64 number, which is what Rocq's
    primitive [float] is.  Arithmetic is the primitive one.  Formatting,
    rounding and the remainder work on the exact value [m * 2^e] of a finite
    float, as CPython does through its correctly rounded conversions. *)

Module PyFloat.
Import PyStr.
Local Open Scope Z_scope.

(** [n / d] rounded to the nearest integer, ties to even ([0 <= n], [0 < d]) *)
Definition div_half_even (n d : Z) : Z :=
  let q := n / d in
  let r := n mod d in
  match 2 * r ?= d with
  | Lt => q
  | Gt => q + 1
  | Eq => if Z.even q then q else q + 1
  end.

(** The exact value [m * 2^e] counted in tenths, rounded half to even. *)
Definition tenths (m : positive) (e : Z) : Z :=
  if 0 <=? e then 10 * Z.pos m * 2 ^ e
  else div_half_even (10 * Z.pos m) (2 ^ (- e)).

Definition sign_str (s : bool) : string := if s then "-" else "".

Definition digits (n : Z) : string := pretty (Z.to_N n).

(** ['{:0.1f}'.format(x)] *)
Definition format_1f (x : float) : string :=
  match Prim2SF x with
  | S754_nan => "nan"
  | S754_infinity s => sign_str s +:+ "inf"
  | S754_zero s => sign_str s +:+ "0.0"
  | S754_finite s m e =>
      let t := tenths m e in
      sign_str s +:+ digits (t / 10) +:+ "." +:+ digits (t mod 10)
  end.

(** [round(x, 1)]: the float nearest to the decimal that [x] rounds to.
    Infinities and NaN round to themselves. *)
Definition round_1 (x : float) : float :=
  match Prim2SF x with
  | S754_finite s m e =>
      match tenths m e with
      | Z.pos t =>
          SF2Prim (SFdiv prec emax (S754_finite s t 0) (S754_finite false 10 0))
      | _ => SF2Prim (S754_zero s)
      end
  | _ => x
  end.

(** C's [fmod x y] for [y] finite and not zero: the result has the sign of
    [x] and is exact.  The remainder [p * 2^e] of the two exact values is
    put in canonical form, its mantissa moved left as far as the format
    asks, before it is made a float; it has 53 bits at most, so that
    nothing is rounded. *)
Definition fmod (x y : float) : float :=
  match Prim2SF x, Prim2SF y with
  | S754_finite sx mx ex, S754_finite _ my ey =>
      let e := Z.min ex ey in
      let r := (Z.pos mx * 2 ^ (ex - e)) mod (Z.pos my * 2 ^ (ey - e)) in
      match r with
      | Z.pos p =>
          let (m', e') :=
            shl_align p e (fexp prec emax (Z.pos (digits2_pos p) + e)) in
          SF2Prim (S754_finite sx m' e')
      | _ => SF2Prim (S754_zero sx)
      end
  | S754_zero _, S754_finite _ _ _ => x
  | S754_finite _ _ _, S754_infinity _ => x
  | S754_zero _, S754_infinity _ => x
  | _, _ => nan
  end.

(** [x % y] on floats ([float_rem] in CPython): [None] is
    [ZeroDivisionError]; otherwise the result takes the sign of [y]. *)
Definition rem (x y : float) : option float :=
  if is_zero y then None
  else
    let m := fmod x y in
    if is_zero m then Some (if get_sign y then neg_zero else zero)
    else if Bool.eqb (ltb y zero) (ltb m zero) then Some m
    else Some (add m y).

End PyFloat.

(** ** [time.struct_time] and the two [strftime] formats of the script *)

Record struct_time := {
  tm_year : nat; tm_mon : nat; tm_mday : nat;
  tm_hour : nat; tm_min : nat; tm_sec : nat
}.

Definition pad2 (n : nat) : string :=
  if (n <? 10)%nat then "0" +:+ pretty n else pretty n.

(** [time.strftime('%Y-%m-%d', t)] *)
Definition strftime_date (t : struct_time) : string :=
  pretty (tm_year t) +:+ "-" +:+ pad2 (tm_mon t) +:+ "-" +:+ pad2 (tm_mday t).

(** [time.strftime('%H:%M:%S', t)] *)
Definition strftime_clock (t : struct_time) : string :=
  pad2 (tm_hour t) +:+ ":" +:+ pad2 (tm_min t) +:+ ":" +:+ pad2 (tm_sec t).

(** ** Python dictionaries

    A [dict] keeps its keys in insertion order; assigning to a key that is
    present replaces the value where the key already stands. *)

Module Dict.

Definition t (V : Type) : Type := list (string * V).

Fixpoint set {V} (k : string) (v : V) (d : t V) : t V :=
  match d with
  | [] => [(k, v)]
  | (k', v') :: r =>
      if String.eqb k k' then (k, v) :: r else (k', v') :: set k v r
  end.

Fixpoint get {V} (k : string) (d : t V) : option V :=
  match d with
  | [] => None
  | (k', v') :: r => if String.eqb k k' then Some v' else get k r
  end.

Definition keys {V} (d : t V) : list string := map fst d.

End Dict.

(** ** The world outside the script *)

(** Exceptions, by class. *)
Inductive exn :=
| OSError | ValueError | TypeError | AttributeError
| ZeroDivisionError | RuntimeError | GSpreadException.

Inductive result (A : Type) :=
| Ok (a : A)
| Raise (e : exn).
Arguments Ok {A} a.
Arguments Raise {A} e.

(** A file system entry: a regular file with its text, or a directory with
    the names [os.scandir] yields, in the order it yields them. *)
Inductive node :=
| NFile (content : string)
| NDir (names : list string).

(** A spreadsheet cell. *)
Inductive cell :=
| CStr (s : string)
| CNum (x : float).

Inductive sensor_kind := DHT11 | DHT22 | AM2302.

(** What one call of [Adafruit_DHT.read_retry] does: it returns a pair in
    which either part may be [None], or it raises (the driver rejects the
    pin, for one). *)
Inductive dht_outcome :=
| DhtReturn (humidity temp_c : option float)
| DhtRaise (e : exn).

(** What the spreadsheet service does with one upload: nothing goes wrong, or
    [service_account()], [open_by_key(...).sheet1] or [append_row] raises. *)
Inductive remote_outcome := RemoteOk | AuthFails | OpenFails | AppendFails.

(** The handle of a file opened for appending. *)
Inductive file_handle := FileHandle (path : string).

(** Calls to the outside that the proofs observe. *)
Inductive event :=
| EvPrint (s : string)
| EvDhtRead (sensor : sensor_kind) (pin : option string)
| EvWrite (data : string)
| EvFlush
| EvServiceAccount
| EvOpenByKey (key : option string)
| EvAppendRow (key : string) (row : list cell)
| EvSleep (secs : float).

(** The environment: how the collaborators answer.  A response that may
    differ from call to call is indexed by the number of earlier calls. *)
Record Env := {
  script_path : string;                 (* os.path.realpath(__file__) *)
  wall_clock : nat -> float;            (* time.time() *)
  local_clock : nat -> struct_time;     (* time.localtime() *)
  dht_driver : nat -> dht_outcome;      (* Adafruit_DHT.read_retry *)
  makedirs_fails : bool;                (* os.makedirs raises *)
  open_fails : bool;                    (* open(path, 'a+') raises *)
  stat_fails : bool;                    (* os.stat raises *)
  write_fails : nat -> bool;            (* f.write raises *)
  flush_fails : nat -> bool;            (* f.flush raises *)
  gspread_outcome : nat -> remote_outcome
}.

Record Calls := {
  time_calls : nat; localtime_calls : nat; dht_calls : nat;
  write_calls : nat; flush_calls : nat; upload_calls : nat
}.

(** The state: the file system by absolute path, the text written to the
    output handle and not yet flushed, the first worksheet of every
    spreadsheet by key, the call counters and the events so far. *)
Record World := {
  fs : gmap string node;
  buffered : string;
  sheets : gmap string (list (list cell));
  calls : Calls;
  trace : list event
}.

Definition set_fs (g : gmap string node) (w : World) : World :=
  {| fs := g; buffered := buffered w; sheets := sheets w;
     calls := calls w; trace := trace w |}.
Definition set_buffered (b : string) (w : World) : World :=
  {| fs := fs w; buffered := b; sheets := sheets w;
     calls := calls w; trace := trace w |}.
Definition set_sheets (s : gmap string (list (list cell))) (w : World) : World :=
  {| fs := fs w; buffered := buffered w; sheets := s;
     calls := calls w; trace := trace w |}.
Definition set_calls (c : Calls) (w : World) : World :=
  {| fs := fs w; buffered := buffered w; sheets := sheets w;
     calls := c; trace := trace w |}.
Definition record (e : event) (w : World) : World :=
  {| fs := fs w; buffered := buffered w; sheets := sheets w;
     calls := calls w; trace := trace w ++ [e] |}.

Definition tick_time (c : Calls) : Calls :=
  {| time_calls := S (time_calls c); localtime_calls := localtime_calls c;
     dht_calls := dht_calls c; write_calls := write_calls c;
     flush_calls := flush_calls c; upload_calls := upload_calls c |}.
Definition tick_localtime (c : Calls) : Calls :=
  {| time_calls := time_calls c; localtime_calls := S (localtime_calls c);
     dht_calls := dht_calls c; write_calls := write_calls c;
     flush_calls := flush_calls c; upload_calls := upload_calls c |}.
Definition tick_dht (c : Calls) : Calls :=
  {| time_calls := time_calls c; localtime_calls := localtime_calls c;
     dht_calls := S (dht_calls c); write_calls := write_calls c;
     flush_calls := flush_calls c; upload_calls := upload_calls c |}.
Definition tick_write (c : Calls) : Calls :=
  {| time_calls := time_calls c; localtime_calls := localtime_calls c;
     dht_calls := dht_calls c; write_calls := S (write_calls c);
     flush_calls := flush_calls c; upload_calls := upload_calls c |}.
Definition tick_flush (c : Calls) : Calls :=
  {| time_calls := time_calls c; localtime_calls := localtime_calls c;
     dht_calls := dht_calls c; write_calls := write_calls c;
     flush_calls := S (flush_calls c); upload_calls := upload_calls c |}.
Definition tick_upload (c : Calls) : Calls :=
  {| time_calls := time_calls c; localtime_calls := localtime_calls c;
     dht_calls := dht_calls c; write_calls := write_calls c;
     flush_calls := flush_calls c; upload_calls := S (upload_calls c) |}.

(** ** The monad: state of the world, and exceptions *)

Definition M (A : Type) : Type := World -> result A * World.

Definition ret {A} (a : A) : M A := fun w => (Ok a, w).

Definition raise {A} (e : exn) : M A := fun w => (Raise e, w).

Definition bind {A B} (c : M A) (k : A -> M B) : M B :=
  fun w =>
    match c w with
    | (Ok a, w') => k a w'
    | (Raise e, w') => (Raise e, w')
    end.

(** [try: body  except: handler]: a bare [except] catches every exception;
    what the body did to the world before raising stays done. *)
Definition try_except {A} (body handler : M A) : M A :=
  fun w =>
    match body w with
    | (Ok a, w') => (Ok a, w')
    | (Raise _, w') => handler w'
    end.

Declare Scope py_scope.
Delimit Scope py_scope with py.
Notation "x <- c ;; k" := (bind c (fun x => k))
  (at level 100, c at next level, right associativity) : py_scope.
Notation "c ;; k" := (bind c (fun _ => k))
  (at level 100, right associativity) : py_scope.
Local Open Scope py_scope.

(** [for x in xs: acc = body(acc, x)] *)
Fixpoint for_fold {A S} (xs : list A) (acc : S) (body : S -> A -> M S) : M S :=
  match xs with
  | [] => ret acc
  | x :: r => acc' <- body acc x ;; for_fold r acc' body
  end.

(** [for x in xs: body(x)] *)
Fixpoint for_each {A} (xs : list A) (body : A -> M unit) : M unit :=
  match xs with
  | [] => ret tt
  | x :: r => body x ;; for_each r body
  end.

Definition emit (e : event) : M unit := fun w => (Ok tt, record e w).

Definition print (s : string) : M unit := emit (EvPrint s).

(** ** [glob]

    [glob.glob(pathname)] for a pathname whose directory part has no
    wildcard and whose last component does: the names of that directory
    are listed (a directory that cannot be listed yields nothing), names
    starting with a dot are dropped unless the pattern starts with one, and
    the rest is filtered with [fnmatch].  [fnmatch] knows [*] and [?];
    bracket expressions are not modelled. *)

Module Glob.
Import PyStr.

Fixpoint fnmatch (pat name : string) : bool :=
  match pat with
  | "" => is_empty name
  | String c pat' =>
      if Ascii.eqb c "*" then
        (fix star (n : string) : bool :=
           fnmatch pat' n ||
           match n with
           | "" => false
           | String _ n' => star n'
           end) name
      else
        match name with
        | "" => false
        | String d name' =>
            (Ascii.eqb c "?" || Ascii.eqb c d) && fnmatch pat' name'
        end
  end.

(** The directory that is listed: the current one when the pathname has
    no directory part. *)
Definition listed_dir (dirname : string) : string :=
  if is_empty dirname then "." else dirname.

Definition glob1 (tree : gmap string node) (dirname pattern : string)
  : list string :=
  match tree !! listed_dir dirname with
  | Some (NDir names) =>
      let shown :=
        if startswith_dot pattern then names
        else List.filter (fun x => negb (startswith_dot x)) names in
      List.filter (fnmatch pattern) shown
  | _ => []
  end.

Definition glob (tree : gmap string node) (pathname : string) : list string :=
  let (dirname, basename) := OsPath.split pathname in
  if is_empty dirname then glob1 tree dirname basename
  else map (OsPath.join dirname) (glob1 tree dirname basename).

End Glob.

(** ** The calls to the outside *)

Record worksheet := { ws_client : nat; ws_key : string }.

Definition valid_sleep (secs : float) : bool :=
  (PrimFloat.leb 0 secs && PrimFloat.leb secs 9223372036)%float.

Section Program.

Variable env : Env.

Definition glob_glob (pathname : string) : M (list string) :=
  fun w => (Ok (Glob.glob (fs w) pathname), w).

(** [open(path, 'r')] and reading the whole text *)
Definition open_read (path : string) : M string :=
  fun w =>
    match fs w !! path with
    | Some (NFile content) => (Ok content, w)
    | _ => (Raise OSError, w)
    end.

Definition os_path_exists (path : string) : M bool :=
  fun w => (Ok (bool_decide (is_Some (fs w !! path))), w).

(** [os.makedirs(path)]: whether it raises is for the environment to say,
    as it depends on more than the entries that the world records (the
    rights on the parent, a regular file on the way: see [makedirs_posix]
    for the latter). *)
Definition os_makedirs (path : string) : M unit :=
  fun w =>
    if makedirs_fails env then (Raise OSError, w)
    else (Ok tt, set_fs (<[path := NDir []]> (fs w)) w).

(** [open(path, 'a+')]: the directory must be there; the file is created
    when it is missing; the new handle starts with an empty buffer. *)
Definition open_append (path : string) : M file_handle :=
  fun w =>
    if open_fails env then (Raise OSError, w)
    else
      let dir := fst (OsPath.split path) in
      match fs w !! dir with
      | Some (NDir names) =>
          match fs w !! path with
          | Some (NFile _) => (Ok (FileHandle path), set_buffered "" w)
          | Some (NDir _) => (Raise OSError, w)
          | None =>
              (Ok (FileHandle path),
               set_buffered ""
                 (set_fs (<[path := NFile ""]>
                            (<[dir := NDir (names ++ [OsPath.basename path])]>
                               (fs w))) w))
          end
      | _ => (Raise OSError, w)
      end.

(** [os.stat(path).st_size] *)
Definition os_stat_size (path : string) : M nat :=
  fun w =>
    if stat_fails env then (Raise OSError, w)
    else
      match fs w !! path with
      | Some (NFile content) => (Ok (String.length content), w)
      | Some (NDir _) => (Ok 4096%nat, w)
      | None => (Raise OSError, w)
      end.

(** [f.write(data)]: the text goes to the buffer of the handle. *)
Definition file_write (f : file_handle) (data : string) : M unit :=
  fun w =>
    let n := write_calls (calls w) in
    let w' := record (EvWrite data) (set_calls (tick_write (calls w)) w) in
    if write_fails env n then (Raise OSError, w')
    else (Ok tt, set_buffered (buffered w' +:+ data) w').

(** [f.flush()]: the buffer goes to the end of the file; when the flush
    fails the buffer is kept. *)
Definition file_flush (f : file_handle) : M unit :=
  fun w =>
    let n := flush_calls (calls w) in
    let w' := record EvFlush (set_calls (tick_flush (calls w)) w) in
    if flush_fails env n then (Raise OSError, w')
    else
      let 'FileHandle path := f in
      let old := match fs w' !! path with
                 | Some (NFile content) => content
                 | _ => ""
                 end in
      (Ok tt, set_buffered "" (set_fs (<[path := NFile (old +:+ buffered w')]> (fs w')) w')).

Definition time_time : M float :=
  fun w => (Ok (wall_clock env (time_calls (calls w))),
            set_calls (tick_time (calls w)) w).

Definition time_localtime : M struct_time :=
  fun w => (Ok (local_clock env (localtime_calls (calls w))),
            set_calls (tick_localtime (calls w)) w).

(** [time.sleep(secs)] refuses a negative length and NaN. *)
Definition time_sleep (secs : float) : M unit :=
  emit (EvSleep secs) ;;
  if valid_sleep secs then ret tt else raise ValueError.

Definition Adafruit_DHT_read_retry (sensor : sensor_kind) (pin : option string)
  : M (option float * option float) :=
  fun w =>
    let w' := record (EvDhtRead sensor pin) (set_calls (tick_dht (calls w)) w) in
    match dht_driver env (dht_calls (calls w)) with
    | DhtReturn humidity temp_c => (Ok (humidity, temp_c), w')
    | DhtRaise e => (Raise e, w')
    end.

(** [gspread.service_account()]; the client remembers which upload it
    serves. *)
Definition gspread_service_account : M nat :=
  fun w =>
    let n := upload_calls (calls w) in
    let w' := record EvServiceAccount (set_calls (tick_upload (calls w)) w) in
    match gspread_outcome env n with
    | AuthFails => (Raise GSpreadException, w')
    | _ => (Ok n, w')
    end.

(** [gc.open_by_key(sheet_key).sheet1] *)
Definition open_by_key_sheet1 (gc : nat) (sheet_key : option string)
  : M worksheet :=
  emit (EvOpenByKey sheet_key) ;;
  fun w =>
    match gspread_outcome env gc, sheet_key with
    | OpenFails, _ => (Raise GSpreadException, w)
    | _, None => (Raise GSpreadException, w)
    | _, Some key =>
        match sheets w !! key with
        | Some _ => (Ok {| ws_client := gc; ws_key := key |}, w)
        | None => (Raise GSpreadException, w)
        end
    end.

(** [sheet.append_row(row)] *)
Definition append_row (sheet : worksheet) (row : list cell) : M unit :=
  emit (EvAppendRow (ws_key sheet) row) ;;
  fun w =>
    match gspread_outcome env (ws_client sheet) with
    | AppendFails => (Raise GSpreadException, w)
    | _ =>
        let rows := default [] (sheets w !! ws_key sheet) in
        (Ok tt, set_sheets (<[ws_key sheet := rows ++ [row]]> (sheets w)) w)
    end.

(** ** The script *)

(** What [read_sensor] returns on success: the list
    [[time, temp_c, temp_f, humidity]], by position. *)
Record sensor_list := {
  item0 : string; item1 : float; item2 : float; item3 : float
}.

(** Subscripting the result of [read_sensor]: [None[0]] is a [TypeError]. *)
Definition subscript (input_list : option sensor_list) : M sensor_list :=
  match input_list with
  | Some l => ret l
  | None => raise TypeError
  end.

(** Looking up [.write] on the handle: [None.write] is an
    [AttributeError]. *)
Definition getattr_write (input_file_handle : option file_handle)
  : M file_handle :=
  match input_file_handle with
  | Some f => ret f
  | None => raise AttributeError
  end.

(** [str(x)] for the value of [dict.get]: a string or [None]. *)
Definition py_str (x : option string) : string :=
  match x with
  | Some s => s
  | None => "None"
  end.

Definition TAB : string := PyStr.str PyStr.TAB.
Definition CRLF : string := PyStr.str PyStr.CR +:+ PyStr.str PyStr.LF.

Definition header : string :=
  "date" +:+ TAB +:+ "time" +:+ TAB +:+ "temp_c" +:+ TAB +:+ "temp_f"
  +:+ TAB +:+ "humidity" +:+ TAB +:+ "pin" +:+ CRLF.

(** One line of a URL file: [(key, value) = line.split()] and
    [nest_dict[key] = value]. *)
Definition add_line (nest_dict : Dict.t string) (line : string)
  : M (Dict.t string) :=
  match PyStr.split line with
  | [key; value] => ret (Dict.set key value nest_dict)
  | _ => raise ValueError
  end.

(** [file_string]: the base name without its extension. *)
Definition file_stem (file_path : string) : string :=
  fst (OsPath.splitext (OsPath.basename file_path)).

(** [any(sensor_string in file_string for sensor_string in sensor_list)] *)
Definition on_sensor_list (sensor_list : list string) (file_string : string)
  : bool :=
  existsb (fun sensor_string => PyStr.contains sensor_string file_string)
          sensor_list.

(** The body of the loop over the files that [glob] found. *)
Definition scan_file (sensor_list : list string)
  (url_dict : Dict.t (Dict.t string)) (file_path : string)
  : M (Dict.t (Dict.t string)) :=
  print ("working on " +:+ file_path) ;;
  let file_string := file_stem file_path in
  print ("file_string: " +:+ file_string) ;;
  if on_sensor_list sensor_list file_string then
    print "Matched string" ;;
    url_file <- open_read file_path ;;
    nest_dict <- for_fold (PyStr.readlines url_file) [] add_line ;;
    ret (Dict.set file_string nest_dict url_dict)
  else
    print "no match" ;;
    ret url_dict.

Definition open_url_files (dir_path : string) (sensor_list : list string)
  : M (Dict.t (Dict.t string)) :=
  paths <- glob_glob (dir_path +:+ "*") ;;
  for_fold paths [] (scan_file sensor_list).

Definition output_dir : string := OsPath.join (script_path env) "output".

Definition output_file_path : string :=
  OsPath.join output_dir "sensor_output.csv".

Definition open_output_file : M (option file_handle) :=
  present <- os_path_exists output_dir ;;
  (if present then ret tt else os_makedirs output_dir) ;;
  try_except
    (f <- open_append output_file_path ;;
     size <- os_stat_size output_file_path ;;
     (if (size =? 0)%nat then file_write f header else ret tt) ;;
     ret (Some f))
    (ret None).

Definition read_sensor (dht_sensor : sensor_kind) (dht_pin : option string)
  (input_time : struct_time) : M (option sensor_list) :=
  reading <- Adafruit_DHT_read_retry dht_sensor dht_pin ;;
  match reading with
  | (Some humidity, Some temp_c) =>
      let temp_f := (temp_c * 9 / 5 + 32)%float in
      ret (Some {| item0 := strftime_clock input_time; item1 := temp_c;
                   item2 := temp_f; item3 := humidity |})
  | _ =>
      print "Failed to retrieve data from humidity sensor" ;;
      ret None
  end.

(** The text of one log line. *)
Definition log_line (input_list : sensor_list) (input_time : struct_time)
  (dht_pin : option string) : string :=
  strftime_date input_time +:+ TAB +:+ item0 input_list
  +:+ TAB +:+ PyFloat.format_1f (item1 input_list)
  +:+ TAB +:+ PyFloat.format_1f (item2 input_list)
  +:+ TAB +:+ PyFloat.format_1f (item3 input_list)
  +:+ TAB +:+ py_str dht_pin +:+ CRLF.

Definition append_file (input_file_handle : option file_handle)
  (input_list : option sensor_list) (input_time : struct_time)
  (dht_pin : option string) : M unit :=
  try_except
    (f <- getattr_write input_file_handle ;;
     l <- subscript input_list ;;
     file_write f (log_line l input_time dht_pin) ;;
     file_flush f)
    (print "Fail to write to file").

(** The row that [append_google_sheet] builds. *)
Definition sheet_row (input_list : sensor_list) (input_time : struct_time)
  : list cell :=
  [CStr (strftime_date input_time);
   CStr (item0 input_list);
   CNum (PyFloat.round_1 (item1 input_list));
   CNum (PyFloat.round_1 (item2 input_list));
   CNum (PyFloat.round_1 (item3 input_list))].

Definition append_google_sheet (input_list : option sensor_list)
  (sheet_key : option string) (input_time : struct_time) : M unit :=
  try_except
    (gc <- gspread_service_account ;;
     sheet <- open_by_key_sheet1 gc sheet_key ;;
     l <- subscript input_list ;;
     append_row sheet (sheet_row l input_time))
    (print "Failed to upload to Google Sheets").

(** [120.0 - ((now - start_time) % 60.0)] *)
Definition sleep_length (start_time now : float) : M float :=
  match PyFloat.rem (now - start_time)%float 60%float with
  | Some r => ret (120 - r)%float
  | None => raise ZeroDivisionError
  end.

(** The body of the loop over [sheet_ids.items()]. *)
Definition poll_sensor (f : option file_handle) (read_time : struct_time)
  (item : string * Dict.t string) : M unit :=
  let '(sensor_location, sensor_dict) := item in
  let dht_pin := Dict.get "pin" sensor_dict in
  sensor_output <- read_sensor DHT22 dht_pin read_time ;;
  append_file f sensor_output read_time dht_pin ;;
  append_google_sheet sensor_output (Dict.get "id" sensor_dict) read_time.

(** [for sensor_location, sensor_dict in sheet_ids.items(): ...] *)
Definition poll_sensors (f : option file_handle) (read_time : struct_time)
  (sheet_ids : Dict.t (Dict.t string)) : M unit :=
  for_each sheet_ids (poll_sensor f read_time).

(** The body of [while True]. *)
Definition poll_cycle (start_time : float) (sheet_ids : Dict.t (Dict.t string))
  (f : option file_handle) : M unit :=
  read_time <- time_localtime ;;
  poll_sensors f read_time sheet_ids ;;
  now <- time_time ;;
  secs <- sleep_length start_time now ;;
  time_sleep secs.

(** [while True] never ends; [poll_loop n] is its first [n] rounds. *)
Fixpoint poll_loop (n : nat) (start_time : float)
  (sheet_ids : Dict.t (Dict.t string)) (f : option file_handle) : M unit :=
  match n with
  | O => ret tt
  | S n' => poll_cycle start_time sheet_ids f ;;
            poll_loop n' start_time sheet_ids f
  end.

Definition url_file_dir_path : string := OsPath.join (script_path env) "url".

(** [main] up to the loop: the start time, the sheet ids, the output file. *)
Definition startup : M (float * Dict.t (Dict.t string) * option file_handle) :=
  start_time <- time_time ;;
  sheet_ids <- open_url_files url_file_dir_path
                 ["home_livingroom"; "home_outside"] ;;
  f <- open_output_file ;;
  ret (start_time, sheet_ids, f).

(** [main], its loop cut after [n] rounds. *)
Definition main (n : nat) : M unit :=
  s <- startup ;;
  let '(start_time, sheet_ids, f) := s in
  poll_loop n start_time sheet_ids f.

End Program.

(** ** A sample installation

    One sensor in the living room on pin 4, its URL file, a driver that
    reports 55.2 % humidity at 21.4 degrees, a clock five seconds past the
    start, and collaborators that never fail. *)

Module Sample.

Definition LF : string := PyStr.str PyStr.LF.

Definition url_text : string :=
  "id" +:+ TAB +:+ "ABC123" +:+ LF +:+
  "pin" +:+ TAB +:+ "4" +:+ LF +:+
  "name" +:+ TAB +:+ "home_livingroom".

Definition read_time : struct_time :=
  {| tm_year := 2021; tm_mon := 11; tm_mday := 4;
     tm_hour := 9; tm_min := 5; tm_sec := 0 |}.

Definition start_time : float := 1636016700%float.

Definition env : Env :=
  {| script_path := "/home/pi/dht22/read_sensor_data.py";
     wall_clock := fun n => match n with
                            | O => start_time
                            | _ => (start_time + 5)%float
                            end;
     local_clock := fun _ => read_time;
     dht_driver := fun _ => DhtReturn (Some 55.2%float)
                                      (Some 21.4%float);
     makedirs_fails := false; open_fails := false; stat_fails := false;
     write_fails := fun _ => false; flush_fails := fun _ => false;
     gspread_outcome := fun _ => RemoteOk |}.

(** The same installation on a bad day: every [write] and every upload
    fails. *)
Definition env_failing : Env :=
  {| script_path := script_path env;
     wall_clock := wall_clock env;
     local_clock := local_clock env;
     dht_driver := dht_driver env;
     makedirs_fails := false; open_fails := false; stat_fails := false;
     write_fails := fun _ => true; flush_fails := fun _ => true;
     gspread_outcome := fun _ => AuthFails |}.

(** The same installation with an output file that cannot be opened. *)
Definition env_unwritable : Env :=
  {| script_path := script_path env;
     wall_clock := wall_clock env;
     local_clock := local_clock env;
     dht_driver := dht_driver env;
     makedirs_fails := false; open_fails := true; stat_fails := false;
     write_fails := fun _ => false; flush_fails := fun _ => false;
     gspread_outcome := fun _ => RemoteOk |}.

(** The same installation with a sensor that does not answer. *)
Definition env_silent : Env :=
  {| script_path := script_path env;
     wall_clock := wall_clock env;
     local_clock := local_clock env;
     dht_driver := fun _ => DhtReturn None None;
     makedirs_fails := false; open_fails := false; stat_fails := false;
     write_fails := fun _ => false; flush_fails := fun _ => false;
     gspread_outcome := fun _ => RemoteOk |}.

Definition handle : file_handle := FileHandle (output_file_path env).

Definition livingroom : string * Dict.t string :=
  ("home_livingroom",
   [("id", "ABC123"); ("pin", "4"); ("name", "home_livingroom")]).

Definition no_calls : Calls :=
  {| time_calls := 0; localtime_calls := 0; dht_calls := 0;
     write_calls := 0; flush_calls := 0; upload_calls := 0 |}.

(** A URL directory with the file of the living room, and the spreadsheet
    it names, still empty. *)
Definition world : World :=
  {| fs := <["/home/pi/url" := NDir ["home_livingroom.txt"] ]>
           (<["/home/pi/url/home_livingroom.txt" := NFile url_text]>
            (<[output_dir env := NDir [] ]> ∅));
     buffered := "";
     sheets := <["ABC123" := [] ]> ∅;
     calls := no_calls;
     trace := [] |}.

(** A machine on which nothing has been set up: no URL directory, no output
    directory, no spreadsheet. *)
Definition bare_world : World :=
  {| fs := ∅; buffered := ""; sheets := ∅; calls := no_calls; trace := [] |}.

(** A URL directory with a hidden file for the outside sensor. *)
Definition hidden_world : World :=
  {| fs := <["/home/pi/url" := NDir [".home_outside.txt"] ]>
           (<["/home/pi/url/.home_outside.txt" := NFile url_text]> ∅);
     buffered := ""; sheets := ∅; calls := no_calls; trace := [] |}.

(** A URL directory with two files for the living room; the second one
    gives the id twice. *)
Definition twin_text : string :=
  "id" +:+ TAB +:+ "OLD456" +:+ LF +:+
  "pin" +:+ TAB +:+ "17" +:+ LF +:+
  "id" +:+ TAB +:+ "NEW789" +:+ LF.

Definition twin_world : World :=
  {| fs := <["/home/pi/url" :=
               NDir ["home_livingroom.txt"; "notes.md"; "home_livingroom.conf"] ]>
           (<["/home/pi/url/home_livingroom.txt" := NFile url_text]>
            (<["/home/pi/url/notes.md" := NFile "not a url file"]>
             (<["/home/pi/url/home_livingroom.conf" := NFile twin_text]> ∅)));
     buffered := ""; sheets := ∅; calls := no_calls; trace := [] |}.

(** The layout that the header of the script describes: the URL file in a
    directory [url] next to the script. *)
Definition installed_world : World :=
  {| fs := <["/home/pi/dht22" := NDir ["read_sensor_data.py"; "url"] ]>
           (<["/home/pi/dht22/read_sensor_data.py" := NFile "#!/usr/bin/env python3"]>
            (<["/home/pi/dht22/url" := NDir ["home_livingroom.txt"] ]>
             (<["/home/pi/dht22/url/home_livingroom.txt" := NFile url_text]> ∅)));
     buffered := ""; sheets := <["ABC123" := [] ]> ∅;
     calls := no_calls; trace := [] |}.

End Sample.

(** ** Vocabulary of the statements *)

Definition is_write (e : event) : bool :=
  match e with EvWrite _ => true | _ => false end.

Definition is_append_row (e : event) : bool :=
  match e with EvAppendRow _ _ => true | _ => false end.

(** What the local path can see and change, and what the remote path can. *)
Definition local_view (w : World)
  : gmap string node * string * nat * nat :=
  (fs w, buffered w, write_calls (calls w), flush_calls (calls w)).

Definition remote_view (w : World) : gmap string (list (list cell)) * nat :=
  (sheets w, upload_calls (calls w)).

Definition after_read (sensor : sensor_kind) (pin : option string) (w : World)
  : World :=
  record (EvDhtRead sensor pin) (set_calls (tick_dht (calls w)) w).

Definition reading_of (input_time : struct_time) (humidity temp_c : float)
  : sensor_list :=
  {| item0 := strftime_clock input_time; item1 := temp_c;
     item2 := (temp_c * 9 / 5 + 32)%float; item3 := humidity |}.

(** The driver returns from every call; parts of what it returns may be
    absent. *)
Definition driver_returns (env : Env) : Prop :=
  forall k, exists h c, dht_driver env k = DhtReturn h c.

(** Every sleep that the clock can lead to is one that [time.sleep]
    accepts. *)
Definition clock_sane (env : Env) (start_time : float) : Prop :=
  forall k, exists r,
    PyFloat.rem (wall_clock env k - start_time) 60 = Some r /\
    valid_sleep (120 - r) = true.

Definition no_data : string := "Failed to retrieve data from humidity sensor".
Definition no_write : string := "Fail to write to file".
Definition no_upload : string := "Failed to upload to Google Sheets".

(** Case analysis on what the spreadsheet service does with one upload. *)
Ltac remote_cases env w key :=
  let Ho := fresh "Ho" in
  let Hk := fresh "Hk" in
  destruct (gspread_outcome env (upload_calls (calls w))) eqn:Ho;
  destruct key as [?k|];
  try match goal with k : string |- _ => destruct (sheets w !! k) eqn:Hk end.

Ltac remote_run :=
  repeat (progress (cbn;
    repeat match goal with
           | H : gspread_outcome _ _ = _ |- _ => rewrite H
           | H : sheets _ !! _ = _ |- _ => rewrite H
           end)).

(** A path that ends in a plain character: stripping separators changes
    nothing. *)
Definition plain_end (d : string) : Prop :=
  PyStr.rstrip_sep d = d /\ PyStr.is_empty d = false.

(** The text of the log as a reader of the handle's output sees it: what is
    on disk, then what is still in the buffer. *)
Definition on_disk (path : string) (w : World) : string :=
  match fs w !! path with
  | Some (NFile content) => content
  | _ => ""
  end.

Definition log_text (path : string) (w : World) : string :=
  on_disk path w +:+ buffered w.

(** Appending readings one after the other, each with its time and pin. *)
Definition append_readings (env : Env) (f : option file_handle)
  (items : list (sensor_list * struct_time * option string)) : M unit :=
  for_each items
    (fun item => append_file env f (Some item.1.1) item.1.2 item.2).

Definition log_lines (items : list (sensor_list * struct_time * option string))
  : string :=
  fold_right (fun item rest => log_line item.1.1 item.1.2 item.2 +:+ rest)
             "" items.

(** A disk on which nothing fails. *)
Definition disk_works (env : Env) : Prop :=
  makedirs_fails env = false /\ open_fails env = false /\
  stat_fails env = false /\
  (forall k, write_fails env k = false) /\
  (forall k, flush_fails env k = false).

(** The directory that [open_url_files dir_path] lists. *)
Definition scanned_dir (dir_path : string) : string :=
  Glob.listed_dir (fst (OsPath.split (dir_path +:+ "*"))).

(** What the inner loop of [open_url_files] computes from the lines of one
    file: the pairs of the lines, or nothing when some line does not split
    in two. *)
Fixpoint fields_from (lines : list string) (acc : Dict.t string)
  : option (Dict.t string) :=
  match lines with
  | [] => Some acc
  | line :: rest =>
      match PyStr.split line with
      | [key; value] => fields_from rest (Dict.set key value acc)
      | _ => None
      end
  end.

Definition parse_fields (text : string) : option (Dict.t string) :=
  fields_from (PyStr.readlines text) [].

(** What one pass of the outer loop computes. *)
Definition scan_result (tree : gmap string node) (sensor_list : list string)
  (url_dict : Dict.t (Dict.t string)) (file_path : string)
  : result (Dict.t (Dict.t string)) :=
  if on_sensor_list sensor_list (file_stem file_path) then
    match tree !! file_path with
    | Some (NFile text) =>
        match parse_fields text with
        | Some nest_dict => Ok (Dict.set (file_stem file_path) nest_dict url_dict)
        | None => Raise ValueError
        end
    | _ => Raise OSError
    end
  else Ok url_dict.

Fixpoint load (tree : gmap string node) (sensor_list : list string)
  (paths : list string) (url_dict : Dict.t (Dict.t string))
  : result (Dict.t (Dict.t string)) :=
  match paths with
  | [] => Ok url_dict
  | p :: rest =>
      match scan_result tree sensor_list url_dict p with
      | Ok url_dict' => load tree sensor_list rest url_dict'
      | Raise e => Raise e
      end
  end.

(** Every file on the list that is picked is a text file whose lines split
    in two. *)
Definition well_formed (tree : gmap string node) (sensor_list : list string)
  (paths : list string) : Prop :=
  forall p, In p paths ->
    on_sensor_list sensor_list (file_stem p) = true ->
    exists text nest_dict,
      tree !! p = Some (NFile text) /\ parse_fields text = Some nest_dict.

(** The entries of a directory that [glob] shows, as paths. *)
Definition shown_paths (dir : string) (names : list string) : list string :=
  map (OsPath.join dir)
      (List.filter (fun x => negb (PyStr.startswith_dot x)) names).

(** ** More vocabulary: kinds of events, and what a step left alone *)

Definition is_print (e : event) : bool :=
  match e with EvPrint _ => true | _ => false end.

Definition is_dht_read (e : event) : bool :=
  match e with EvDhtRead _ _ => true | _ => false end.

Definition is_flush (e : event) : bool :=
  match e with EvFlush => true | _ => false end.

Definition is_sleep (e : event) : bool :=
  match e with EvSleep _ => true | _ => false end.

(** The events of the local path, and those of the remote path. *)
Definition local_event (e : event) : bool :=
  match e with EvPrint _ | EvWrite _ | EvFlush => true | _ => false end.

Definition remote_event (e : event) : bool :=
  match e with
  | EvPrint _ | EvServiceAccount | EvOpenByKey _ | EvAppendRow _ _ => true
  | _ => false
  end.

(** [w'] is [w] but for lines that were printed. *)
Definition only_printed (w w' : World) : Prop :=
  fs w' = fs w /\ buffered w' = buffered w /\ sheets w' = sheets w /\
  calls w' = calls w /\
  exists evs, trace w' = trace w ++ evs /\ forallb is_print evs = true.

(** A line of a URL file that [(key, value) = line.split()] rejects. *)
Definition bad_line (line : string) : Prop :=
  length (PyStr.split line) <> 2.

(** The lines that one round adds to the log: one for every sensor whose
    read, the [k]-th and following, is complete. *)
Fixpoint round_lines (env : Env) (read_time : struct_time)
  (sheet_ids : Dict.t (Dict.t string)) (k : nat) : string :=
  match sheet_ids with
  | [] => ""
  | item :: rest =>
      match dht_driver env k with
      | DhtReturn (Some h) (Some c) =>
          log_line (reading_of read_time h c) read_time (Dict.get "pin" item.2)
          +:+ round_lines env read_time rest (S k)
      | _ => round_lines env read_time rest (S k)
      end
  end.

(** ** More sample installations *)

Module Cases.

(** A URL directory in which the entry for the outside sensor is itself a
    directory. *)
Definition nested_world : World :=
  {| fs := <["/home/pi/url" := NDir ["home_outside"] ]>
           (<["/home/pi/url/home_outside" := NDir [] ]> ∅);
     buffered := ""; sheets := ∅; calls := Sample.no_calls; trace := [] |}.

(** A driver that gives up on its second call. *)
Definition env_driver_raises : Env :=
  {| script_path := script_path Sample.env;
     wall_clock := wall_clock Sample.env;
     local_clock := local_clock Sample.env;
     dht_driver := fun k => match k with
                            | 1 => DhtRaise RuntimeError
                            | _ => DhtReturn (Some 55.2%float) (Some 21.4%float)
                            end;
     makedirs_fails := false; open_fails := false; stat_fails := false;
     write_fails := fun _ => false; flush_fails := fun _ => false;
     gspread_outcome := fun _ => RemoteOk |}.

(** A machine on which the output directory cannot be made. *)
Definition env_no_makedirs : Env :=
  {| script_path := script_path Sample.env;
     wall_clock := wall_clock Sample.env;
     local_clock := local_clock Sample.env;
     dht_driver := dht_driver Sample.env;
     makedirs_fails := true; open_fails := false; stat_fails := false;
     write_fails := fun _ => false; flush_fails := fun _ => false;
     gspread_outcome := fun _ => RemoteOk |}.

(** A machine on which [os.stat] fails. *)
Definition env_no_stat : Env :=
  {| script_path := script_path Sample.env;
     wall_clock := wall_clock Sample.env;
     local_clock := local_clock Sample.env;
     dht_driver := dht_driver Sample.env;
     makedirs_fails := false; open_fails := false; stat_fails := true;
     write_fails := fun _ => false; flush_fails := fun _ => false;
     gspread_outcome := fun _ => RemoteOk |}.

(** A machine on which the first [write] fails. *)
Definition env_first_write_fails : Env :=
  {| script_path := script_path Sample.env;
     wall_clock := wall_clock Sample.env;
     local_clock := local_clock Sample.env;
     dht_driver := dht_driver Sample.env;
     makedirs_fails := false; open_fails := false; stat_fails := false;
     write_fails := fun k => match k with O => true | _ => false end;
     flush_fails := fun _ => false;
     gspread_outcome := fun _ => RemoteOk |}.

(** A log that already holds a header and one line. *)
Definition old_log : string := header +:+ "2021-11-03" +:+ CRLF.

Definition logged_world : World :=
  {| fs := <[output_dir Sample.env := NDir ["sensor_output.csv"] ]>
           (<[output_file_path Sample.env := NFile old_log]> ∅);
     buffered := ""; sheets := <["ABC123" := [] ]> (<["XYZ789" := [] ]> ∅);
     calls := Sample.no_calls; trace := [] |}.

(** Two sensors, the second without a pin in its URL file. *)
Definition outside : string * Dict.t string :=
  ("home_outside", [("id", "XYZ789"); ("name", "home_outside")]).

(** A file that [main]'s own pattern finds, [url] being the start of its
    name, and that does not split in two. *)
Definition main_world : World :=
  {| fs := <[script_path Sample.env := NDir ["url_home_outside.txt"] ]>
           (<[OsPath.join (script_path Sample.env) "url_home_outside.txt"
              := NFile "id"]> ∅);
     buffered := ""; sheets := ∅; calls := Sample.no_calls; trace := [] |}.

End Cases.

(** The [try] block of [open_output_file], on its own. *)
Definition open_tail (env : Env) : M (option file_handle) :=
  try_except
    (f <- open_append env (output_file_path env) ;;
     size <- os_stat_size env (output_file_path env) ;;
     (if (size =? 0)%nat then file_write env f header else ret tt) ;;
     ret (Some f))%py
    (ret None).

(** ** Vocabulary for numbers: numerals read back, exact values *)

(** Reading a numeral, the other way round from formatting. *)
Module Numeral.
Local Open Scope Z_scope.

Definition digit_of (c : ascii) : option Z :=
  let n := Z.of_N (N_of_ascii c) in
  if (48 <=? n) && (n <=? 57) then Some (n - 48) else None.

Fixpoint all_digits (s : string) : bool :=
  match s with
  | "" => true
  | String c r => bool_decide (is_Some (digit_of c)) && all_digits r
  end.

(** The number that a string of digits denotes, after [acc]. *)
Fixpoint number_from (s : string) (acc : Z) : option Z :=
  match s with
  | "" => Some acc
  | String c r =>
      match digit_of c with
      | Some d => number_from r (10 * acc + d)
      | None => None
      end
  end.

Definition number (s : string) : option Z :=
  match s with
  | "" => None
  | _ => number_from s 0
  end.

(** What stands before the first point, and what stands after it. *)
Fixpoint cut_point (s : string) : option (string * string) :=
  match s with
  | "" => None
  | String c r =>
      if Ascii.eqb c "." then Some ("", r)
      else match cut_point r with
           | Some (a, b) => Some (String c a, b)
           | None => None
           end
  end.

(** One digit or more, a point, one digit: the value in tenths. *)
Definition read_unsigned (s : string) : option Z :=
  match cut_point s with
  | Some (whole, String d "") =>
      match number whole, digit_of d with
      | Some i, Some f => Some (10 * i + f)
      | _, _ => None
      end
  | _ => None
  end.

(** A numeral with one decimal, with a minus sign or without: its sign and
    its value in tenths. *)
Definition read_1f (s : string) : option (bool * Z) :=
  match s with
  | String c r =>
      if Ascii.eqb c "-" then option_map (pair true) (read_unsigned r)
      else option_map (pair false) (read_unsigned s)
  | "" => None
  end.

End Numeral.

(** [n] is the integer nearest to [num / den], the even one of the two
    when [num / den] lies half way ([0 < den]). *)
Definition nearest_even (num den n : Z) : Prop :=
  (Z.abs (2 * num - 2 * n * den) <= den /\
   (Z.abs (2 * num - 2 * n * den) = den -> Z.even n = true))%Z.

(** [text] shows the float [x] with one decimal: for a finite [x], whose
    exact value is [m * 2^e] with the sign [s], it is a numeral with one
    decimal, of the same sign, whose tenths are the integer nearest to ten
    times that value; a zero is 0.0 with its sign; the others are written
    out as Python does. *)
Definition shows_1f (x : float) (text : string) : Prop :=
  match Prim2SF x with
  | S754_zero s => Numeral.read_1f text = Some (s, 0%Z)
  | S754_finite s m e =>
      exists n, Numeral.read_1f text = Some (s, n) /\
                nearest_even (10 * Z.pos m * 2 ^ Z.max e 0)
                             (2 ^ Z.max (- e) 0) n
  | S754_infinity s => text = if s then "-inf" else "inf"
  | S754_nan => text = "nan"
  end%Z.

(** The exact value of a finite float, counted in units of [2^-1074], the
    step between the smallest binary64 numbers: every finite float is a
    whole number of these units, and 60 seconds are [60 * 2^1074] of
    them. *)
Definition ulps (x : float) : option Z :=
  match Prim2SF x with
  | S754_zero _ => Some 0
  | S754_finite s m e =>
      Some ((if s then -1 else 1) * (Z.pos m * 2 ^ (e + 1074)))
  | _ => None
  end%Z.

(** An environment that answers for [os.makedirs] as a POSIX system does
    where the script is concerned: beneath a regular file no directory can
    be made. *)
Definition makedirs_posix (env : Env) (w : World) : Prop :=
  (exists c, fs w !! fst (OsPath.split (output_dir env)) = Some (NFile c)) ->
  makedirs_fails env = true.

(** * Properties *)

(** ** The readings *)

(** C8: a reading that the driver delivers complete is returned with the
    Celsius value as delivered and the Fahrenheit value computed from it as
    [temp_c * 9 / 5 + 32], in float arithmetic, before any rounding. *)
Theorem read_sensor_fahrenheit (env : Env) (dht_sensor : sensor_kind)
  (dht_pin : option string) (input_time : struct_time) (w : World)
  (humidity temp_c : float) :
  dht_driver env (dht_calls (calls w)) = DhtReturn (Some humidity) (Some temp_c) ->
  exists l : sensor_list,
    fst (read_sensor env dht_sensor dht_pin input_time w) = Ok (Some l) /\
    item1 l = temp_c /\
    item3 l = humidity /\
    item2 l = (item1 l * 9 / 5 + 32)%float.
Proof.
  intros Hdrv. unfold read_sensor, bind, Adafruit_DHT_read_retry.
  rewrite Hdrv. cbn. eexists. repeat split; reflexivity.
Qed.

Lemma read_sensor_fahrenheit_witness :
  exists l : sensor_list,
    fst (read_sensor Sample.env DHT22 (Some "4") Sample.read_time Sample.world)
    = Ok (Some l) /\
    item1 l = 21.4%float /\
    item3 l = 55.2%float /\
    item2 l = (item1 l * 9 / 5 + 32)%float.
Proof.
  apply (read_sensor_fahrenheit Sample.env DHT22 (Some "4") Sample.read_time
           Sample.world).
  reflexivity.
Defined.

(** ** The sleep between two rounds *)

Lemma rem_60_defined (x : float) : exists r, PyFloat.rem x 60 = Some r.
Proof.
  unfold PyFloat.rem.
  change (is_zero 60) with false. cbv iota.
  destruct (is_zero (PyFloat.fmod x 60)); [eauto|].
  destruct (Bool.eqb _ _); eauto.
Qed.

Lemma sleep_length_value (start_time now r : float) (w : World) :
  PyFloat.rem (now - start_time) 60 = Some r ->
  sleep_length start_time now w = (Ok (120 - r)%float, w).
Proof. intros H. unfold sleep_length. rewrite H. reflexivity. Qed.

(** *** Binary64 numbers in canonical form *)

Section FloatFacts.
Local Open Scope Z_scope.

Lemma digits2_bounds (p : positive) :
  2 ^ (Z.pos (digits2_pos p) - 1) <= Z.pos p < 2 ^ Z.pos (digits2_pos p).
Proof.
  induction p as [p IH|p IH|]; cbn [digits2_pos].
  - rewrite Pos2Z.inj_succ, (Pos2Z.inj_xI p).
    replace (Z.succ (Z.pos (digits2_pos p)) - 1)
      with (Z.succ (Z.pos (digits2_pos p) - 1)) by lia.
    rewrite !Z.pow_succ_r by lia. lia.
  - rewrite Pos2Z.inj_succ, (Pos2Z.inj_xO p).
    replace (Z.succ (Z.pos (digits2_pos p)) - 1)
      with (Z.succ (Z.pos (digits2_pos p) - 1)) by lia.
    rewrite !Z.pow_succ_r by lia. lia.
  - cbn. lia.
Qed.

Lemma digits2_small (p : positive) :
  Z.pos p < 2 ^ 53 -> Z.pos (digits2_pos p) <= 53.
Proof.
  intros Hp. destruct (digits2_bounds p) as [Hlo _].
  destruct (Z_le_gt_dec (Z.pos (digits2_pos p)) 53) as [H|H]; [exact H|].
  exfalso.
  assert (2 ^ 53 <= 2 ^ (Z.pos (digits2_pos p) - 1))
    by (apply Z.pow_le_mono_r; lia).
  lia.
Qed.

Lemma digits2_shifted (m d : positive) :
  digits2_pos (Pos.iter xO m d) = (digits2_pos m + d)%positive.
Proof.
  induction d as [|d IH] using Pos.peano_ind.
  - cbn. lia.
  - rewrite Pos.iter_succ. cbn [digits2_pos]. rewrite IH. lia.
Qed.

Lemma shifted_value (m d : positive) :
  Z.pos (Pos.iter xO m d) = Z.pos m * 2 ^ Z.pos d.
Proof.
  induction d as [|d IH] using Pos.peano_ind.
  - cbn. lia.
  - rewrite Pos.iter_succ, (Pos2Z.inj_xO (Pos.iter xO m d)), IH, Pos2Z.inj_succ, Z.pow_succ_r by lia.
    lia.
Qed.

(** Putting [p * 2^e] in canonical form: the mantissa moves left, nothing
    is lost. *)
Lemma shl_align_canonical (s : bool) (p : positive) (e : Z) :
  -1074 <= e <= 971 -> Z.pos p < 2 ^ 53 ->
  exists m' e',
    shl_align p e (fexp prec emax (Z.pos (digits2_pos p) + e)) = (m', e') /\
    SpecFloat.valid_binary prec emax (S754_finite s m' e') = true /\
    -1074 <= e' <= e /\
    (e' = e -> m' = p) /\
    Z.pos m' * 2 ^ (e' + 1074) = Z.pos p * 2 ^ (e + 1074).
Proof.
  intros He Hp. pose proof (digits2_small p Hp) as Hd.
  unfold shl_align, fexp, emin. change prec with 53. change emax with 1024.
  cbn [SpecFloat.valid_binary].
  set (d := Z.pos (digits2_pos p)) in *.
  destruct (Z.max (d + e - 53) (3 - 1024 - 53) - e) as [|n|n] eqn:Hn.
  - exists p, e. split; [reflexivity|].
    unfold bounded, canonical_mantissa, fexp, emin. fold d.
    split; [|split; [lia|split; [reflexivity|reflexivity]]].
    apply andb_true_intro. split; [apply Z.eqb_eq; lia|apply Z.leb_le; lia].
  - lia.
  - exists (Pos.iter xO p n), (Z.max (d + e - 53) (3 - 1024 - 53)).
    split; [reflexivity|].
    unfold bounded, canonical_mantissa, fexp, emin.
    rewrite digits2_shifted, Pos2Z.inj_add. fold d.
    split; [|split; [lia|split; [lia|]]].
    + apply andb_true_intro. split; [apply Z.eqb_eq; lia|apply Z.leb_le; lia].
    + rewrite shifted_value, <- Z.mul_assoc, <- Z.pow_add_r by lia.
      f_equal. f_equal. lia.
Qed.

End FloatFacts.

(** *** The remainder is exact *)

Section Remainder.
Local Open Scope Z_scope.

(** A finite float has an exponent within the format and 53 bits at most. *)
Lemma finite_valid (x : float) s m e :
  Prim2SF x = S754_finite s m e ->
  -1074 <= e <= 971 /\ Z.pos m < 2 ^ 53.
Proof.
  intros Hx. pose proof (FloatAxioms.Prim2SF_valid x) as Hv. rewrite Hx in Hv.
  cbn [SpecFloat.valid_binary] in Hv.
  unfold bounded, canonical_mantissa, fexp, emin in Hv.
  change prec with 53 in Hv. change emax with 1024 in Hv.
  apply andb_prop in Hv as [Hc Hb].
  apply Z.eqb_eq in Hc. apply Z.leb_le in Hb.
  split; [lia|].
  destruct (digits2_bounds m) as [_ Hhi].
  assert (2 ^ Z.pos (digits2_pos m) <= 2 ^ 53)
    by (apply Z.pow_le_mono_r; lia).
  lia.
Qed.

(** Sixty, as a binary64 number. *)
Lemma sixty_repr :
  exists my : positive,
    Prim2SF 60 = S754_finite false my (-47) /\
    Z.pos my < 2 ^ 53 /\
    Z.pos my * 2 ^ 1027 = 60 * 2 ^ 1074.
Proof.
  exists 8444249301319680%positive.
  split; [reflexivity|]. split; [reflexivity|]. vm_compute. reflexivity.
Qed.

(** Two positive finite floats in canonical form compare as their
    exponents, then their mantissas, do. *)
Lemma ltb_finite (r y : float) (m' my : positive) (e' ey : Z) :
  Prim2SF r = S754_finite false m' e' ->
  Prim2SF y = S754_finite false my ey ->
  e' <= ey -> (e' = ey -> Z.pos m' < Z.pos my) ->
  (0 <=? r)%float = true /\ (r <? y)%float = true.
Proof.
  intros Hr Hy He Hm. split.
  - rewrite FloatAxioms.leb_spec, Hr. reflexivity.
  - rewrite FloatAxioms.ltb_spec, Hr, Hy.
    unfold SFltb, SFcompare.
    destruct (Z.compare_spec e' ey) as [Heq|Hlt|Hgt].
    + specialize (Hm Heq).
      change (Pos.compare_cont Eq m' my = Lt) in Hm.
      rewrite Hm. reflexivity.
    + reflexivity.
    + exfalso. lia.
Qed.

(** For an elapsed time that is finite and not negative, [x % 60.0] is the
    float whose exact value is the remainder of the exact value of [x] by
    sixty seconds: nothing is rounded. *)
Lemma rem_60_exact (x : float) (a : Z) :
  ulps x = Some a -> 0 <= a ->
  exists r, PyFloat.rem x 60 = Some r /\
            ulps r = Some (a mod (60 * 2 ^ 1074)) /\
            (0 <=? r)%float = true /\ (r <? 60)%float = true.
Proof.
  unfold ulps at 1. intros Ha Hpos.
  destruct sixty_repr as (my & H60 & Hmyb & Hmyv).
  unfold PyFloat.rem, PyFloat.fmod. rewrite H60.
  change (is_zero 60) with false. cbv iota.
  change (get_sign 60) with false.
  change (60 <? zero)%float with false.
  destruct (Prim2SF x) as [s| | |s m e] eqn:Hx; try discriminate.
  - injection Ha as <-.
    unfold is_zero. rewrite FloatAxioms.eqb_spec, Hx.
    change (Prim2SF zero) with (S754_zero false). cbn [SFeqb SFcompare].
    exists zero.
    split; [reflexivity|split; [reflexivity|split; reflexivity]].
  - injection Ha as <-.
    destruct (finite_valid x s m e Hx) as (He & Hm).
    assert (Hpow : 0 < 2 ^ (e + 1074)) by (apply Z.pow_pos_nonneg; lia).
    destruct s; [exfalso; nia|].
    rewrite Z.mul_1_l.
    set (e0 := Z.min e (-47)).
    set (A := Z.pos m * 2 ^ (e - e0)).
    set (B := Z.pos my * 2 ^ (-47 - e0)).
    assert (HB : 0 < B).
    { subst B. apply Z.mul_pos_pos; [lia|apply Z.pow_pos_nonneg; lia]. }
    assert (HA : 0 <= A).
    { subst A. apply Z.mul_nonneg_nonneg; [lia|apply Z.pow_nonneg; lia]. }
    assert (Hscale : (Z.pos m * 2 ^ (e + 1074)) mod (60 * 2 ^ 1074)
                     = (A mod B) * 2 ^ (e0 + 1074)).
    { replace (Z.pos m * 2 ^ (e + 1074)) with (A * 2 ^ (e0 + 1074)).
      2:{ subst A. rewrite <- Z.mul_assoc, <- Z.pow_add_r by lia.
          f_equal. f_equal. lia. }
      replace (60 * 2 ^ 1074) with (B * 2 ^ (e0 + 1074)).
      2:{ subst B. rewrite <- Z.mul_assoc, <- Z.pow_add_r by lia.
          replace (-47 - e0 + (e0 + 1074)) with 1027 by lia.
          exact Hmyv. }
      apply Zmult_mod_distr_r. }
    rewrite Hscale. clear Hscale Hmyv.
    pose proof (Z.mod_pos_bound A B HB) as Hr.
    destruct (A mod B) as [|p|p] eqn:Hmod; [| |lia].
    + change (SF2Prim (S754_zero false)) with zero.
      change (is_zero zero) with true. cbv iota.
      exists zero.
      split; [reflexivity|split; [reflexivity|split; reflexivity]].
    + assert (Hp : Z.pos p < 2 ^ 53).
      { destruct (Z.le_ge_cases e (-47)) as [Hle|Hge].
        - assert (A = Z.pos m).
          { subst A e0. rewrite Z.min_l by lia. rewrite Z.sub_diag. lia. }
          pose proof (Z.mod_le A B HA HB). lia.
        - assert (B = Z.pos my).
          { subst B e0. rewrite Z.min_r by lia. rewrite Z.sub_diag. lia. }
          lia. }
      destruct (shl_align_canonical false p e0 ltac:(subst e0; lia) Hp)
        as (m' & e' & -> & Hvalid & He' & Hsame & Hval).
      set (r := SF2Prim (S754_finite false m' e')).
      assert (Hr' : Prim2SF r = S754_finite false m' e')
        by (apply FloatAxioms.Prim2SF_SF2Prim; exact Hvalid).
      unfold is_zero. rewrite FloatAxioms.eqb_spec, FloatAxioms.ltb_spec, Hr'.
      change (Prim2SF zero) with (S754_zero false).
      cbn [SFeqb SFltb SFcompare Bool.eqb].
      exists r. split; [reflexivity|]. split.
      * unfold ulps. rewrite Hr', Z.mul_1_l, Hval. reflexivity.
      * apply (ltb_finite r 60 m' my e' (-47) Hr' H60).
        -- subst e0. lia.
        -- intros Heq.
           assert (He0 : e0 = -47) by (subst e0; lia).
           assert (m' = p) by (apply Hsame; lia). subst m'.
           assert (HB' : B = Z.pos my).
           { subst B. rewrite He0. change (2 ^ (-47 - -47)) with 1. lia. }
           lia.
Qed.

End Remainder.

(** C7: once the sensors of a round have been polled, the script reads the
    wall clock and asks to sleep [120 - ((now - start_time) % 60)] seconds.
    The remainder is a true one: when the elapsed time [now - start_time]
    is finite and not negative, it is exactly the elapsed time reduced
    modulo sixty seconds, a value from 0 up to but not 60 that differs from
    the elapsed time by a whole number of minutes.  When the elapsed time is
    5 seconds, the sleep is 115 seconds. *)
Theorem poll_cycle_sleep_length (env : Env) (start_time : float)
  (sheet_ids : Dict.t (Dict.t string)) (f : option file_handle) (w w1 : World) :
  (read_time <- time_localtime env ;;
   poll_sensors env f read_time sheet_ids)%py w = (Ok tt, w1) ->
  let now := wall_clock env (time_calls (calls w1)) in
  exists r : float,
    PyFloat.rem (now - start_time) 60 = Some r /\
    trace (snd (poll_cycle env start_time sheet_ids f w))
    = trace w1 ++ [EvSleep (120 - r)] /\
    (forall elapsed : Z,
       ulps (now - start_time) = Some elapsed -> (0 <= elapsed)%Z ->
       ulps r = Some (elapsed mod (60 * 2 ^ 1074))%Z /\
       (0 <=? r)%float = true /\ (r <? 60)%float = true) /\
    ((now - start_time)%float = 5%float -> (120 - r)%float = 115%float).
Proof.
  intros Hpoll now.
  destruct (rem_60_defined (now - start_time)) as [r Hr].
  exists r. split; [exact Hr|]. split; [|split].
  - unfold poll_cycle, bind in *.
    destruct (time_localtime env w) as [[read_time|e] w0]; [|discriminate].
    destruct (poll_sensors env f read_time sheet_ids w0) as [[[]|e] w2];
      [|discriminate].
    injection Hpoll as ->.
    unfold time_time. fold now.
    rewrite (sleep_length_value _ _ _ _ Hr).
    unfold time_sleep, bind, emit.
    destruct (valid_sleep (120 - r)); reflexivity.
  - intros elapsed Hel Hpos.
    destruct (rem_60_exact (now - start_time) elapsed Hel Hpos)
      as (r' & Hr' & Hexact).
    rewrite Hr in Hr'. injection Hr' as <-. exact Hexact.
  - intros H5. rewrite H5 in Hr.
    vm_compute in Hr. injection Hr as <-. reflexivity.
Qed.

Lemma poll_cycle_sleep_length_witness :
  let w := set_calls (tick_time (calls Sample.world)) Sample.world in
  let w1 := snd ((read_time <- time_localtime Sample.env ;;
                  poll_sensors Sample.env (Some Sample.handle) read_time
                    [Sample.livingroom])%py w) in
  let now := wall_clock Sample.env (time_calls (calls w1)) in
  exists r : float,
    PyFloat.rem (now - Sample.start_time) 60 = Some r /\
    trace (snd (poll_cycle Sample.env Sample.start_time [Sample.livingroom]
                  (Some Sample.handle) w))
    = trace w1 ++ [EvSleep (120 - r)] /\
    (forall elapsed : Z,
       ulps (now - Sample.start_time) = Some elapsed -> (0 <= elapsed)%Z ->
       ulps r = Some (elapsed mod (60 * 2 ^ 1074))%Z /\
       (0 <=? r)%float = true /\ (r <? 60)%float = true) /\
    ((now - Sample.start_time)%float = 5%float -> (120 - r)%float = 115%float).
Proof.
  intros w w1.
  apply (poll_cycle_sleep_length Sample.env Sample.start_time
           [Sample.livingroom] (Some Sample.handle) w w1).
  vm_compute. reflexivity.
Defined.

(** Sixty-five and a half seconds after the start the remainder is five and
    a half seconds, and the sleep 114.5 seconds. *)
Example sleep_after_a_minute :
  PyFloat.rem 65.5 60 = Some 5.5%float /\
  sleep_length 0 65.5 Sample.world = (Ok 114.5%float, Sample.world).
Proof. split; vm_compute; reflexivity. Qed.

(** ** The two write paths, one sensor at a time *)

Section Paths.

Variable env : Env.

Lemma read_sensor_complete sensor pin t w h c :
  dht_driver env (dht_calls (calls w)) = DhtReturn (Some h) (Some c) ->
  read_sensor env sensor pin t w
  = (Ok (Some (reading_of t h c)), after_read sensor pin w).
Proof.
  intros H. unfold read_sensor, bind, Adafruit_DHT_read_retry.
  rewrite H. reflexivity.
Qed.

Lemma read_sensor_absent sensor pin t w h c :
  dht_driver env (dht_calls (calls w)) = DhtReturn h c ->
  h = None \/ c = None ->
  read_sensor env sensor pin t w
  = (Ok None, record (EvPrint no_data) (after_read sensor pin w)).
Proof.
  intros H Habs. unfold read_sensor, bind, Adafruit_DHT_read_retry.
  rewrite H. destruct Habs as [-> | ->]; [|destruct h]; reflexivity.
Qed.

(** The bare [except] of [append_file] lets nothing out. *)
Lemma append_file_ok f out t pin w :
  fst (append_file env f out t pin w) = Ok tt.
Proof.
  unfold append_file, try_except, bind, getattr_write, subscript, ret, raise.
  destruct f as [[p]|], out as [l|]; cbn; try reflexivity.
  unfold file_write. destruct (write_fails env _); cbn; [reflexivity|].
  unfold file_flush. cbn. destruct (flush_fails env _); reflexivity.
Qed.

(** [append_file] leaves the spreadsheets and the other counters alone. *)
Lemma append_file_frame f out t pin w :
  let w' := snd (append_file env f out t pin w) in
  remote_view w' = remote_view w /\
  dht_calls (calls w') = dht_calls (calls w) /\
  time_calls (calls w') = time_calls (calls w) /\
  localtime_calls (calls w') = localtime_calls (calls w).
Proof.
  unfold append_file, try_except, bind, getattr_write, subscript, ret, raise.
  destruct f as [[p]|], out as [l|]; cbn; try (repeat split; reflexivity).
  unfold file_write. destruct (write_fails env _); cbn;
    [repeat split; reflexivity|].
  unfold file_flush. cbn. destruct (flush_fails env _); repeat split; reflexivity.
Qed.

(** Without a handle or without a reading nothing reaches the file: the
    failure is caught and reported. *)
Lemma append_file_nothing f out t pin w :
  f = None \/ out = None ->
  append_file env f out t pin w = (Ok tt, record (EvPrint no_write) w).
Proof.
  unfold append_file, try_except, bind, getattr_write, subscript, ret, raise.
  intros [-> | ->]; [|destruct f as [[p]|]]; reflexivity.
Qed.

(** With a handle and a reading, [write] is called with the line of the
    reading, whatever comes of it. *)
Lemma append_file_attempt h l t pin w :
  let w' := snd (append_file env (Some h) (Some l) t pin w) in
  write_calls (calls w') = S (write_calls (calls w)) /\
  exists evs, trace w' = trace w ++ EvWrite (log_line l t pin) :: evs /\
              List.filter is_write evs = [] /\
              List.filter is_append_row evs = [].
Proof.
  unfold append_file, try_except, bind, getattr_write, subscript, ret, raise.
  destruct h as [p]. cbn.
  unfold file_write. destruct (write_fails env _); cbn.
  - split; [reflexivity|]. eexists. split; [|split].
    + rewrite <- app_assoc. reflexivity.
    + reflexivity.
    + reflexivity.
  - unfold file_flush. cbn. destruct (flush_fails env _); cbn.
    + split; [reflexivity|]. eexists. split; [|split].
      * rewrite <- !app_assoc. reflexivity.
      * reflexivity.
      * reflexivity.
    + split; [reflexivity|]. eexists. split; [|split].
      * rewrite <- !app_assoc. reflexivity.
      * reflexivity.
      * reflexivity.
Qed.

(** When neither [write] nor [flush] fails, the buffer and the line are on
    disk afterwards. *)
Lemma append_file_written p l t pin w :
  write_fails env (write_calls (calls w)) = false ->
  flush_fails env (flush_calls (calls w)) = false ->
  let w' := snd (append_file env (Some (FileHandle p)) (Some l) t pin w) in
  let old := match fs w !! p with Some (NFile content) => content | _ => "" end in
  fs w' = <[p := NFile (old +:+ (buffered w +:+ log_line l t pin))]> (fs w) /\
  buffered w' = "" /\
  write_calls (calls w') = S (write_calls (calls w)) /\
  flush_calls (calls w') = S (flush_calls (calls w)).
Proof.
  intros Hw Hf.
  unfold append_file, try_except, bind, getattr_write, subscript, ret, raise.
  cbn. unfold file_write. rewrite Hw. cbn.
  unfold file_flush. cbn. rewrite Hf. cbn. repeat split; reflexivity.
Qed.

(** The bare [except] of [append_google_sheet] lets nothing out. *)
Lemma append_google_sheet_ok out key t w :
  fst (append_google_sheet env out key t w) = Ok tt.
Proof.
  unfold append_google_sheet, try_except, bind, gspread_service_account,
    open_by_key_sheet1, append_row, subscript, emit, bind, ret, raise.
  remote_cases env w key; destruct out; remote_run; reflexivity.
Qed.

(** [append_google_sheet] leaves the file system, the buffer and the other
    counters alone, and counts one upload. *)
Lemma append_google_sheet_frame out key t w :
  let w' := snd (append_google_sheet env out key t w) in
  local_view w' = local_view w /\
  upload_calls (calls w') = S (upload_calls (calls w)) /\
  dht_calls (calls w') = dht_calls (calls w) /\
  time_calls (calls w') = time_calls (calls w) /\
  localtime_calls (calls w') = localtime_calls (calls w).
Proof.
  unfold append_google_sheet, try_except, bind, gspread_service_account,
    open_by_key_sheet1, append_row, subscript, emit, bind, ret, raise.
  remote_cases env w key; destruct out; remote_run; repeat split; reflexivity.
Qed.

(** Without a reading no row is sent: [append_row] is not called and the
    spreadsheets stay as they are. *)
Lemma append_google_sheet_nothing key t w :
  let w' := snd (append_google_sheet env None key t w) in
  sheets w' = sheets w /\
  exists evs, trace w' = trace w ++ evs /\
              List.filter is_write evs = [] /\
              List.filter is_append_row evs = [].
Proof.
  unfold append_google_sheet, try_except, bind, gspread_service_account,
    open_by_key_sheet1, append_row, subscript, emit, bind, ret, raise.
  remote_cases env w key; remote_run;
    (split; [reflexivity|]);
    (eexists; split; [rewrite <- ?app_assoc; reflexivity|split; reflexivity]).
Qed.

(** With a reading, a spreadsheet under the key and a service that does
    not fail, exactly one row is appended. *)
Lemma append_google_sheet_appended l key rows t w :
  sheets w !! key = Some rows ->
  gspread_outcome env (upload_calls (calls w)) = RemoteOk ->
  let w' := snd (append_google_sheet env (Some l) (Some key) t w) in
  sheets w' = <[key := rows ++ [sheet_row l t]]> (sheets w) /\
  trace w' = trace w ++ [EvServiceAccount; EvOpenByKey (Some key);
                         EvAppendRow key (sheet_row l t)].
Proof.
  intros Hk Ho.
  unfold append_google_sheet, try_except, bind, gspread_service_account,
    open_by_key_sheet1, append_row, subscript, emit, bind, ret, raise.
  remote_run. split; [reflexivity|]. rewrite <- !app_assoc. reflexivity.
Qed.

End Paths.

(** ** One sensor *)

Lemma bind_ok {A B} (c : M A) (k : A -> M B) (w : World) (a : A) :
  fst (c w) = Ok a -> bind c k w = k a (snd (c w)).
Proof. unfold bind. destruct (c w) as [[a'|e] w']; cbn; congruence. Qed.

Section OneSensor.

Variable env : Env.
Variable f : option file_handle.
Variable read_time : struct_time.

(** A complete reading goes through the local path, then the remote one. *)
Lemma poll_sensor_complete loc sd w h c :
  dht_driver env (dht_calls (calls w)) = DhtReturn (Some h) (Some c) ->
  let pin := Dict.get "pin" sd in
  let out := Some (reading_of read_time h c) in
  poll_sensor env f read_time (loc, sd) w
  = append_google_sheet env out (Dict.get "id" sd) read_time
      (snd (append_file env f out read_time pin (after_read DHT22 pin w))).
Proof.
  intros Hd pin out. unfold poll_sensor, bind.
  rewrite (read_sensor_complete env DHT22 (Dict.get "pin" sd) read_time w h c Hd).
  fold pin out.
  pose proof (append_file_ok env f out read_time pin (after_read DHT22 pin w))
    as Hok.
  destruct (append_file env f out read_time pin (after_read DHT22 pin w))
    as [[[]|e] w2]; cbn in *; [reflexivity | discriminate].
Qed.

(** So does an absent one, as [None]. *)
Lemma poll_sensor_absent loc sd w h c :
  dht_driver env (dht_calls (calls w)) = DhtReturn h c ->
  h = None \/ c = None ->
  let pin := Dict.get "pin" sd in
  poll_sensor env f read_time (loc, sd) w
  = append_google_sheet env None (Dict.get "id" sd) read_time
      (record (EvPrint no_write)
         (record (EvPrint no_data) (after_read DHT22 pin w))).
Proof.
  intros Hd Habs pin. unfold poll_sensor, bind.
  rewrite (read_sensor_absent env DHT22 (Dict.get "pin" sd) read_time w h c
             Hd Habs).
  fold pin. rewrite append_file_nothing by auto. reflexivity.
Qed.

Lemma poll_sensor_ok item w :
  (exists h c, dht_driver env (dht_calls (calls w)) = DhtReturn h c) ->
  let w' := snd (poll_sensor env f read_time item w) in
  fst (poll_sensor env f read_time item w) = Ok tt /\
  dht_calls (calls w') = S (dht_calls (calls w)) /\
  upload_calls (calls w') = S (upload_calls (calls w)) /\
  time_calls (calls w') = time_calls (calls w) /\
  localtime_calls (calls w') = localtime_calls (calls w).
Proof.
  intros (h & c & Hd). destruct item as [loc sd].
  assert (Hcase : (exists h' c', h = Some h' /\ c = Some c') \/ h = None \/ c = None).
  { destruct h, c; eauto. }
  destruct Hcase as [(h' & c' & -> & ->) | Habs]; cbn zeta.
  - rewrite (poll_sensor_complete _ _ _ _ _ Hd).
    split; [apply append_google_sheet_ok|].
    pose proof (append_google_sheet_frame env (Some (reading_of read_time h' c'))
                  (Dict.get "id" sd) read_time
                  (snd (append_file env f (Some (reading_of read_time h' c'))
                          read_time (Dict.get "pin" sd)
                          (after_read DHT22 (Dict.get "pin" sd) w)))) as Hg.
    pose proof (append_file_frame env f (Some (reading_of read_time h' c'))
                  read_time (Dict.get "pin" sd)
                  (after_read DHT22 (Dict.get "pin" sd) w)) as Hf.
    cbn zeta in Hg, Hf.
    destruct Hg as (_ & Hu & Hd' & Ht & Hl).
    destruct Hf as (Hr & Hd'' & Ht' & Hl').
    unfold remote_view in Hr. injection Hr as _ Hu'.
    rewrite Hu, Hd', Ht, Hl, Hu', Hd'', Ht', Hl'. repeat split; reflexivity.
  - rewrite (poll_sensor_absent _ _ _ _ _ Hd Habs).
    split; [apply append_google_sheet_ok|].
    pose proof (append_google_sheet_frame env None (Dict.get "id" sd) read_time
                  (record (EvPrint no_write)
                     (record (EvPrint no_data)
                        (after_read DHT22 (Dict.get "pin" sd) w)))) as Hg.
    cbn zeta in Hg. destruct Hg as (_ & Hu & Hd' & Ht & Hl).
    rewrite Hu, Hd', Ht, Hl. repeat split; reflexivity.
Qed.

End OneSensor.

Lemma poll_sensors_step (env : Env) (f : option file_handle)
  (read_time : struct_time) item rest (w : World) :
  fst (poll_sensor env f read_time item w) = Ok tt ->
  poll_sensors env f read_time (item :: rest) w
  = poll_sensors env f read_time rest (snd (poll_sensor env f read_time item w)).
Proof.
  intros Hok. unfold poll_sensors. cbn [for_each].
  exact (bind_ok (poll_sensor env f read_time item)
           (fun _ => for_each rest (poll_sensor env f read_time)) w tt Hok).
Qed.

(** C3: when the driver returns no humidity or no temperature, polling that
    sensor raises nothing, leaves the file system, the buffer of the log and
    the spreadsheets as they were, calls neither [write] nor [append_row],
    and the loop goes on with the next sensor. *)
Theorem absent_reading_writes_nothing (env : Env) (f : option file_handle)
  (read_time : struct_time) (item : string * Dict.t string)
  (rest : Dict.t (Dict.t string)) (w : World) (h c : option float) :
  dht_driver env (dht_calls (calls w)) = DhtReturn h c ->
  h = None \/ c = None ->
  let r := poll_sensor env f read_time item w in
  fst r = Ok tt /\
  fs (snd r) = fs w /\
  buffered (snd r) = buffered w /\
  sheets (snd r) = sheets w /\
  (exists evs, trace (snd r) = trace w ++ evs /\
               List.filter is_write evs = [] /\
               List.filter is_append_row evs = []) /\
  poll_sensors env f read_time (item :: rest) w
  = poll_sensors env f read_time rest (snd r).
Proof.
  intros Hd Habs r.
  assert (Hok : fst r = Ok tt) by (apply poll_sensor_ok; eauto).
  split; [exact Hok|].
  repeat split; [| | | |apply poll_sensors_step; exact Hok].
  all: subst r; destruct item as [loc sd];
    rewrite (poll_sensor_absent env f read_time loc sd w h c Hd Habs).
  all: set (w2 := record (EvPrint no_write) _).
  all: pose proof (append_google_sheet_frame env None (Dict.get "id" sd)
                     read_time w2) as (Hl & _).
  all: pose proof (append_google_sheet_nothing env (Dict.get "id" sd)
                     read_time w2) as (Hs & evs & Ht & Hw & Ha).
  all: unfold local_view in Hl; injection Hl as Hfs Hbuf _ _.
  - rewrite Hfs. reflexivity.
  - rewrite Hbuf. reflexivity.
  - rewrite Hs. reflexivity.
  - exists ([EvDhtRead DHT22 (Dict.get "pin" sd); EvPrint no_data;
             EvPrint no_write] ++ evs).
    rewrite Ht, !List.filter_app, Hw, Ha. subst w2. cbn.
    rewrite <- !app_assoc. repeat split; reflexivity.
Qed.

Lemma absent_reading_writes_nothing_witness :
  let r := poll_sensor Sample.env_silent (Some Sample.handle) Sample.read_time
             Sample.livingroom Sample.world in
  fst r = Ok tt /\
  fs (snd r) = fs Sample.world /\
  buffered (snd r) = buffered Sample.world /\
  sheets (snd r) = sheets Sample.world /\
  (exists evs, trace (snd r) = trace Sample.world ++ evs /\
               List.filter is_write evs = [] /\
               List.filter is_append_row evs = []) /\
  poll_sensors Sample.env_silent (Some Sample.handle) Sample.read_time
    [Sample.livingroom; Sample.livingroom] Sample.world
  = poll_sensors Sample.env_silent (Some Sample.handle) Sample.read_time
      [Sample.livingroom] (snd r).
Proof.
  apply (absent_reading_writes_nothing Sample.env_silent (Some Sample.handle)
           Sample.read_time Sample.livingroom [Sample.livingroom]
           Sample.world None None).
  - reflexivity.
  - left. reflexivity.
Defined.

Lemma append_file_no_row (env : Env) f out t pin (w : World) :
  exists evs,
    trace (snd (append_file env f out t pin w)) = trace w ++ evs /\
    List.filter is_append_row evs = [].
Proof.
  destruct f as [h|], out as [l|];
    try (rewrite append_file_nothing by auto; exists [EvPrint no_write];
         split; reflexivity).
  destruct (append_file_attempt env h l t pin w) as (_ & evs & Ht & _ & Ha).
  exists (EvWrite (log_line l t pin) :: evs). split; [exact Ht|].
  cbn. exact Ha.
Qed.

(** C1, as the script has it: for a complete reading, a spreadsheet under the
    sensor's id and a service that does not fail, polling the sensor appends
    one row to that sheet and calls [append_row] once.  The row has five
    cells: the date, the time of day, and the Celsius, Fahrenheit and
    humidity values, each rounded to one decimal. *)
Theorem upload_appends_one_row (env : Env) (f : option file_handle)
  (read_time : struct_time) (item : string * Dict.t string) (w : World)
  (h c : float) (key : string) (rows : list (list cell)) :
  dht_driver env (dht_calls (calls w)) = DhtReturn (Some h) (Some c) ->
  Dict.get "id" (snd item) = Some key ->
  sheets w !! key = Some rows ->
  gspread_outcome env (upload_calls (calls w)) = RemoteOk ->
  let w' := snd (poll_sensor env f read_time item w) in
  let row := [CStr (strftime_date read_time);
              CStr (strftime_clock read_time);
              CNum (PyFloat.round_1 c);
              CNum (PyFloat.round_1 (c * 9 / 5 + 32)%float);
              CNum (PyFloat.round_1 h)] in
  sheets w' = <[key := rows ++ [row]]> (sheets w) /\
  (exists evs, trace w' = trace w ++ evs /\
               List.filter is_append_row evs = [EvAppendRow key row]) /\
  length row = 5.
Proof.
  intros Hd Hid Hk Ho w' row. destruct item as [loc sd]. cbn in Hid.
  subst w'. rewrite (poll_sensor_complete env f read_time loc sd w h c Hd).
  rewrite Hid.
  set (pin := Dict.get "pin" sd).
  set (w1 := after_read DHT22 pin w).
  destruct (append_file_frame env f (Some (reading_of read_time h c))
              read_time pin w1) as (Hr & _).
  destruct (append_file_no_row env f (Some (reading_of read_time h c))
              read_time pin w1) as (evs & Ht & Ha).
  set (w2 := snd (append_file env f (Some (reading_of read_time h c))
                    read_time pin w1)) in *.
  unfold remote_view in Hr. injection Hr as Hs Hu.
  assert (Hk2 : sheets w2 !! key = Some rows) by (rewrite Hs; exact Hk).
  assert (Ho2 : gspread_outcome env (upload_calls (calls w2)) = RemoteOk)
    by (rewrite Hu; exact Ho).
  destruct (append_google_sheet_appended env (reading_of read_time h c) key
              rows read_time w2 Hk2 Ho2) as (Hs' & Ht').
  split; [|split; [|reflexivity]].
  - rewrite Hs', Hs. reflexivity.
  - exists ([EvDhtRead DHT22 pin] ++ evs ++
            [EvServiceAccount; EvOpenByKey (Some key); EvAppendRow key row]).
    rewrite Ht', Ht. subst w1. cbn [trace after_read record].
    split.
    + rewrite <- !app_assoc. reflexivity.
    + rewrite !List.filter_app, Ha. reflexivity.
Qed.

Lemma upload_appends_one_row_witness :
  let w' := snd (poll_sensor Sample.env (Some Sample.handle) Sample.read_time
                   Sample.livingroom Sample.world) in
  let row := [CStr (strftime_date Sample.read_time);
              CStr (strftime_clock Sample.read_time);
              CNum (PyFloat.round_1 21.4);
              CNum (PyFloat.round_1 (21.4 * 9 / 5 + 32)%float);
              CNum (PyFloat.round_1 55.2)] in
  sheets w' = <["ABC123" := [] ++ [row]]> (sheets Sample.world) /\
  (exists evs, trace w' = trace Sample.world ++ evs /\
               List.filter is_append_row evs = [EvAppendRow "ABC123" row]) /\
  length row = 5.
Proof.
  apply (upload_appends_one_row Sample.env (Some Sample.handle)
           Sample.read_time Sample.livingroom Sample.world
           55.2%float 21.4%float "ABC123" []); reflexivity.
Defined.

(** C1 with a row of four values does not hold: for a reading of 21.4
    degrees and 55.2 % taken at 09:05:00 the row that reaches the sheet
    carries the time of day next to the date, five values and not four.
    And when the service fails, the same reading adds no row at all. *)
Lemma remote_row_has_five_values :
  let w' := snd (poll_sensor Sample.env (Some Sample.handle) Sample.read_time
                   Sample.livingroom Sample.world) in
  let w'' := snd (poll_sensor Sample.env_failing (Some Sample.handle)
                    Sample.read_time Sample.livingroom Sample.world) in
  (exists row,
     sheets w' !! "ABC123" = Some [row] /\
     row = [CStr "2021-11-04"; CStr "09:05:00";
            CNum 21.4; CNum 70.5; CNum 55.2] /\
     length row <> 4) /\
  sheets w'' !! "ABC123" = Some [].
Proof.
  split.
  - eexists. split; [vm_compute; reflexivity|]. split; [reflexivity|].
    cbn. discriminate.
  - vm_compute. reflexivity.
Qed.

(** ** A round over all sensors, and the loop *)

(** What an upload does to the spreadsheets depends on nothing but the
    spreadsheets and the number of the upload. *)
Lemma append_google_sheet_remote_only (env : Env) out key t (wa wb : World) :
  remote_view wa = remote_view wb ->
  remote_view (snd (append_google_sheet env out key t wa))
  = remote_view (snd (append_google_sheet env out key t wb)).
Proof.
  unfold remote_view. intros H. injection H as Hs Hu.
  unfold append_google_sheet, try_except, bind, gspread_service_account,
    open_by_key_sheet1, append_row, subscript, emit, bind, ret, raise.
  repeat (progress (cbn; rewrite ?Hs, ?Hu)).
  remote_cases env wb key; destruct out;
    repeat (progress (remote_run; rewrite ?Hs, ?Hu));
    reflexivity.
Qed.

Section Rounds.

Variable env : Env.
Variable f : option file_handle.

Hypothesis Hdriver : driver_returns env.

Lemma poll_sensors_ok read_time ids w :
  let r := poll_sensors env f read_time ids w in
  fst r = Ok tt /\
  dht_calls (calls (snd r)) = dht_calls (calls w) + length ids /\
  upload_calls (calls (snd r)) = upload_calls (calls w) + length ids /\
  time_calls (calls (snd r)) = time_calls (calls w) /\
  localtime_calls (calls (snd r)) = localtime_calls (calls w).
Proof.
  revert w. induction ids as [|item rest IH]; intros w.
  - cbn. repeat split; lia.
  - destruct (poll_sensor_ok env f read_time item w (Hdriver _))
      as (Hok & Hd & Hu & Ht & Hl).
    cbn zeta. rewrite (poll_sensors_step env f read_time item rest w Hok).
    destruct (IH (snd (poll_sensor env f read_time item w)))
      as (Hok' & Hd' & Hu' & Ht' & Hl').
    rewrite Hok', Hd', Hu', Ht', Hl', Hd, Hu, Ht, Hl. cbn [length].
    repeat split; lia.
Qed.

(** Without a handle, polling a sensor leaves the local side untouched. *)
Lemma poll_sensor_unopened read_time item w :
  f = None ->
  local_view (snd (poll_sensor env f read_time item w)) = local_view w.
Proof.
  intros ->. destruct item as [loc sd].
  destruct (Hdriver (dht_calls (calls w))) as (h & c & Hd).
  assert (Hcase : (exists h' c', h = Some h' /\ c = Some c') \/ h = None \/ c = None).
  { destruct h, c; eauto. }
  destruct Hcase as [(h' & c' & -> & ->) | Habs].
  - rewrite (poll_sensor_complete env None read_time loc sd w h' c' Hd).
    rewrite append_file_nothing by auto.
    destruct (append_google_sheet_frame env (Some (reading_of read_time h' c'))
                (Dict.get "id" sd) read_time
                (snd (Ok tt, record (EvPrint no_write)
                        (after_read DHT22 (Dict.get "pin" sd) w)))) as (Hl & _).
    rewrite Hl. reflexivity.
  - rewrite (poll_sensor_absent env None read_time loc sd w h c Hd Habs).
    destruct (append_google_sheet_frame env None (Dict.get "id" sd) read_time
                (record (EvPrint no_write)
                   (record (EvPrint no_data)
                      (after_read DHT22 (Dict.get "pin" sd) w)))) as (Hl & _).
    rewrite Hl. reflexivity.
Qed.

Lemma poll_sensors_unopened read_time ids w :
  f = None ->
  local_view (snd (poll_sensors env f read_time ids w)) = local_view w.
Proof.
  intros Hf. revert w. induction ids as [|item rest IH]; intros w.
  - reflexivity.
  - destruct (poll_sensor_ok env f read_time item w (Hdriver _)) as (Hok & _).
    rewrite (poll_sensors_step env f read_time item rest w Hok).
    rewrite IH. apply poll_sensor_unopened, Hf.
Qed.

Variable start_time : float.

Hypothesis Hclock : clock_sane env start_time.

(** A round never raises; it polls every sensor once. *)
Lemma poll_cycle_ok ids w :
  let r := poll_cycle env start_time ids f w in
  fst r = Ok tt /\
  dht_calls (calls (snd r)) = dht_calls (calls w) + length ids /\
  upload_calls (calls (snd r)) = upload_calls (calls w) + length ids /\
  (f = None -> local_view (snd r) = local_view w).
Proof.
  unfold poll_cycle, bind. cbn [time_localtime].
  set (rt := local_clock env _).
  set (w0 := set_calls _ w).
  destruct (poll_sensors_ok rt ids w0) as (Hok & Hd & Hu & Ht & _).
  pose proof (poll_sensors_unopened rt ids w0) as Hloc.
  destruct (poll_sensors env f rt ids w0) as [[[]|e] w1]; cbn in *;
    [|discriminate].
  destruct (Hclock (time_calls (calls w1))) as (r & Hr & Hv).
  rewrite (sleep_length_value _ _ _ _ Hr).
  unfold time_sleep, bind, emit. rewrite Hv. cbn.
  repeat split; try assumption.
Qed.

Lemma poll_loop_ok n ids w :
  let r := poll_loop env n start_time ids f w in
  fst r = Ok tt /\
  dht_calls (calls (snd r)) = dht_calls (calls w) + n * length ids /\
  upload_calls (calls (snd r)) = upload_calls (calls w) + n * length ids /\
  (f = None -> local_view (snd r) = local_view w).
Proof.
  revert w. induction n as [|n IH]; intros w.
  - cbn. repeat split; lia.
  - cbn [poll_loop]. destruct (poll_cycle_ok ids w) as (Hok & Hd & Hu & Hl).
    cbn zeta.
    rewrite (bind_ok (poll_cycle env start_time ids f)
               (fun _ => poll_loop env n start_time ids f) w tt Hok).
    destruct (IH (snd (poll_cycle env start_time ids f w)))
      as (Hok' & Hd' & Hu' & Hl').
    rewrite Hok', Hd', Hu', Hd, Hu.
    repeat split; try lia.
    intros Hf. rewrite (Hl' Hf). exact (Hl Hf).
Qed.

End Rounds.



(** ** The output file *)

Lemma open_output_file_unopened (env : Env) (w : World) :
  open_fails env = true ->
  is_Some (fs w !! output_dir env) \/ makedirs_fails env = false ->
  fst (open_output_file env w) = Ok None.
Proof.
  intros Hopen Hdir.
  unfold open_output_file, bind, os_path_exists, os_makedirs, try_except,
    open_append, ret.
  rewrite Hopen.
  destruct (bool_decide (is_Some (fs w !! output_dir env))) eqn:Hp.
  - reflexivity.
  - destruct Hdir as [Hs | ->]; [|reflexivity].
    apply bool_decide_eq_false in Hp. contradiction.
Qed.



(** *** Where the output file lives *)

Lemma append_cons (a : ascii) (s t : string) :
  String a s +:+ t = String a (s +:+ t).
Proof. reflexivity. Qed.

Lemma append_nil_r (s : string) : s +:+ "" = s.
Proof.
  induction s as [|a s IH]; [reflexivity|].
  rewrite append_cons, IH. reflexivity.
Qed.

Lemma append_assoc (a b c : string) : (a +:+ b) +:+ c = a +:+ (b +:+ c).
Proof.
  induction a as [|x a IH]; [reflexivity|].
  rewrite !append_cons, IH. reflexivity.
Qed.

Lemma append_not_empty (a b : string) :
  PyStr.is_empty b = false -> PyStr.is_empty (a +:+ b) = false.
Proof. destruct a; [exact id|reflexivity]. Qed.

Lemma is_empty_length (s : string) :
  (String.length s =? 0)%nat = PyStr.is_empty s.
Proof. destruct s; reflexivity. Qed.

Lemma rstrip_sep_app (x y : string) :
  PyStr.rstrip_sep y = y -> PyStr.is_empty y = false ->
  PyStr.rstrip_sep (x +:+ y) = x +:+ y.
Proof.
  intros Hy Hne. induction x as [|a x IH]; [exact Hy|].
  rewrite append_cons. cbn [PyStr.rstrip_sep].
  rewrite IH, (append_not_empty x y Hne). reflexivity.
Qed.

Lemma rstrip_sep_slash (d : string) :
  PyStr.rstrip_sep (d +:+ "/") = PyStr.rstrip_sep d.
Proof.
  induction d as [|a d IH]; [reflexivity|].
  rewrite append_cons. cbn [PyStr.rstrip_sep]. rewrite IH. reflexivity.
Qed.

Lemma cut_last_sep_app (d t : string) :
  PyStr.cut_last_sep t = ("", t) ->
  PyStr.cut_last_sep (d +:+ "/" +:+ t) = (d +:+ "/", t).
Proof.
  intros Ht. induction d as [|a d IH].
  - change ("" +:+ "/" +:+ t) with (String "/" t). cbn [PyStr.cut_last_sep].
    rewrite Ht. reflexivity.
  - rewrite (append_cons a d ("/" +:+ t)), (append_cons a d "/").
    cbn [PyStr.cut_last_sep].
    rewrite IH, (append_not_empty d "/" eq_refl). reflexivity.
Qed.

Lemma join_plain (a b : string) :
  String.prefix "/" b = false -> plain_end b -> plain_end (OsPath.join a b).
Proof.
  intros Hb [Hs Hne]. unfold OsPath.join. rewrite Hb.
  destruct (PyStr.is_empty a || PyStr.endswith_sep a).
  - split; [apply rstrip_sep_app|apply append_not_empty]; assumption.
  - rewrite <- append_assoc.
    split; [apply rstrip_sep_app|apply append_not_empty]; assumption.
Qed.

Lemma split_join_plain (d t : string) :
  plain_end d -> String.prefix "/" t = false ->
  PyStr.cut_last_sep t = ("", t) ->
  OsPath.split (OsPath.join d t) = (d, t) /\
  OsPath.basename (OsPath.join d t) = t /\
  OsPath.join d t <> d.
Proof.
  intros [Hs Hne] Hp Ht.
  assert (Hj : OsPath.join d t = d +:+ "/" +:+ t).
  { unfold OsPath.join, PyStr.endswith_sep.
    rewrite Hp, Hne, Hs, String.eqb_refl. reflexivity. }
  rewrite Hj. unfold OsPath.split, OsPath.basename.
  rewrite (cut_last_sep_app d t Ht), rstrip_sep_slash, Hs, Hne.
  repeat split.
  intros Heq. rewrite <- (append_nil_r d) in Heq at 2.
  apply (inj (String.append d)) in Heq. discriminate.
Qed.

Lemma output_paths (env : Env) :
  OsPath.split (output_file_path env) = (output_dir env, "sensor_output.csv") /\
  OsPath.basename (output_file_path env) = "sensor_output.csv" /\
  output_file_path env <> output_dir env.
Proof.
  apply split_join_plain; [|reflexivity|reflexivity].
  apply join_plain; [reflexivity|split; reflexivity].
Qed.

(** *** Opening the log and appending to it *)

Section Log.

Variable env : Env.

Hypothesis Hdisk : disk_works env.

Lemma open_output_file_makedirs (w : World) :
  fs w !! output_dir env = None ->
  open_output_file env w
  = open_output_file env (set_fs (<[output_dir env := NDir [] ]> (fs w)) w).
Proof.
  intros Hd. destruct Hdisk as (Hmk & _).
  unfold open_output_file, bind, os_path_exists, os_makedirs, ret.
  cbn [fs set_fs]. rewrite lookup_insert_eq, Hd, Hmk.
  rewrite bool_decide_eq_false_2 by (intros [? ?]; discriminate).
  rewrite bool_decide_eq_true_2 by eauto.
  reflexivity.
Qed.

Lemma open_output_file_present (w : World) names :
  fs w !! output_dir env = Some (NDir names) ->
  fs w !! output_file_path env = None \/
  (exists c, fs w !! output_file_path env = Some (NFile c)) ->
  let old := on_disk (output_file_path env) w in
  let start := if PyStr.is_empty old then header else "" in
  exists w1,
    open_output_file env w = (Ok (Some (FileHandle (output_file_path env))), w1) /\
    on_disk (output_file_path env) w1 = old /\
    buffered w1 = start.
Proof.
  intros Hd Hfile old start.
  destruct Hdisk as (_ & Hopen & Hstat & Hwrite & _).
  destruct (output_paths env) as (Hsplit & Hbase & Hne).
  unfold open_output_file, bind, os_path_exists, ret, try_except, open_append.
  rewrite bool_decide_eq_true_2 by (rewrite Hd; eauto).
  rewrite Hopen, Hsplit. cbn [fst]. rewrite Hd.
  subst old start. unfold on_disk.
  destruct Hfile as [Hf | [c Hf]]; rewrite Hf.
  - unfold os_stat_size. rewrite Hstat. cbn [fs set_fs set_buffered].
    rewrite lookup_insert_eq. cbn [String.length Nat.eqb].
    unfold file_write. cbn [calls set_fs set_buffered]. rewrite Hwrite.
    eexists. split; [reflexivity|].
    cbn [fs buffered set_fs set_buffered set_calls record].
    rewrite lookup_insert_eq. split; reflexivity.
  - unfold os_stat_size. rewrite Hstat. cbn [fs set_fs set_buffered].
    rewrite Hf, is_empty_length.
    destruct (PyStr.is_empty c).
    + unfold file_write. cbn [calls set_fs set_buffered]. rewrite Hwrite.
      eexists. split; [reflexivity|].
      cbn [fs buffered set_fs set_buffered set_calls record].
      rewrite Hf. split; reflexivity.
    + eexists. split; [reflexivity|].
      cbn [fs buffered set_fs set_buffered set_calls record].
      rewrite Hf. split; reflexivity.
Qed.

Lemma open_output_file_fresh_or_not (w : World) :
  fs w !! output_dir env = None \/
  (exists names, fs w !! output_dir env = Some (NDir names)) ->
  fs w !! output_file_path env = None \/
  (exists c, fs w !! output_file_path env = Some (NFile c)) ->
  let old := on_disk (output_file_path env) w in
  let start := if PyStr.is_empty old then header else "" in
  exists w1,
    open_output_file env w = (Ok (Some (FileHandle (output_file_path env))), w1) /\
    on_disk (output_file_path env) w1 = old /\
    buffered w1 = start.
Proof.
  intros [Hd | [names Hd]] Hfile.
  - rewrite (open_output_file_makedirs w Hd).
    destruct (output_paths env) as (_ & _ & Hne).
    set (w0 := set_fs _ w).
    assert (Hsame : fs w0 !! output_file_path env = fs w !! output_file_path env).
    { subst w0. cbn [fs set_fs]. apply lookup_insert_ne. congruence. }
    assert (Hold : on_disk (output_file_path env) w0
                   = on_disk (output_file_path env) w).
    { unfold on_disk. rewrite Hsame. reflexivity. }
    rewrite <- Hold.
    apply (open_output_file_present w0 []).
    + subst w0. cbn [fs set_fs]. apply lookup_insert_eq.
    + rewrite Hsame. exact Hfile.
  - apply (open_output_file_present w names Hd Hfile).
Qed.

Lemma append_readings_step f item rest w :
  append_readings env f (item :: rest) w
  = append_readings env f rest
      (snd (append_file env f (Some item.1.1) item.1.2 item.2 w)).
Proof.
  unfold append_readings. cbn [for_each].
  exact (bind_ok (append_file env f (Some item.1.1) item.1.2 item.2)
           (fun _ => for_each rest _) w tt
           (append_file_ok env f (Some item.1.1) item.1.2 item.2 w)).
Qed.

Lemma append_readings_text path items w :
  let w' := snd (append_readings env (Some (FileHandle path)) items w) in
  fst (append_readings env (Some (FileHandle path)) items w) = Ok tt /\
  log_text path w' = log_text path w +:+ log_lines items /\
  (items <> [] -> buffered w' = "" /\ on_disk path w' = log_text path w').
Proof.
  destruct Hdisk as (_ & _ & _ & Hwrite & Hflush).
  revert w. induction items as [|item rest IH]; intros w.
  - unfold append_readings, log_lines, ret. cbn [for_each fold_right fst snd].
    rewrite append_nil_r. split; [reflexivity|]. split; [reflexivity|].
    intros Hne. contradiction.
  - cbn zeta. rewrite append_readings_step.
    destruct (append_file_written env path item.1.1 item.1.2 item.2 w
                (Hwrite _) (Hflush _)) as (Hfs & Hbuf & _).
    set (w1 := snd (append_file env _ _ _ _ w)) in *.
    assert (Hdisk1 : on_disk path w1
                     = log_text path w +:+ log_line item.1.1 item.1.2 item.2).
    { unfold on_disk at 1. rewrite Hfs, lookup_insert_eq.
      unfold log_text, on_disk. rewrite append_assoc. reflexivity. }
    assert (Htext1 : log_text path w1
                     = log_text path w +:+ log_line item.1.1 item.1.2 item.2).
    { unfold log_text at 1. rewrite Hbuf, append_nil_r. exact Hdisk1. }
    destruct (IH w1) as (Hok & Htext & Hflushed).
    split; [exact Hok|]. split.
    + rewrite Htext, Htext1. cbn [log_lines fold_right].
      apply append_assoc.
    + intros _. destruct rest as [|item' rest'].
      * cbn. split; [exact Hbuf|]. rewrite Htext1. exact Hdisk1.
      * apply Hflushed. discriminate.
Qed.

End Log.

(** *** The numbers of a line *)

Section Numerals.
Local Open Scope Z_scope.

Lemma div_half_even_nearest (n d : Z) :
  0 <= n -> 0 < d ->
  0 <= PyFloat.div_half_even n d /\ nearest_even n d (PyFloat.div_half_even n d).
Proof.
  intros Hn Hd. unfold PyFloat.div_half_even, nearest_even.
  pose proof (Z.div_mod n d ltac:(lia)) as Hdm.
  pose proof (Z.mod_pos_bound n d Hd) as Hr.
  pose proof (Z.div_pos n d Hn Hd) as Hq.
  set (q := n / d) in *. set (r := n mod d) in *.
  assert (E0 : 2 * n - 2 * q * d = 2 * r) by lia.
  assert (E1 : 2 * n - 2 * (q + 1) * d = 2 * r - 2 * d) by lia.
  destruct (2 * r ?= d) eqn:Hc.
  - apply Z.compare_eq in Hc.
    destruct (Z.even q) eqn:He.
    + rewrite E0. split; [lia|]. split; [lia|intros _; exact He].
    + rewrite E1. split; [lia|]. split; [lia|]. intros _.
      rewrite Z.even_add, He. reflexivity.
  - rewrite Z.compare_lt_iff in Hc. rewrite E0.
    split; [lia|]. split; [lia|]. intros H. exfalso. lia.
  - rewrite Z.compare_gt_iff in Hc. rewrite E1.
    split; [lia|]. split; [lia|]. intros H. exfalso. lia.
Qed.

Lemma tenths_nearest (m : positive) (e : Z) :
  0 <= PyFloat.tenths m e /\
  nearest_even (10 * Z.pos m * 2 ^ Z.max e 0) (2 ^ Z.max (- e) 0)
               (PyFloat.tenths m e).
Proof.
  unfold PyFloat.tenths. destruct (0 <=? e) eqn:He.
  - apply Z.leb_le in He.
    rewrite Z.max_l, Z.max_r by lia.
    assert (0 < 2 ^ e) by (apply Z.pow_pos_nonneg; lia).
    split; [nia|]. unfold nearest_even. change (2 ^ 0) with 1.
    split; [lia|lia].
  - apply Z.leb_gt in He.
    rewrite Z.max_r, Z.max_l by lia.
    change (2 ^ 0) with 1. rewrite Z.mul_1_r.
    apply div_half_even_nearest; [lia|apply Z.pow_pos_nonneg; lia].
Qed.

Lemma digit_of_char (k : N) :
  (k < 10)%N -> Numeral.digit_of (pretty_N_char k) = Some (Z.of_N k).
Proof.
  intros Hk.
  assert (k = 0 \/ k = 1 \/ k = 2 \/ k = 3 \/ k = 4 \/ k = 5 \/ k = 6
          \/ k = 7 \/ k = 8 \/ k = 9)%N as Hcases by lia.
  repeat (destruct Hcases as [-> | Hcases]; [reflexivity|]).
  subst k. reflexivity.
Qed.

(** The digits that [pretty] puts in front of [s]. *)
Lemma pretty_N_go_digits (x : N) :
  exists ds k,
    0 <= k /\
    (forall s, pretty_N_go x s = ds +:+ s) /\
    Numeral.all_digits ds = true /\
    ((0 < x)%N -> ds <> "") /\
    (forall rest acc,
       Numeral.number_from (ds +:+ rest) acc
       = Numeral.number_from rest (acc * 10 ^ k + Z.of_N x)).
Proof.
  induction (N.lt_wf_0 x) as [x _ IH].
  assert (x = 0 \/ 0 < x)%N as [-> | Hx] by lia.
  - exists "", 0. split; [lia|]. split; [intros s; apply pretty_N_go_0|].
    split; [reflexivity|]. split; [lia|].
    intros rest acc. cbn [String.append]. f_equal. lia.
  - destruct (IH (x `div` 10)%N) as (ds & k & Hk & Hgo & Hall & _ & Hnum).
    { apply N.div_lt; lia. }
    pose proof (N.mod_lt x 10 ltac:(lia)) as Hmod.
    pose proof (digit_of_char (x `mod` 10)%N Hmod) as Hc.
    exists (ds +:+ String (pretty_N_char (x `mod` 10)) ""), (k + 1).
    split; [lia|]. split; [|split; [|split]].
    + intros s. rewrite pretty_N_go_step by exact Hx.
      rewrite Hgo, append_assoc. reflexivity.
    + clear -Hall Hc. induction ds as [|c ds IHds].
      * change (Numeral.all_digits
                  (String (pretty_N_char (x `mod` 10)) "") = true).
        cbn [Numeral.all_digits]. rewrite Hc. reflexivity.
      * rewrite append_cons. cbn [Numeral.all_digits] in *.
        apply andb_prop in Hall as [H1 H2].
        rewrite H1, (IHds H2). reflexivity.
    + intros _. destruct ds; discriminate.
    + intros rest acc. rewrite append_assoc, Hnum.
      change (String (pretty_N_char (x `mod` 10)) "" +:+ rest)
        with (String (pretty_N_char (x `mod` 10)) rest).
      cbn [Numeral.number_from].
      rewrite Hc. f_equal.
      rewrite Z.pow_add_r by lia.
      pose proof (N.div_mod x 10 ltac:(lia)) as Hdm.
      change (10 ^ 1) with 10. lia.
Qed.

Lemma digits_read (n : Z) :
  0 <= n ->
  PyFloat.digits n <> "" /\
  Numeral.all_digits (PyFloat.digits n) = true /\
  Numeral.number (PyFloat.digits n) = Some n.
Proof.
  intros Hn. unfold PyFloat.digits, pretty, pretty_N.
  destruct (decide (Z.to_N n = 0%N)) as [H0|H0].
  - assert (n = 0) by lia. subst n.
    split; [discriminate|]. split; reflexivity.
  - destruct (pretty_N_go_digits (Z.to_N n))
      as (ds & k & Hk & Hgo & Hall & Hne & Hnum).
    rewrite Hgo, append_nil_r.
    assert (Hds : ds <> "") by (apply Hne; lia).
    split; [exact Hds|]. split; [exact Hall|].
    specialize (Hnum "" 0). rewrite append_nil_r in Hnum.
    unfold Numeral.number. destruct ds as [|c ds]; [contradiction|].
    rewrite Hnum. cbn [Numeral.number_from]. f_equal. lia.
Qed.

Lemma one_digit (k : Z) :
  0 <= k < 10 ->
  exists c, PyFloat.digits k = String c "" /\ Numeral.digit_of c = Some k.
Proof.
  intros Hk.
  assert (k = 0 \/ k = 1 \/ k = 2 \/ k = 3 \/ k = 4 \/ k = 5 \/ k = 6
          \/ k = 7 \/ k = 8 \/ k = 9) as Hcases by lia.
  repeat (destruct Hcases as [-> | Hcases];
          [eexists; split; reflexivity|]).
  subst k. eexists; split; reflexivity.
Qed.

Lemma digit_not_point (c : ascii) :
  is_Some (Numeral.digit_of c) ->
  Ascii.eqb c "." = false /\ Ascii.eqb c "-" = false.
Proof.
  intros [d Hd]. split.
  - destruct (Ascii.eqb c ".") eqn:E; [|reflexivity].
    apply Ascii.eqb_eq in E. subst c. discriminate Hd.
  - destruct (Ascii.eqb c "-") eqn:E; [|reflexivity].
    apply Ascii.eqb_eq in E. subst c. discriminate Hd.
Qed.

Lemma cut_point_digits (ds rest : string) :
  Numeral.all_digits ds = true ->
  Numeral.cut_point (ds +:+ String "." rest) = Some (ds, rest).
Proof.
  induction ds as [|c ds IH]; intros Hall.
  - reflexivity.
  - cbn [Numeral.all_digits] in Hall. apply andb_prop in Hall as [Hc Hds].
    apply bool_decide_eq_true in Hc.
    destruct (digit_not_point c Hc) as [Hp _].
    rewrite append_cons. cbn [Numeral.cut_point].
    rewrite Hp, (IH Hds). reflexivity.
Qed.

(** A sign, the tenths but the last digit, a point and the last digit read
    back as the sign and the tenths. *)
Lemma read_1f_format (s : bool) (t : Z) :
  0 <= t ->
  Numeral.read_1f
    (PyFloat.sign_str s +:+ PyFloat.digits (t / 10) +:+ "."
     +:+ PyFloat.digits (t mod 10))
  = Some (s, t).
Proof.
  intros Ht.
  destruct (digits_read (t / 10)) as (Hne & Hall & Hnum).
  { apply Z.div_pos; lia. }
  destruct (one_digit (t mod 10)) as (c & Hc & Hd).
  { apply Z.mod_pos_bound. lia. }
  rewrite Hc.
  change ("." +:+ String c "") with (String "." (String c "")).
  set (whole := PyFloat.digits (t / 10)) in *.
  assert (Hbody : Numeral.read_unsigned (whole +:+ String "." (String c ""))
                  = Some t).
  { unfold Numeral.read_unsigned.
    rewrite (cut_point_digits whole _ Hall), Hnum, Hd.
    f_equal. pose proof (Z.div_mod t 10). lia. }
  unfold Numeral.read_1f. destruct s; cbn [PyFloat.sign_str].
  - change ("-" +:+ ?x) with (String "-" x). cbn [Ascii.eqb Bool.eqb].
    rewrite Hbody. reflexivity.
  - change ("" +:+ ?x) with x.
    destruct whole as [|w0 wr] eqn:Hw; [contradiction|].
    rewrite append_cons.
    cbn [Numeral.all_digits] in Hall. apply andb_prop in Hall as [Hw0 _].
    apply bool_decide_eq_true in Hw0.
    destruct (digit_not_point w0 Hw0) as [_ ->].
    rewrite <- append_cons, Hbody. reflexivity.
Qed.

(** ['{:0.1f}'] shows a finite float as the numeral with one decimal that
    is nearest to it, ties going to the even last digit. *)
Lemma format_1f_shows (x : float) : shows_1f x (PyFloat.format_1f x).
Proof.
  unfold shows_1f, PyFloat.format_1f.
  destruct (Prim2SF x) as [s|s| |s m e].
  - destruct s; reflexivity.
  - destruct s; reflexivity.
  - reflexivity.
  - destruct (tenths_nearest m e) as [Hpos Hnear].
    exists (PyFloat.tenths m e). split; [|exact Hnear].
    cbn zeta. apply read_1f_format, Hpos.
Qed.
End Numerals.



(** The sample reading, as it stands in a fresh log. *)
Example sample_log_text :
  log_text (output_file_path Sample.env)
    (snd (bind (open_output_file Sample.env)
            (fun f => append_readings Sample.env f
                        [(reading_of Sample.read_time 55.2 21.4,
                          Sample.read_time, Some "4")])
            Sample.world))
  = header +:+
    "2021-11-04" +:+ TAB +:+ "09:05:00" +:+ TAB +:+ "21.4" +:+ TAB +:+ "70.5"
    +:+ TAB +:+ "55.2" +:+ TAB +:+ "4" +:+ CRLF.
Proof. vm_compute. reflexivity. Qed.

(** ** Loading the URL files *)

Lemma glob_missing (tree : gmap string node) (pathname : string) :
  tree !! Glob.listed_dir (fst (OsPath.split pathname)) = None ->
  Glob.glob tree pathname = [].
Proof.
  unfold Glob.glob, Glob.glob1.
  destruct (OsPath.split pathname) as [dirname basename]. cbn [fst].
  intros ->. destruct (PyStr.is_empty dirname); reflexivity.
Qed.

Lemma open_url_files_missing (dir_path : string) (sensor_list : list string)
  (w : World) :
  fs w !! scanned_dir dir_path = None ->
  open_url_files dir_path sensor_list w = (Ok [], w).
Proof.
  intros Hmiss. unfold open_url_files, bind, glob_glob.
  rewrite (glob_missing _ _ Hmiss). reflexivity.
Qed.

(** *** Dictionaries *)

Lemma dict_get_set_eq {V} (k : string) (v : V) (d : Dict.t V) :
  Dict.get k (Dict.set k v d) = Some v.
Proof.
  induction d as [|[k' v'] d IH]; cbn.
  - rewrite String.eqb_refl. reflexivity.
  - destruct (String.eqb k k') eqn:E; cbn; rewrite ?String.eqb_refl, ?E; auto.
Qed.

Lemma dict_get_set_ne {V} (s k : string) (v : V) (d : Dict.t V) :
  s <> k -> Dict.get s (Dict.set k v d) = Dict.get s d.
Proof.
  intros Hne. apply String.eqb_neq in Hne.
  induction d as [|[k' v'] d IH]; cbn.
  - rewrite Hne. reflexivity.
  - destruct (String.eqb k k') eqn:E; cbn.
    + apply String.eqb_eq in E. subst k'. rewrite Hne. reflexivity.
    + rewrite IH. reflexivity.
Qed.

Lemma dict_keys_set {V} (s k : string) (v : V) (d : Dict.t V) :
  In s (Dict.keys (Dict.set k v d)) <-> s = k \/ In s (Dict.keys d).
Proof.
  unfold Dict.keys. induction d as [|[k' v'] d IH]; cbn.
  - intuition.
  - destruct (String.eqb k k') eqn:E; cbn.
    + apply String.eqb_eq in E. subst k'. intuition.
    + rewrite IH. intuition.
Qed.

Lemma dict_keys_nodup_set {V} (k : string) (v : V) (d : Dict.t V) :
  List.NoDup (Dict.keys d) -> List.NoDup (Dict.keys (Dict.set k v d)).
Proof.
  unfold Dict.keys. induction d as [|[k' v'] d IH]; cbn; intros Hnd.
  - constructor; [intros []|constructor].
  - inversion Hnd as [|? ? Hnotin Hnd']; subst.
    destruct (String.eqb k k') eqn:E; cbn.
    + apply String.eqb_eq in E. subst k'. constructor; assumption.
    + constructor; [|apply IH; exact Hnd'].
      intros Hin. apply (dict_keys_set k' k v d) in Hin.
      destruct Hin as [-> | Hin]; [|contradiction].
      rewrite String.eqb_refl in E. discriminate.
Qed.

Lemma dict_get_keys {V} (s : string) (v : V) (d : Dict.t V) :
  Dict.get s d = Some v -> In s (Dict.keys d).
Proof.
  unfold Dict.keys. induction d as [|[k' v'] d IH]; cbn; [discriminate|].
  destruct (String.eqb s k') eqn:E.
  - apply String.eqb_eq in E. auto.
  - auto.
Qed.

(** *** The loops of [open_url_files], step by step *)

Lemma for_fold_add_line (lines : list string) (acc : Dict.t string) (w : World) :
  for_fold lines acc add_line w
  = (match fields_from lines acc with
     | Some d => Ok d
     | None => Raise ValueError
     end, w).
Proof.
  revert acc. induction lines as [|line rest IH]; intros acc; cbn.
  - reflexivity.
  - unfold bind, add_line.
    destruct (PyStr.split line) as [|key [|value [|x r]]]; try reflexivity.
    cbn. apply IH.
Qed.

Lemma scan_file_result (sensor_list : list string)
  (url_dict : Dict.t (Dict.t string)) (file_path : string) (w : World) :
  fst (scan_file sensor_list url_dict file_path w)
  = scan_result (fs w) sensor_list url_dict file_path /\
  fs (snd (scan_file sensor_list url_dict file_path w)) = fs w.
Proof.
  unfold scan_file, scan_result, bind, print, emit, open_read, parse_fields.
  destruct (on_sensor_list sensor_list (file_stem file_path)); cbn;
    [|split; reflexivity].
  destruct (fs w !! file_path) as [[text|names]|]; cbn; try (split; reflexivity).
  rewrite for_fold_add_line.
  destruct (fields_from (PyStr.readlines text) []); split; reflexivity.
Qed.

Lemma for_fold_scan (sensor_list paths : list string)
  (url_dict : Dict.t (Dict.t string)) (w : World) :
  fst (for_fold paths url_dict (scan_file sensor_list) w)
  = load (fs w) sensor_list paths url_dict.
Proof.
  revert url_dict w. induction paths as [|p rest IH]; intros url_dict w.
  - reflexivity.
  - cbn [for_fold load]. unfold bind.
    destruct (scan_file_result sensor_list url_dict p w) as (Hres & Hfs).
    destruct (scan_file sensor_list url_dict p w) as [[d|e] w1]; cbn in *;
      rewrite <- Hres; [|reflexivity].
    rewrite IH, Hfs. reflexivity.
Qed.

Lemma open_url_files_load (dir_path : string) (sensor_list : list string)
  (w : World) :
  fst (open_url_files dir_path sensor_list w)
  = load (fs w) sensor_list (Glob.glob (fs w) (dir_path +:+ "*")) [].
Proof. unfold open_url_files, bind, glob_glob. apply for_fold_scan. Qed.

(** *** What the loaded mapping holds *)

Lemma load_app tree sensor_list (pre post : list string) d :
  load tree sensor_list (pre ++ post) d
  = match load tree sensor_list pre d with
    | Ok d1 => load tree sensor_list post d1
    | Raise e => Raise e
    end.
Proof.
  revert d. induction pre as [|p pre IH]; intros d; cbn; [reflexivity|].
  destruct (scan_result tree sensor_list d p); [apply IH|reflexivity].
Qed.

Lemma scan_result_picked tree sensor_list d p d1 :
  scan_result tree sensor_list d p = Ok d1 ->
  on_sensor_list sensor_list (file_stem p) = true ->
  exists text nest_dict,
    tree !! p = Some (NFile text) /\ parse_fields text = Some nest_dict /\
    d1 = Dict.set (file_stem p) nest_dict d.
Proof.
  unfold scan_result. intros H Hpick. rewrite Hpick in H.
  destruct (tree !! p) as [[text|names]|]; try discriminate.
  destruct (parse_fields text) as [nd|] eqn:Hparse; [|discriminate].
  injection H as <-. exists text, nd. repeat split. exact Hparse.
Qed.

Lemma scan_result_skipped tree sensor_list d p :
  on_sensor_list sensor_list (file_stem p) = false ->
  scan_result tree sensor_list d p = Ok d.
Proof. unfold scan_result. intros ->. reflexivity. Qed.

Lemma load_well_formed tree sensor_list paths :
  well_formed tree sensor_list paths ->
  forall d, exists d',
    load tree sensor_list paths d = Ok d' /\
    (forall s, In s (Dict.keys d') <->
               In s (Dict.keys d) \/
               exists p, In p paths /\ file_stem p = s /\
                         on_sensor_list sensor_list s = true) /\
    (forall s nd, Dict.get s d' = Some nd ->
                  Dict.get s d = Some nd \/
                  exists p text, In p paths /\ file_stem p = s /\
                                 tree !! p = Some (NFile text) /\
                                 parse_fields text = Some nd) /\
    (List.NoDup (Dict.keys d) -> List.NoDup (Dict.keys d')).
Proof.
  induction paths as [|p rest IH]; intros Hwf d.
  - exists d. cbn. split; [reflexivity|]. split; [|split; auto].
    intros s. split; [auto|]. intros [H | (p & [] & _)]. exact H.
  - assert (Hrest : well_formed tree sensor_list rest).
    { intros q Hq. apply Hwf. right. exact Hq. }
    destruct (on_sensor_list sensor_list (file_stem p)) eqn:Hpick.
    + destruct (Hwf p (or_introl eq_refl) Hpick) as (text & nd & Hfile & Hparse).
      set (d1 := Dict.set (file_stem p) nd d).
      assert (Hscan : scan_result tree sensor_list d p = Ok d1).
      { unfold scan_result. rewrite Hpick, Hfile, Hparse. reflexivity. }
      destruct (IH Hrest d1) as (d' & Hload & Hkeys & Hget & Hnd).
      exists d'. cbn [load]. rewrite Hscan. split; [exact Hload|].
      split; [|split].
      * intros s. rewrite Hkeys. subst d1. rewrite dict_keys_set. split.
        -- intros [[-> | H] | (q & Hq & Hs & Hm)].
           ++ right. exists p. cbn. auto.
           ++ left. exact H.
           ++ right. exists q. cbn. auto.
        -- intros [H | (q & [<- | Hq] & Hs & Hm)].
           ++ left. right. exact H.
           ++ left. left. symmetry. exact Hs.
           ++ right. exists q. auto.
      * intros s nd' Hs. destruct (Hget s nd' Hs) as [H | (q & t & Hq & H)].
        -- subst d1. destruct (String.eqb_spec s (file_stem p)) as [-> | Hne].
           ++ rewrite dict_get_set_eq in H. injection H as <-.
              right. exists p, text. cbn. auto.
           ++ rewrite dict_get_set_ne in H by exact Hne. left. exact H.
        -- right. exists q, t. cbn. tauto.
      * intros H. apply Hnd. subst d1. apply dict_keys_nodup_set, H.
    + destruct (IH Hrest d) as (d' & Hload & Hkeys & Hget & Hnd).
      exists d'. cbn [load].
      rewrite (scan_result_skipped tree sensor_list d p Hpick).
      split; [exact Hload|]. split; [|split; [|exact Hnd]].
      * intros s. rewrite Hkeys. split.
        -- intros [H | (q & Hq & Hs & Hm)]; [left; exact H|].
           right. exists q. cbn. auto.
        -- intros [H | (q & [<- | Hq] & Hs & Hm)]; [left; exact H| |].
           ++ rewrite <- Hs, Hpick in Hm. discriminate.
           ++ right. exists q. auto.
      * intros s nd' Hs. destruct (Hget s nd' Hs) as [H | (q & t & Hq & H)];
          [left; exact H|].
        right. exists q, t. cbn. tauto.
Qed.

(** The value under a stem is the one of the last file with that stem. *)
Lemma load_keeps tree sensor_list post d d' s nd :
  load tree sensor_list post d = Ok d' ->
  Dict.get s d = Some nd ->
  (forall q, In q post -> on_sensor_list sensor_list (file_stem q) = true ->
             file_stem q <> s) ->
  Dict.get s d' = Some nd.
Proof.
  revert d. induction post as [|q post IH]; intros d Hload Hget Hlast.
  - cbn in Hload. injection Hload as <-. exact Hget.
  - cbn [load] in Hload.
    destruct (scan_result tree sensor_list d q) as [d1|e] eqn:Hscan;
      [|discriminate].
    apply (IH d1 Hload); [|intros q' Hq'; apply Hlast; right; exact Hq'].
    destruct (on_sensor_list sensor_list (file_stem q)) eqn:Hpick.
    + destruct (scan_result_picked _ _ _ _ _ Hscan Hpick)
        as (text & nd' & _ & _ & ->).
      rewrite dict_get_set_ne; [exact Hget|].
      intros ->. apply (Hlast q (or_introl eq_refl) Hpick). reflexivity.
    + rewrite (scan_result_skipped _ _ _ _ Hpick) in Hscan.
      injection Hscan as <-. exact Hget.
Qed.

Lemma load_last tree sensor_list pre p post d d' :
  load tree sensor_list (pre ++ p :: post) d = Ok d' ->
  on_sensor_list sensor_list (file_stem p) = true ->
  (forall q, In q post -> on_sensor_list sensor_list (file_stem q) = true ->
             file_stem q <> file_stem p) ->
  exists text nd,
    tree !! p = Some (NFile text) /\ parse_fields text = Some nd /\
    Dict.get (file_stem p) d' = Some nd.
Proof.
  intros Hload Hpick Hlast. rewrite load_app in Hload.
  destruct (load tree sensor_list pre d) as [d0|e]; [|discriminate].
  cbn [load] in Hload.
  destruct (scan_result tree sensor_list d0 p) as [d1|e] eqn:Hscan;
    [|discriminate].
  destruct (scan_result_picked _ _ _ _ _ Hscan Hpick)
    as (text & nd & Hfile & Hparse & ->).
  exists text, nd. split; [exact Hfile|]. split; [exact Hparse|].
  apply (load_keeps tree sensor_list post _ d' _ nd Hload);
    [apply dict_get_set_eq|exact Hlast].
Qed.

(** In one file, the value under a key is the one of the last line with
    that key. *)
Lemma fields_from_keeps lines acc d key value :
  fields_from lines acc = Some d ->
  Dict.get key acc = Some value ->
  (forall line v, In line lines -> PyStr.split line <> [key; v]) ->
  Dict.get key d = Some value.
Proof.
  revert acc. induction lines as [|line rest IH]; intros acc Hf Hget Hlast.
  - cbn in Hf. injection Hf as <-. exact Hget.
  - cbn [fields_from] in Hf.
    destruct (PyStr.split line) as [|k [|v [|x r]]] eqn:Hs; try discriminate.
    apply (IH _ Hf); [|intros l v' Hl; apply Hlast; right; exact Hl].
    rewrite dict_get_set_ne; [exact Hget|].
    intros ->. apply (Hlast line v (or_introl eq_refl)). exact Hs.
Qed.

Lemma fields_from_last pre line post acc d key value :
  fields_from (pre ++ line :: post) acc = Some d ->
  PyStr.split line = [key; value] ->
  (forall l v, In l post -> PyStr.split l <> [key; v]) ->
  Dict.get key d = Some value.
Proof.
  revert acc. induction pre as [|l0 pre IH]; intros acc Hf Hs Hlast.
  - cbn [app fields_from] in Hf. rewrite Hs in Hf.
    apply (fields_from_keeps post _ d key value Hf);
      [apply dict_get_set_eq|exact Hlast].
  - cbn [app fields_from] in Hf.
    destruct (PyStr.split l0) as [|k [|v [|x r]]]; try discriminate.
    apply (IH _ Hf Hs Hlast).
Qed.

Lemma load_nodup tree sensor_list paths d d' :
  load tree sensor_list paths d = Ok d' ->
  List.NoDup (Dict.keys d) -> List.NoDup (Dict.keys d').
Proof.
  revert d. induction paths as [|p rest IH]; intros d Hload Hnd.
  - cbn in Hload. injection Hload as <-. exact Hnd.
  - cbn [load] in Hload.
    destruct (scan_result tree sensor_list d p) as [d1|e] eqn:Hscan;
      [|discriminate].
    apply (IH d1 Hload).
    destruct (on_sensor_list sensor_list (file_stem p)) eqn:Hpick.
    + destruct (scan_result_picked _ _ _ _ _ Hscan Hpick)
        as (text & nd & _ & _ & ->).
      apply dict_keys_nodup_set, Hnd.
    + rewrite (scan_result_skipped _ _ _ _ Hpick) in Hscan.
      injection Hscan as <-. exact Hnd.
Qed.

(** *** What [glob] finds in a directory *)

Lemma fnmatch_star (name : string) : Glob.fnmatch "*" name = true.
Proof.
  induction name as [|c name IH]; [reflexivity|].
  cbn in *. exact IH.
Qed.

Lemma filter_all {A} (f : A -> bool) (l : list A) :
  (forall x, f x = true) -> List.filter f l = l.
Proof.
  intros Hf. induction l as [|x l IH]; cbn; [reflexivity|].
  rewrite Hf, IH. reflexivity.
Qed.

Lemma glob_directory tree (dir_path dir : string) (names : list string) :
  OsPath.split (dir_path +:+ "*") = (dir, "*") ->
  PyStr.is_empty dir = false ->
  tree !! dir = Some (NDir names) ->
  Glob.glob tree (dir_path +:+ "*") = shown_paths dir names.
Proof.
  intros Hsplit Hne Hdir. unfold Glob.glob, Glob.glob1, Glob.listed_dir.
  rewrite Hsplit, Hne, Hdir. cbn [PyStr.startswith_dot Ascii.eqb].
  unfold shown_paths. f_equal. apply filter_all, fnmatch_star.
Qed.

(** C6, as the script has it: for a directory path that ends in the
    separator, when every shown entry of the directory that is picked is a
    text file whose lines split in two, the loader returns a mapping whose
    keys are exactly the stems of the shown entries that contain a string of
    the allow-list, each key once, each with the fields of such a file.
    Shown are the entries whose name does not start with a dot.  A file of
    the three lines [id], [pin], [name] yields exactly these three fields. *)
Theorem loader_returns_matching_files (dir_path dir : string)
  (names sensor_list : list string) (w : World) :
  OsPath.split (dir_path +:+ "*") = (dir, "*") ->
  PyStr.is_empty dir = false ->
  PyStr.has_magic dir = false ->
  fs w !! dir = Some (NDir names) ->
  let paths := shown_paths dir names in
  well_formed (fs w) sensor_list paths ->
  exists url_dict,
    fst (open_url_files dir_path sensor_list w) = Ok url_dict /\
    List.NoDup (Dict.keys url_dict) /\
    (forall s, In s (Dict.keys url_dict) <->
               exists p, In p paths /\ file_stem p = s /\
                         on_sensor_list sensor_list s = true) /\
    (forall s nest_dict,
       Dict.get s url_dict = Some nest_dict ->
       exists p text, In p paths /\ file_stem p = s /\
                      fs w !! p = Some (NFile text) /\
                      parse_fields text = Some nest_dict) /\
    (forall text i p n,
       map PyStr.split (PyStr.readlines text)
       = [["id"; i]; ["pin"; p]; ["name"; n]] ->
       parse_fields text = Some [("id", i); ("pin", p); ("name", n)]).
Proof.
  intros Hsplit Hne _ Hdir paths Hwf.
  destruct (load_well_formed (fs w) sensor_list paths Hwf [])
    as (url_dict & Hload & Hkeys & Hget & Hnd).
  exists url_dict. rewrite open_url_files_load.
  rewrite (glob_directory (fs w) dir_path dir names Hsplit Hne Hdir).
  split; [exact Hload|]. split; [apply Hnd; constructor|].
  split; [|split].
  - intros s. rewrite Hkeys. cbn. tauto.
  - intros s nd Hs. destruct (Hget s nd Hs) as [H | H]; [discriminate|exact H].
  - intros text i p n Hlines. unfold parse_fields.
    destruct (PyStr.readlines text) as [|l1 [|l2 [|l3 [|l4 r]]]];
      try discriminate.
    cbn in Hlines. injection Hlines as H1 H2 H3.
    cbn [fields_from]. rewrite H1, H2, H3. reflexivity.
Qed.

Lemma loader_returns_matching_files_witness :
  exists url_dict,
    fst (open_url_files "/home/pi/url/" ["home_livingroom"; "home_outside"]
           Sample.twin_world) = Ok url_dict /\
    List.NoDup (Dict.keys url_dict) /\
    (forall s, In s (Dict.keys url_dict) <->
               exists p,
                 In p (shown_paths "/home/pi/url"
                         ["home_livingroom.txt"; "notes.md";
                          "home_livingroom.conf"]) /\
                 file_stem p = s /\
                 on_sensor_list ["home_livingroom"; "home_outside"] s = true) /\
    (forall s nest_dict,
       Dict.get s url_dict = Some nest_dict ->
       exists p text,
         In p (shown_paths "/home/pi/url"
                 ["home_livingroom.txt"; "notes.md"; "home_livingroom.conf"]) /\
         file_stem p = s /\
         fs Sample.twin_world !! p = Some (NFile text) /\
         parse_fields text = Some nest_dict) /\
    (forall text i p n,
       map PyStr.split (PyStr.readlines text)
       = [["id"; i]; ["pin"; p]; ["name"; n]] ->
       parse_fields text = Some [("id", i); ("pin", p); ("name", n)]).
Proof.
  apply (loader_returns_matching_files "/home/pi/url/" "/home/pi/url"
           ["home_livingroom.txt"; "notes.md"; "home_livingroom.conf"]
           ["home_livingroom"; "home_outside"] Sample.twin_world);
    try reflexivity.
  intros p [<- | [<- | [<- | []]]] Hpick.
  - eexists _, _. split; reflexivity.
  - vm_compute in Hpick. discriminate.
  - eexists _, _. split; reflexivity.
Defined.

(** C6 for every file of the directory does not hold: a file whose stem
    contains a string of the allow-list is left out when its name starts
    with a dot, because [glob] does not show it.  And a picked file with a
    line that does not split in two makes the loader raise instead of
    return. *)
Lemma hidden_file_not_loaded :
  fs Sample.hidden_world !! "/home/pi/url" = Some (NDir [".home_outside.txt"]) /\
  fs Sample.hidden_world !! "/home/pi/url/.home_outside.txt"
  = Some (NFile Sample.url_text) /\
  file_stem "/home/pi/url/.home_outside.txt" = ".home_outside" /\
  on_sensor_list ["home_livingroom"; "home_outside"] ".home_outside" = true /\
  parse_fields Sample.url_text
  = Some [("id", "ABC123"); ("pin", "4"); ("name", "home_livingroom")] /\
  fst (open_url_files "/home/pi/url/" ["home_livingroom"; "home_outside"]
         Sample.hidden_world) = Ok [] /\
  on_sensor_list ["notes"] (file_stem "/home/pi/url/notes.md") = true /\
  fst (open_url_files "/home/pi/url/" ["notes"] Sample.twin_world)
  = Raise ValueError.
Proof. repeat split; vm_compute; reflexivity. Qed.

(** C9: the mapping is keyed by the stem of the file name.  When two files
    that are picked have the same stem, and all picked files are well
    formed, the loader raises nothing, keeps one entry under that stem, and
    the entry holds the fields of the file scanned last.  Within one file, a
    key that comes back takes the value of its last line. *)
Theorem later_file_overrides (dir_path : string) (sensor_list : list string)
  (w : World) (pre mid post : list string) (p1 p2 : string) :
  Glob.glob (fs w) (dir_path +:+ "*") = pre ++ p1 :: mid ++ p2 :: post ->
  file_stem p1 = file_stem p2 ->
  on_sensor_list sensor_list (file_stem p2) = true ->
  (forall q, In q post ->
             on_sensor_list sensor_list (file_stem q) = true ->
             file_stem q <> file_stem p2) ->
  well_formed (fs w) sensor_list (pre ++ p1 :: mid ++ p2 :: post) ->
  exists url_dict,
    fst (open_url_files dir_path sensor_list w) = Ok url_dict /\
    List.NoDup (Dict.keys url_dict) /\
    (exists text nest_dict,
       fs w !! p2 = Some (NFile text) /\
       parse_fields text = Some nest_dict /\
       Dict.get (file_stem p1) url_dict = Some nest_dict) /\
    (forall text lines1 line lines2 key value nest_dict,
       PyStr.readlines text = lines1 ++ line :: lines2 ->
       PyStr.split line = [key; value] ->
       (forall l v, In l lines2 -> PyStr.split l <> [key; v]) ->
       parse_fields text = Some nest_dict ->
       Dict.get key nest_dict = Some value).
Proof.
  intros Hglob Hstem Hpick Hlast Hwf.
  destruct (load_well_formed (fs w) sensor_list _ Hwf [])
    as (url_dict & Hload & _).
  exists url_dict. rewrite open_url_files_load, Hglob.
  split; [exact Hload|].
  split; [apply (load_nodup _ _ _ _ _ Hload); constructor|].
  split.
  - rewrite Hstem.
    replace (pre ++ p1 :: mid ++ p2 :: post)
      with ((pre ++ p1 :: mid) ++ p2 :: post) in Hload
      by (rewrite <- app_assoc; reflexivity).
    exact (load_last (fs w) sensor_list _ p2 post [] url_dict Hload Hpick Hlast).
  - intros text lines1 line lines2 key value nd Hlines Hs Hl Hparse.
    unfold parse_fields in Hparse. rewrite Hlines in Hparse.
    exact (fields_from_last lines1 line lines2 [] nd key value Hparse Hs Hl).
Qed.

Lemma later_file_overrides_witness :
  exists url_dict,
    fst (open_url_files "/home/pi/url/" ["home_livingroom"; "home_outside"]
           Sample.twin_world) = Ok url_dict /\
    List.NoDup (Dict.keys url_dict) /\
    (exists text nest_dict,
       fs Sample.twin_world !! "/home/pi/url/home_livingroom.conf"
       = Some (NFile text) /\
       parse_fields text = Some nest_dict /\
       Dict.get (file_stem "/home/pi/url/home_livingroom.txt") url_dict
       = Some nest_dict) /\
    (forall text lines1 line lines2 key value nest_dict,
       PyStr.readlines text = lines1 ++ line :: lines2 ->
       PyStr.split line = [key; value] ->
       (forall l v, In l lines2 -> PyStr.split l <> [key; v]) ->
       parse_fields text = Some nest_dict ->
       Dict.get key nest_dict = Some value).
Proof.
  apply (later_file_overrides "/home/pi/url/"
           ["home_livingroom"; "home_outside"] Sample.twin_world
           [] ["/home/pi/url/notes.md"] []
           "/home/pi/url/home_livingroom.txt"
           "/home/pi/url/home_livingroom.conf").
  - reflexivity.
  - reflexivity.
  - reflexivity.
  - intros q [].
  - intros p [<- | [<- | [<- | []]]] Hpick.
    + eexists _, _. split; reflexivity.
    + vm_compute in Hpick. discriminate.
    + eexists _, _. split; reflexivity.
Defined.

(** The two files of the living room, loaded: one entry, with the id that
    the second file gives last and without the name that only the first
    file has. *)
Example twin_files_loaded :
  fst (open_url_files "/home/pi/url/" ["home_livingroom"; "home_outside"]
         Sample.twin_world)
  = Ok [("home_livingroom", [("id", "NEW789"); ("pin", "17")])].
Proof. vm_compute. reflexivity. Qed.

(** [main] hands the loader the path of the script joined with [url] and no
    separator at its end, so that the pattern is [.../read_sensor_data.py/url*]
    and the directory listed is the path of the script: with the layout of
    the header comment, nothing is loaded from the [url] directory. *)
Example main_lists_the_script_path :
  scanned_dir (url_file_dir_path Sample.env) = script_path Sample.env /\
  fst (open_url_files (url_file_dir_path Sample.env)
         ["home_livingroom"; "home_outside"] Sample.installed_world) = Ok [] /\
  fst (open_url_files "/home/pi/dht22/url/"
         ["home_livingroom"; "home_outside"] Sample.installed_world)
  = Ok [("home_livingroom",
         [("id", "ABC123"); ("pin", "4"); ("name", "home_livingroom")])].
Proof. repeat split; vm_compute; reflexivity. Qed.

(** * Further properties of the script *)

(** ** The loader reads and prints, nothing else *)

Lemma only_printed_refl (w : World) : only_printed w w.
Proof.
  repeat split. exists []. rewrite app_nil_r. split; reflexivity.
Qed.

Lemma only_printed_trans (w1 w2 w3 : World) :
  only_printed w1 w2 -> only_printed w2 w3 -> only_printed w1 w3.
Proof.
  intros (Hf & Hb & Hs & Hc & evs & Ht & Hp)
         (Hf' & Hb' & Hs' & Hc' & evs' & Ht' & Hp').
  repeat split; try congruence.
  exists (evs ++ evs'). rewrite Ht', Ht, <- app_assoc, forallb_app, Hp, Hp'.
  split; reflexivity.
Qed.

Lemma scan_file_only_printed (sensor_list : list string)
  (url_dict : Dict.t (Dict.t string)) (file_path : string) (w : World) :
  only_printed w (snd (scan_file sensor_list url_dict file_path w)).
Proof.
  unfold scan_file, bind, print, emit, open_read, only_printed.
  destruct (on_sensor_list sensor_list (file_stem file_path));
    cbn [fst snd fs record].
  - destruct (fs w !! file_path) as [[text|names]|];
      try rewrite for_fold_add_line;
      try destruct (fields_from (PyStr.readlines text) []);
      cbn [fst snd fs buffered sheets calls trace record ret];
      (repeat split; eexists;
       (split; [rewrite <- ?app_assoc; reflexivity|reflexivity])).
  - cbn [fst snd fs buffered sheets calls trace record ret].
    repeat split. eexists.
    split; [rewrite <- ?app_assoc; reflexivity|reflexivity].
Qed.

Lemma for_fold_scan_only_printed (sensor_list paths : list string)
  (url_dict : Dict.t (Dict.t string)) (w : World) :
  only_printed w (snd (for_fold paths url_dict (scan_file sensor_list) w)).
Proof.
  revert url_dict w. induction paths as [|p rest IH]; intros url_dict w.
  - apply only_printed_refl.
  - cbn [for_fold]. unfold bind.
    pose proof (scan_file_only_printed sensor_list url_dict p w) as Hstep.
    destruct (scan_file sensor_list url_dict p w) as [[d|e] w1]; cbn in *.
    + eapply only_printed_trans; [exact Hstep|apply IH].
    + exact Hstep.
Qed.

Lemma open_url_files_only_printed (dir_path : string)
  (sensor_list : list string) (w : World) :
  only_printed w (snd (open_url_files dir_path sensor_list w)).
Proof.
  unfold open_url_files, bind, glob_glob. apply for_fold_scan_only_printed.
Qed.

(** X1: whatever the directory holds and whether it returns or raises,
    [open_url_files] leaves the file system, the spreadsheets, the log
    buffer and the call counters as they were; all it does to the world is
    print. *)
Theorem open_url_files_reads_only (dir_path : string)
  (sensor_list : list string) (w : World) :
  let w' := snd (open_url_files dir_path sensor_list w) in
  fs w' = fs w /\ buffered w' = buffered w /\ sheets w' = sheets w /\
  calls w' = calls w /\
  exists evs, trace w' = trace w ++ evs /\ forallb is_print evs = true.
Proof. exact (open_url_files_only_printed dir_path sensor_list w). Qed.

(** ** What makes the loader raise *)

Lemma fields_from_bad (lines : list string) (acc : Dict.t string) (line : string) :
  In line lines -> bad_line line -> fields_from lines acc = None.
Proof.
  unfold bad_line. revert acc.
  induction lines as [|l rest IH]; intros acc Hin Hbad; [destruct Hin|].
  cbn [fields_from].
  destruct (PyStr.split l) as [|k [|v [|x r]]] eqn:Hs; try reflexivity.
  destruct Hin as [-> | Hin]; [|apply IH; assumption].
  rewrite Hs in Hbad. cbn in Hbad. congruence.
Qed.

Lemma load_raises_at tree sensor_list pre p post e :
  well_formed tree sensor_list pre ->
  (forall d, scan_result tree sensor_list d p = Raise e) ->
  load tree sensor_list (pre ++ p :: post) [] = Raise e.
Proof.
  intros Hwf Hp. rewrite load_app.
  destruct (load_well_formed tree sensor_list pre Hwf []) as (d1 & -> & _).
  cbn [load]. rewrite Hp. reflexivity.
Qed.

(** X2: when a file that is picked has a line that does not split in
    exactly two tokens (a blank line, a key without a value, three words),
    and the files picked before it are well formed, the loader raises
    [ValueError]: it returns no mapping at all, not even the files read
    before. *)
Theorem malformed_line_is_fatal (dir_path : string) (sensor_list : list string)
  (w : World) (pre post : list string) (p text line : string) :
  Glob.glob (fs w) (dir_path +:+ "*") = pre ++ p :: post ->
  well_formed (fs w) sensor_list pre ->
  on_sensor_list sensor_list (file_stem p) = true ->
  fs w !! p = Some (NFile text) ->
  In line (PyStr.readlines text) ->
  bad_line line ->
  fst (open_url_files dir_path sensor_list w) = Raise ValueError.
Proof.
  intros Hglob Hwf Hpick Hfile Hin Hbad.
  rewrite open_url_files_load, Hglob.
  apply load_raises_at; [exact Hwf|]. intros d.
  unfold scan_result, parse_fields.
  rewrite Hpick, Hfile, (fields_from_bad _ [] line Hin Hbad). reflexivity.
Qed.

Lemma malformed_line_is_fatal_witness :
  fst (open_url_files "/home/pi/url/" ["notes"] Sample.twin_world)
  = Raise ValueError.
Proof.
  apply (malformed_line_is_fatal "/home/pi/url/" ["notes"] Sample.twin_world
           ["/home/pi/url/home_livingroom.txt"]
           ["/home/pi/url/home_livingroom.conf"]
           "/home/pi/url/notes.md" "not a url file" "not a url file").
  - reflexivity.
  - intros q [<- | []] Hpick. vm_compute in Hpick. discriminate.
  - reflexivity.
  - reflexivity.
  - left. reflexivity.
  - vm_compute. discriminate.
Defined.

(** X3: when an entry that is picked is not a regular file that can be
    opened (a directory, or a name that is gone), and the files picked
    before it are well formed, the loader raises [OSError]. *)
Theorem unreadable_entry_is_fatal (dir_path : string)
  (sensor_list : list string) (w : World) (pre post : list string) (p : string) :
  Glob.glob (fs w) (dir_path +:+ "*") = pre ++ p :: post ->
  well_formed (fs w) sensor_list pre ->
  on_sensor_list sensor_list (file_stem p) = true ->
  (forall text, fs w !! p <> Some (NFile text)) ->
  fst (open_url_files dir_path sensor_list w) = Raise OSError.
Proof.
  intros Hglob Hwf Hpick Hfile.
  rewrite open_url_files_load, Hglob.
  apply load_raises_at; [exact Hwf|]. intros d.
  unfold scan_result. rewrite Hpick.
  destruct (fs w !! p) as [[text|names]|] eqn:Hp; try reflexivity.
  destruct (Hfile text). reflexivity.
Qed.

Lemma unreadable_entry_is_fatal_witness :
  fst (open_url_files "/home/pi/url/" ["home_livingroom"; "home_outside"]
         Cases.nested_world) = Raise OSError.
Proof.
  apply (unreadable_entry_is_fatal "/home/pi/url/"
           ["home_livingroom"; "home_outside"] Cases.nested_world
           [] [] "/home/pi/url/home_outside").
  - reflexivity.
  - intros q [].
  - reflexivity.
  - intros text H. vm_compute in H. discriminate.
Defined.

(** ** Which files are picked *)

Lemma load_none_picked tree sensor_list paths d :
  (forall p, In p paths -> on_sensor_list sensor_list (file_stem p) = false) ->
  load tree sensor_list paths d = Ok d.
Proof.
  induction paths as [|p rest IH]; intros Hnone; [reflexivity|].
  cbn [load]. rewrite (scan_result_skipped tree sensor_list d p).
  - apply IH. intros q Hq. apply Hnone. right. exact Hq.
  - apply Hnone. left. reflexivity.
Qed.

(** X4: with an empty allow-list the loader returns the empty mapping
    whatever the directory holds, since it opens no file; more generally it
    returns the empty mapping, and cannot fail, when no entry that [glob]
    shows has a stem containing a string of the allow-list. *)
Theorem nothing_picked_loads_nothing (dir_path : string)
  (sensor_list : list string) (w : World) :
  fst (open_url_files dir_path [] w) = Ok [] /\
  ((forall p, In p (Glob.glob (fs w) (dir_path +:+ "*")) ->
              on_sensor_list sensor_list (file_stem p) = false) ->
   fst (open_url_files dir_path sensor_list w) = Ok []).
Proof.
  split.
  - rewrite open_url_files_load. apply load_none_picked. reflexivity.
  - intros Hnone. rewrite open_url_files_load.
    apply load_none_picked, Hnone.
Qed.

Lemma prefix_app (sub s : string) :
  String.prefix sub s = true <-> exists b, s = sub +:+ b.
Proof.
  revert s. induction sub as [|c sub IH]; intros s.
  - split; [intros _; exists s; reflexivity|intros _; destruct s; reflexivity].
  - destruct s as [|d s]; cbn [String.prefix].
    + split; [discriminate|]. intros [b Hb]. discriminate.
    + destruct (ascii_dec c d) as [-> | Hne].
      * rewrite IH. split; intros [b Hb]; exists b.
        -- rewrite append_cons, Hb. reflexivity.
        -- rewrite append_cons in Hb. injection Hb as ->. reflexivity.
      * split; [discriminate|]. intros [b Hb].
        rewrite append_cons in Hb. injection Hb as Hcd _. congruence.
Qed.

Lemma contains_app (sub s : string) :
  PyStr.contains sub s = true <-> exists a b, s = a +:+ sub +:+ b.
Proof.
  split.
  - induction s as [|c s IH]; cbn [PyStr.contains]; intros H;
      apply orb_true_iff in H; destruct H as [H | H]; try discriminate.
    + apply prefix_app in H. destruct H as [b Hb]. exists "", b. exact Hb.
    + apply prefix_app in H. destruct H as [b Hb]. exists "", b. exact Hb.
    + destruct (IH H) as (a & b & ->). exists (String c a), b. reflexivity.
  - intros (a & b & ->). induction a as [|c a IH].
    + change ("" +:+ sub +:+ b) with (sub +:+ b).
      destruct (sub +:+ b) eqn:E; cbn [PyStr.contains];
        apply orb_true_iff; left; apply prefix_app; exists b; symmetry;
        exact E.
    + rewrite append_cons. cbn [PyStr.contains].
      apply orb_true_iff. right. exact IH.
Qed.

(** X5: a file is picked exactly when its stem has some string of the
    allow-list as a contiguous part, anywhere in it; an exact match is not
    needed, and an empty string on the allow-list picks every file. *)
Theorem picked_iff_substring (sensor_list : list string) (file_string : string) :
  (on_sensor_list sensor_list file_string = true <->
   exists sensor_string a b,
     In sensor_string sensor_list /\
     file_string = a +:+ sensor_string +:+ b) /\
  (In "" sensor_list -> on_sensor_list sensor_list file_string = true).
Proof.
  assert (Hiff : on_sensor_list sensor_list file_string = true <->
                 exists sensor_string a b,
                   In sensor_string sensor_list /\
                   file_string = a +:+ sensor_string +:+ b).
  { unfold on_sensor_list. rewrite existsb_exists. split.
    - intros (x & Hin & Hc). apply contains_app in Hc.
      destruct Hc as (a & b & Hs). exists x, a, b. auto.
    - intros (x & a & b & Hin & Hs). exists x. split; [exact Hin|].
      apply contains_app. exists a, b. exact Hs. }
  split; [exact Hiff|].
  intros Hin. apply Hiff. exists "", "", file_string. auto.
Qed.

(** ** A configuration error stops [main] *)

(** X6: when loading the URL files raises, [main] raises the same
    exception at once: the output file is not opened (the file system is
    left as it was), no sensor is read and nothing is uploaded. *)
Theorem config_error_stops_main (env : Env) (n : nat) (w : World) (e : exn) :
  fst (open_url_files (url_file_dir_path env)
         ["home_livingroom"; "home_outside"]
         (set_calls (tick_time (calls w)) w)) = Raise e ->
  let r := main env n w in
  fst r = Raise e /\
  fs (snd r) = fs w /\ sheets (snd r) = sheets w /\
  dht_calls (calls (snd r)) = dht_calls (calls w) /\
  upload_calls (calls (snd r)) = upload_calls (calls w).
Proof.
  intros Hload r. subst r. unfold main, startup, bind, time_time.
  pose proof (open_url_files_only_printed (url_file_dir_path env)
                ["home_livingroom"; "home_outside"]
                (set_calls (tick_time (calls w)) w))
    as (Hfs & _ & Hsh & Hc & _).
  destruct (open_url_files (url_file_dir_path env) _ _) as [[d|e'] w1];
    cbn in Hload; [discriminate|]. injection Hload as ->.
  cbn [fst snd] in *. rewrite Hfs, Hsh, Hc. repeat split.
Qed.

Lemma config_error_stops_main_witness :
  let r := main Sample.env 3 Cases.main_world in
  fst r = Raise ValueError /\
  fs (snd r) = fs Cases.main_world /\ sheets (snd r) = sheets Cases.main_world /\
  dht_calls (calls (snd r)) = dht_calls (calls Cases.main_world) /\
  upload_calls (calls (snd r)) = upload_calls (calls Cases.main_world).
Proof.
  apply (config_error_stops_main Sample.env 3 Cases.main_world ValueError).
  vm_compute. reflexivity.
Defined.

(** ** More on the output file *)

Lemma open_output_file_steps (env : Env) (w : World) :
  open_output_file env w
  = if bool_decide (is_Some (fs w !! output_dir env)) then open_tail env w
    else if makedirs_fails env then (Raise OSError, w)
         else open_tail env
                (set_fs (<[output_dir env := NDir [] ]> (fs w)) w).
Proof.
  unfold open_output_file, open_tail, bind at 1 2, os_path_exists,
    os_makedirs, ret.
  destruct (bool_decide (is_Some (fs w !! output_dir env))); [reflexivity|].
  destruct (makedirs_fails env); reflexivity.
Qed.

Lemma open_tail_keeps_fs (env : Env) (w : World) (c : string) :
  fs w !! output_file_path env = Some (NFile c) ->
  fs (snd (open_tail env w)) = fs w.
Proof.
  intros Hfile.
  unfold open_tail, try_except, bind, open_append, os_stat_size, file_write, ret.
  destruct (open_fails env); [reflexivity|].
  destruct (fs w !! (OsPath.split (output_file_path env)).1) as [[text|names]|];
    try reflexivity.
  rewrite Hfile. cbn [fs set_buffered]. rewrite Hfile.
  destruct (stat_fails env); [reflexivity|].
  destruct (String.length c =? 0)%nat; [|reflexivity].
  cbn [calls set_buffered]. destruct (write_fails env _); reflexivity.
Qed.

(** X7: [os.makedirs] stands outside the [try] of [open_output_file]: when
    the output directory is missing and cannot be made, the exception
    leaves [open_output_file], and [main] stops with an exception before it
    reads any sensor, whatever the URL files are. *)
Theorem makedirs_failure_is_fatal (env : Env) (w : World) :
  fs w !! output_dir env = None ->
  makedirs_fails env = true ->
  open_output_file env w = (Raise OSError, w) /\
  forall n, exists e,
    fst (main env n w) = Raise e /\
    dht_calls (calls (snd (main env n w))) = dht_calls (calls w).
Proof.
  intros Hdir Hmk.
  assert (Hopen : forall w', fs w' = fs w ->
                             open_output_file env w' = (Raise OSError, w')).
  { intros w' Hfs. rewrite open_output_file_steps, Hfs, Hdir, Hmk.
    rewrite bool_decide_eq_false_2 by (intros [? ?]; discriminate).
    reflexivity. }
  split; [apply Hopen; reflexivity|].
  intros n. unfold main, startup, bind, time_time.
  pose proof (open_url_files_only_printed (url_file_dir_path env)
                ["home_livingroom"; "home_outside"]
                (set_calls (tick_time (calls w)) w))
    as (Hfs & _ & _ & Hc & _).
  destruct (open_url_files (url_file_dir_path env) _ _) as [[d|e] w1];
    cbn [fst snd] in *.
  - rewrite (Hopen w1 Hfs). exists OSError. cbn [fst snd]. rewrite Hc.
    split; reflexivity.
  - exists e. rewrite Hc. split; reflexivity.
Qed.

Lemma makedirs_failure_is_fatal_witness :
  open_output_file Cases.env_no_makedirs Sample.bare_world
  = (Raise OSError, Sample.bare_world) /\
  forall n, exists e,
    fst (main Cases.env_no_makedirs n Sample.bare_world) = Raise e /\
    dht_calls (calls (snd (main Cases.env_no_makedirs n Sample.bare_world)))
    = dht_calls (calls Sample.bare_world).
Proof.
  apply (makedirs_failure_is_fatal Cases.env_no_makedirs Sample.bare_world);
    reflexivity.
Defined.

(** X8: when the file opens but [os.stat] raises, or the file is empty and
    writing the header raises, [open_output_file] returns [None] all the
    same: the handle is dropped, while the file itself is there. *)
Theorem failed_header_returns_none (env : Env) (w : World)
  (names : list string) :
  fs w !! output_dir env = Some (NDir names) ->
  fs w !! output_file_path env = None \/
  (exists c, fs w !! output_file_path env = Some (NFile c)) ->
  open_fails env = false ->
  stat_fails env = true \/
  (on_disk (output_file_path env) w = "" /\
   write_fails env (write_calls (calls w)) = true) ->
  let r := open_output_file env w in
  fst r = Ok None /\
  exists c, fs (snd r) !! output_file_path env = Some (NFile c).
Proof.
  intros Hdir Hfile Hopen Hfault r. subst r.
  destruct (output_paths env) as (Hsplit & _ & _).
  rewrite open_output_file_steps.
  rewrite bool_decide_eq_true_2 by (rewrite Hdir; eauto).
  unfold open_tail, try_except, bind, open_append, os_stat_size, file_write, ret.
  rewrite Hopen, Hsplit. cbn [fst]. rewrite Hdir.
  unfold on_disk in Hfault.
  destruct Hfile as [Hf | [c Hf]]; rewrite Hf in *;
    cbn [fs set_fs set_buffered calls].
  - rewrite lookup_insert_eq.
    destruct (stat_fails env).
    + cbn [fst snd fs set_fs set_buffered]. rewrite lookup_insert_eq. eauto.
    + destruct Hfault as [Hst | [_ Hw]]; [discriminate|].
      cbn [String.length Nat.eqb calls set_fs set_buffered]. rewrite Hw.
      cbn [fst snd fs set_fs set_buffered set_calls record].
      rewrite lookup_insert_eq. eauto.
  - rewrite Hf. destruct (stat_fails env).
    + cbn [fst snd fs set_buffered]. eauto.
    + destruct Hfault as [Hst | [-> Hw]]; [discriminate|].
      cbn [String.length Nat.eqb calls set_fs set_buffered]. rewrite Hw.
      cbn [fst snd fs set_fs set_buffered set_calls record]. eauto.
Qed.

Lemma failed_header_returns_none_witness :
  let r := open_output_file Cases.env_no_stat Sample.world in
  fst r = Ok None /\
  exists c, fs (snd r) !! output_file_path Cases.env_no_stat = Some (NFile c).
Proof.
  apply (failed_header_returns_none Cases.env_no_stat Sample.world []).
  - reflexivity.
  - left. reflexivity.
  - reflexivity.
  - left. reflexivity.
Defined.

(** X9: whatever fails, [open_output_file] leaves the text of a log that
    exists as it is: the file is opened for appending, never rewritten. *)
Theorem open_keeps_existing_content (env : Env) (w : World) (c : string) :
  fs w !! output_file_path env = Some (NFile c) ->
  fs (snd (open_output_file env w)) !! output_file_path env = Some (NFile c).
Proof.
  intros Hfile. destruct (output_paths env) as (_ & _ & Hne).
  rewrite open_output_file_steps.
  destruct (bool_decide (is_Some (fs w !! output_dir env))).
  - rewrite (open_tail_keeps_fs env w c Hfile). exact Hfile.
  - destruct (makedirs_fails env); [exact Hfile|].
    assert (Hfile' : fs (set_fs (<[output_dir env := NDir [] ]> (fs w)) w)
                     !! output_file_path env = Some (NFile c)).
    { cbn [fs set_fs]. rewrite lookup_insert_ne by congruence. exact Hfile. }
    rewrite (open_tail_keeps_fs env _ c Hfile'). exact Hfile'.
Qed.

Lemma open_keeps_existing_content_witness :
  fs (snd (open_output_file Sample.env_failing Cases.logged_world))
  !! output_file_path Sample.env_failing = Some (NFile Cases.old_log).
Proof.
  apply (open_keeps_existing_content Sample.env_failing Cases.logged_world
           Cases.old_log).
  reflexivity.
Defined.

(** X10: [append_file] only ever adds to the end of the file of its handle:
    what was on disk stays in front, every other file and every spreadsheet
    stays as it was, whether the write and the flush succeed or not. *)
Theorem append_file_only_appends (env : Env) (path : string)
  (out : option sensor_list) (t : struct_time) (pin : option string)
  (w : World) :
  let w' := snd (append_file env (Some (FileHandle path)) out t pin w) in
  (exists more, on_disk path w' = on_disk path w +:+ more) /\
  (forall q, q <> path -> fs w' !! q = fs w !! q) /\
  sheets w' = sheets w.
Proof.
  unfold append_file, try_except, bind, getattr_write, subscript, ret, raise,
    on_disk.
  destruct out as [l|]; cbn [fst snd].
  - unfold file_write. destruct (write_fails env _);
      cbn [fst snd fs sheets record set_calls set_buffered print emit].
    + split; [exists ""; rewrite append_nil_r; reflexivity|]. split; reflexivity.
    + unfold file_flush. destruct (flush_fails env _);
        cbn [fst snd fs sheets buffered calls record set_calls set_buffered
               set_fs print emit].
      * split; [exists ""; rewrite append_nil_r; reflexivity|].
        split; reflexivity.
      * rewrite lookup_insert_eq. split; [eexists; reflexivity|].
        split; [|reflexivity].
        intros q Hq. apply lookup_insert_ne. congruence.
  - cbn [fs sheets record print emit].
    split; [exists ""; rewrite append_nil_r; reflexivity|]. split; reflexivity.
Qed.

(** X11: when [write] raises, [flush] is not called: the failure is printed
    once, and the file, the buffer and the flush counter are as before. *)
Theorem failed_write_skips_flush (env : Env) (h : file_handle)
  (l : sensor_list) (t : struct_time) (pin : option string) (w : World) :
  write_fails env (write_calls (calls w)) = true ->
  let r := append_file env (Some h) (Some l) t pin w in
  fst r = Ok tt /\
  fs (snd r) = fs w /\ buffered (snd r) = buffered w /\
  flush_calls (calls (snd r)) = flush_calls (calls w) /\
  trace (snd r) = trace w ++ [EvWrite (log_line l t pin); EvPrint no_write].
Proof.
  intros Hw.
  unfold append_file, try_except, bind, getattr_write, subscript, ret, raise,
    file_write.
  cbn [fst snd]. rewrite Hw. cbn. rewrite <- app_assoc. repeat split.
Qed.

Lemma failed_write_skips_flush_witness :
  let r := append_file Sample.env_failing (Some Sample.handle)
             (Some (reading_of Sample.read_time 55.2 21.4))
             Sample.read_time (Some "4") Sample.world in
  fst r = Ok tt /\
  fs (snd r) = fs Sample.world /\ buffered (snd r) = buffered Sample.world /\
  flush_calls (calls (snd r)) = flush_calls (calls Sample.world) /\
  trace (snd r)
  = trace Sample.world
    ++ [EvWrite (log_line (reading_of Sample.read_time 55.2 21.4)
                   Sample.read_time (Some "4"));
        EvPrint no_write].
Proof.
  apply (failed_write_skips_flush Sample.env_failing Sample.handle).
  reflexivity.
Defined.

(** ** More on the upload *)

(** X12: an upload that the service fails is caught and printed once, and
    leaves every spreadsheet as it was.  When [service_account()] fails,
    nothing else is called; when opening the sheet fails, [append_row] is
    not called. *)
Theorem failed_upload_adds_no_row (env : Env) (out : option sensor_list)
  (key : option string) (t : struct_time) (w : World) (o : remote_outcome) :
  gspread_outcome env (upload_calls (calls w)) = o ->
  o <> RemoteOk ->
  let r := append_google_sheet env out key t w in
  fst r = Ok tt /\
  sheets (snd r) = sheets w /\
  exists evs,
    trace (snd r) = trace w ++ evs /\
    List.filter is_print evs = [EvPrint no_upload] /\
    (o = AuthFails -> evs = [EvServiceAccount; EvPrint no_upload]) /\
    (o = OpenFails ->
     evs = [EvServiceAccount; EvOpenByKey key; EvPrint no_upload]).
Proof.
  intros Ho Hne r. subst r.
  unfold append_google_sheet, try_except, bind, gspread_service_account,
    open_by_key_sheet1, append_row, subscript, emit, bind, ret, raise.
  remote_cases env w key; subst o; try congruence; destruct out; remote_run;
    (split; [reflexivity|]; split; [reflexivity|];
     eexists; split; [rewrite <- ?app_assoc; reflexivity|];
     split; [reflexivity|]; split; intros; try discriminate; reflexivity).
Qed.

Lemma failed_upload_adds_no_row_witness :
  let r := append_google_sheet Sample.env_failing
             (Some (reading_of Sample.read_time 55.2 21.4)) (Some "ABC123")
             Sample.read_time Sample.world in
  fst r = Ok tt /\
  sheets (snd r) = sheets Sample.world /\
  exists evs,
    trace (snd r) = trace Sample.world ++ evs /\
    List.filter is_print evs = [EvPrint no_upload] /\
    (AuthFails = AuthFails -> evs = [EvServiceAccount; EvPrint no_upload]) /\
    (AuthFails = OpenFails ->
     evs = [EvServiceAccount; EvOpenByKey (Some "ABC123"); EvPrint no_upload]).
Proof.
  apply (failed_upload_adds_no_row Sample.env_failing
           (Some (reading_of Sample.read_time 55.2 21.4)) (Some "ABC123")
           Sample.read_time Sample.world AuthFails).
  - reflexivity.
  - discriminate.
Defined.

(** X13: an upload never removes a row and never touches a spreadsheet
    other than the one under its key: every sheet keeps its rows in front,
    gains at most one row, and gains none unless it is the sheet of the
    key; a key without a spreadsheet does not create one. *)
Theorem upload_touches_one_sheet (env : Env) (out : option sensor_list)
  (key : option string) (t : struct_time) (w : World) :
  let w' := snd (append_google_sheet env out key t w) in
  forall k : string,
  (sheets w !! k = None -> sheets w' !! k = None) /\
  (forall rows, sheets w !! k = Some rows ->
     exists more, sheets w' !! k = Some (rows ++ more) /\
                  length more <= 1 /\
                  (key <> Some k -> more = [])).
Proof.
  assert (Hsame : forall w', sheets w' = sheets w -> forall k : string,
            (sheets w !! k = None -> sheets w' !! k = None) /\
            (forall rows, sheets w !! k = Some rows ->
               exists more, sheets w' !! k = Some (rows ++ more) /\
                            length more <= 1 /\
                            (key <> Some k -> more = []))).
  { intros w' -> k. split; [auto|]. intros rows Hr. exists [].
    rewrite app_nil_r. cbn. auto. }
  unfold append_google_sheet, try_except, bind, gspread_service_account,
    open_by_key_sheet1, append_row, subscript, emit, bind, ret, raise.
  remote_cases env w key; destruct out; remote_run;
    try (apply Hsame; reflexivity).
  intros other. destruct (decide (other = k)) as [-> | Hother].
  - rewrite lookup_insert_eq. split; [congruence|].
    intros rows Hr. exists [sheet_row s t].
    assert (rows = l) by congruence. subst rows.
    cbn. split; [reflexivity|]. split; [lia|congruence].
  - rewrite lookup_insert_ne by congruence. split; [auto|].
    intros rows Hr. exists []. rewrite app_nil_r. cbn. auto.
Qed.

(** ** More on the rounds *)

Lemma append_file_events (env : Env) f out t pin w :
  exists evs,
    trace (snd (append_file env f out t pin w)) = trace w ++ evs /\
    forallb local_event evs = true.
Proof.
  unfold append_file, try_except, bind, getattr_write, subscript, ret, raise.
  destruct f as [[p]|], out as [l|]; cbn;
    try (eexists; split; reflexivity).
  unfold file_write. destruct (write_fails env _); cbn.
  - eexists; split; [rewrite <- ?app_assoc; reflexivity|reflexivity].
  - unfold file_flush. cbn. destruct (flush_fails env _); cbn;
      (eexists; split; [rewrite <- ?app_assoc; reflexivity|reflexivity]).
Qed.

Lemma append_google_sheet_events (env : Env) out key t w :
  exists evs,
    trace (snd (append_google_sheet env out key t w)) = trace w ++ evs /\
    forallb remote_event evs = true.
Proof.
  unfold append_google_sheet, try_except, bind, gspread_service_account,
    open_by_key_sheet1, append_row, subscript, emit, bind, ret, raise.
  remote_cases env w key; destruct out; remote_run;
    (eexists; split; [rewrite <- ?app_assoc; reflexivity|reflexivity]).
Qed.

Lemma filter_none {A} (P Q : A -> bool) (l : list A) :
  forallb P l = true -> (forall x, P x = true -> Q x = false) ->
  List.filter Q l = [].
Proof.
  intros Hall HPQ. induction l as [|x l IH]; [reflexivity|].
  cbn in Hall. apply andb_prop in Hall as [Hx Hl].
  cbn. rewrite (HPQ x Hx). auto.
Qed.

Lemma local_not_read e : local_event e = true -> is_dht_read e = false.
Proof. destruct e; cbn; congruence. Qed.

Lemma local_not_sleep e : local_event e = true -> is_sleep e = false.
Proof. destruct e; cbn; congruence. Qed.

Lemma remote_not_read e : remote_event e = true -> is_dht_read e = false.
Proof. destruct e; cbn; congruence. Qed.

Lemma remote_not_sleep e : remote_event e = true -> is_sleep e = false.
Proof. destruct e; cbn; congruence. Qed.

(** When the driver raises, polling the sensor stops at the read. *)
Lemma poll_sensor_raises (env : Env) f rt item w e :
  dht_driver env (dht_calls (calls w)) = DhtRaise e ->
  poll_sensor env f rt item w
  = (Raise e, after_read DHT22 (Dict.get "pin" item.2) w).
Proof.
  intros Hd. destruct item as [loc sd].
  unfold poll_sensor, bind, read_sensor, bind, Adafruit_DHT_read_retry.
  rewrite Hd. reflexivity.
Qed.

(** Polling one sensor reads the driver first and once, on the pin of the
    sensor, and does not sleep. *)
Lemma poll_sensor_events (env : Env) f rt item w :
  exists evs,
    trace (snd (poll_sensor env f rt item w))
    = trace w ++ EvDhtRead DHT22 (Dict.get "pin" item.2) :: evs /\
    List.filter is_dht_read evs = [] /\ List.filter is_sleep evs = [].
Proof.
  destruct (dht_driver env (dht_calls (calls w))) as [h c|e] eqn:Hd.
  - destruct item as [loc sd]. cbn [snd].
    assert (Hcase : (exists h' c', h = Some h' /\ c = Some c')
                    \/ h = None \/ c = None).
    { destruct h, c; eauto. }
    destruct Hcase as [(h' & c' & -> & ->) | Habs].
    + rewrite (poll_sensor_complete env f rt loc sd w h' c' Hd).
      destruct (append_google_sheet_events env (Some (reading_of rt h' c'))
                  (Dict.get "id" sd) rt
                  (snd (append_file env f (Some (reading_of rt h' c')) rt
                          (Dict.get "pin" sd)
                          (after_read DHT22 (Dict.get "pin" sd) w))))
        as (e2 & -> & H2).
      destruct (append_file_events env f (Some (reading_of rt h' c')) rt
                  (Dict.get "pin" sd) (after_read DHT22 (Dict.get "pin" sd) w))
        as (e1 & -> & H1).
      exists (e1 ++ e2). split.
      * unfold after_read. cbn [trace record set_calls].
        rewrite <- !app_assoc. reflexivity.
      * rewrite !List.filter_app.
        rewrite (filter_none _ _ e1 H1 local_not_read),
                (filter_none _ _ e2 H2 remote_not_read),
                (filter_none _ _ e1 H1 local_not_sleep),
                (filter_none _ _ e2 H2 remote_not_sleep).
        split; reflexivity.
    + rewrite (poll_sensor_absent env f rt loc sd w h c Hd Habs).
      destruct (append_google_sheet_events env None (Dict.get "id" sd) rt
                  (record (EvPrint no_write)
                     (record (EvPrint no_data)
                        (after_read DHT22 (Dict.get "pin" sd) w))))
        as (e2 & -> & H2).
      exists ([EvPrint no_data; EvPrint no_write] ++ e2). split.
      * unfold after_read. cbn [trace record set_calls].
        rewrite <- !app_assoc. reflexivity.
      * rewrite !List.filter_app.
        rewrite (filter_none _ _ e2 H2 remote_not_read),
                (filter_none _ _ e2 H2 remote_not_sleep).
        split; reflexivity.
  - rewrite (poll_sensor_raises env f rt item w e Hd).
    exists []. unfold after_read. cbn [snd trace record set_calls].
    repeat split; reflexivity.
Qed.

Lemma bind_raise {A B} (c : M A) (k : A -> M B) (w : World) (e : exn) :
  fst (c w) = Raise e -> bind c k w = (Raise e, snd (c w)).
Proof. unfold bind. destruct (c w) as [[a'|e'] w']; cbn; congruence. Qed.

(** A pass over the sensors does not sleep; when it ends without an
    exception it has read the sensors once each, in their order. *)
Lemma poll_sensors_events (env : Env) f rt ids w :
  exists evs,
    trace (snd (poll_sensors env f rt ids w)) = trace w ++ evs /\
    List.filter is_sleep evs = [] /\
    (fst (poll_sensors env f rt ids w) = Ok tt ->
     List.filter is_dht_read evs
     = map (fun item => EvDhtRead DHT22 (Dict.get "pin" item.2)) ids).
Proof.
  revert w. induction ids as [|item rest IH]; intros w.
  - exists []. cbn. rewrite app_nil_r. repeat split; reflexivity.
  - destruct (poll_sensor_events env f rt item w) as (e1 & Ht & Hr & Hs).
    destruct (fst (poll_sensor env f rt item w)) as [[]|e] eqn:Hfst.
    + rewrite (poll_sensors_step env f rt item rest w Hfst).
      destruct (IH (snd (poll_sensor env f rt item w)))
        as (e2 & Ht2 & Hs2 & Hr2).
      exists (EvDhtRead DHT22 (Dict.get "pin" item.2) :: e1 ++ e2).
      split; [|split].
      * rewrite Ht2, Ht, <- app_assoc. reflexivity.
      * cbn [List.filter is_sleep]. rewrite List.filter_app, Hs, Hs2.
        reflexivity.
      * intros Hok. cbn [List.filter is_dht_read map].
        rewrite List.filter_app, Hr, (Hr2 Hok). reflexivity.
    + unfold poll_sensors. cbn [for_each].
      rewrite (bind_raise (poll_sensor env f rt item)
                 (fun _ => for_each rest (poll_sensor env f rt)) w e Hfst).
      cbn [fst snd].
      exists (EvDhtRead DHT22 (Dict.get "pin" item.2) :: e1).
      split; [exact Ht|]. split; [exact Hs|discriminate].
Qed.

(** The sensors before the one at which the driver raises are polled; the
    pass ends there. *)
Lemma poll_sensors_abort (env : Env) f rt pre item post w e :
  (forall k, k < length pre ->
     exists h c, dht_driver env (dht_calls (calls w) + k) = DhtReturn h c) ->
  dht_driver env (dht_calls (calls w) + length pre) = DhtRaise e ->
  fst (poll_sensors env f rt (pre ++ item :: post) w) = Raise e /\
  dht_calls (calls (snd (poll_sensors env f rt (pre ++ item :: post) w)))
  = dht_calls (calls w) + length pre + 1 /\
  upload_calls (calls (snd (poll_sensors env f rt (pre ++ item :: post) w)))
  = upload_calls (calls w) + length pre /\
  time_calls (calls (snd (poll_sensors env f rt (pre ++ item :: post) w)))
  = time_calls (calls w).
Proof.
  revert w. induction pre as [|x pre IH]; intros w Hret Hraise.
  - cbn [app length] in *. rewrite Nat.add_0_r in Hraise.
    unfold poll_sensors. cbn [for_each].
    rewrite (bind_raise (poll_sensor env f rt item)
               (fun _ => for_each post (poll_sensor env f rt)) w e);
      rewrite (poll_sensor_raises env f rt item w e Hraise);
      [|reflexivity].
    cbn. repeat split; lia.
  - cbn [app length] in *.
    assert (H0 : exists h c,
               dht_driver env (dht_calls (calls w)) = DhtReturn h c).
    { destruct (Hret 0) as (h & c & H); [lia|].
      rewrite Nat.add_0_r in H. eauto. }
    destruct (poll_sensor_ok env f rt x w H0) as (Hok & Hd & Hu & Ht & _).
    rewrite (poll_sensors_step env f rt x (pre ++ item :: post) w Hok).
    destruct (IH (snd (poll_sensor env f rt x w))) as (Hr & Hd' & Hu' & Ht').
    + intros k Hk. rewrite Hd.
      destruct (Hret (S k)) as (h & c & H); [lia|].
      exists h, c. rewrite <- H. f_equal. lia.
    + rewrite Hd, <- Hraise. f_equal. lia.
    + rewrite Hr, Hd', Hu', Ht', Hd, Hu, Ht. repeat split; lia.
Qed.

(** X14: an exception of the driver is not caught.  When the driver returns
    for the first sensors of the mapping and raises at the next one, the
    round raises that exception and the loop ends: the sensors after it are
    not read, nothing is uploaded for it or for them, the clock is not asked
    again and the script does not sleep. *)
Theorem driver_exception_ends_loop (env : Env) (f : option file_handle)
  (start_time : float) (pre : Dict.t (Dict.t string))
  (item : string * Dict.t string) (post : Dict.t (Dict.t string))
  (w : World) (e : exn) (n : nat) :
  (forall k, k < length pre ->
     exists h c, dht_driver env (dht_calls (calls w) + k) = DhtReturn h c) ->
  dht_driver env (dht_calls (calls w) + length pre) = DhtRaise e ->
  let r := poll_loop env (S n) start_time (pre ++ item :: post) f w in
  fst r = Raise e /\
  dht_calls (calls (snd r)) = dht_calls (calls w) + length pre + 1 /\
  upload_calls (calls (snd r)) = upload_calls (calls w) + length pre /\
  time_calls (calls (snd r)) = time_calls (calls w) /\
  List.filter is_sleep (trace (snd r)) = List.filter is_sleep (trace w).
Proof.
  intros Hret Hraise r. subst r. cbn [poll_loop].
  unfold poll_cycle, bind. cbn [time_localtime].
  set (rt := local_clock env _).
  set (w0 := set_calls _ w).
  destruct (poll_sensors_abort env f rt pre item post w0 e Hret Hraise)
    as (Hr & Hd & Hu & Ht).
  destruct (poll_sensors_events env f rt (pre ++ item :: post) w0)
    as (evs & Htr & Hs & _).
  destruct (poll_sensors env f rt (pre ++ item :: post) w0) as [[[]|e'] w1];
    cbn [fst snd] in *; [discriminate|].
  split; [exact Hr|]. split; [exact Hd|]. split; [exact Hu|].
  split; [exact Ht|].
  rewrite Htr, List.filter_app, Hs, app_nil_r. reflexivity.
Qed.

Lemma driver_exception_ends_loop_witness :
  let r := poll_loop Cases.env_driver_raises 3 Sample.start_time
             ([Sample.livingroom] ++ Cases.outside :: [])
             (Some Sample.handle) Sample.world in
  fst r = Raise RuntimeError /\
  dht_calls (calls (snd r)) = dht_calls (calls Sample.world) + 1 + 1 /\
  upload_calls (calls (snd r)) = upload_calls (calls Sample.world) + 1 /\
  time_calls (calls (snd r)) = time_calls (calls Sample.world) /\
  List.filter is_sleep (trace (snd r))
  = List.filter is_sleep (trace Sample.world).
Proof.
  apply (driver_exception_ends_loop Cases.env_driver_raises
           (Some Sample.handle) Sample.start_time [Sample.livingroom]
           Cases.outside [] Sample.world RuntimeError 2).
  - intros k Hk. cbn in Hk. destruct k; [|lia].
    eexists _, _. reflexivity.
  - reflexivity.
Defined.

(** ** What a round leaves in the log *)

Section RoundLog.

Variable env : Env.
Variable p : string.

Hypothesis Hdriver : driver_returns env.
Hypothesis Hwrite : forall k, write_fails env k = false.
Hypothesis Hflush : forall k, flush_fails env k = false.

Lemma log_text_local_view (a b : World) :
  local_view a = local_view b -> log_text p a = log_text p b.
Proof.
  unfold local_view, log_text, on_disk. intros H.
  assert (fs a = fs b) as -> by congruence.
  assert (buffered a = buffered b) as -> by congruence.
  reflexivity.
Qed.

Lemma append_file_log_text l t pin w :
  log_text p (snd (append_file env (Some (FileHandle p)) (Some l) t pin w))
  = log_text p w +:+ log_line l t pin.
Proof.
  destruct (append_file_written env p l t pin w (Hwrite _) (Hflush _))
    as (Hfs & Hbuf & _).
  unfold log_text at 1, on_disk at 1.
  rewrite Hfs, Hbuf, lookup_insert_eq, append_nil_r.
  unfold log_text, on_disk. rewrite append_assoc. reflexivity.
Qed.

Lemma poll_sensors_log rt ids w :
  log_text p (snd (poll_sensors env (Some (FileHandle p)) rt ids w))
  = log_text p w +:+ round_lines env rt ids (dht_calls (calls w)).
Proof.
  revert w. induction ids as [|[loc sd] rest IH]; intros w.
  - unfold poll_sensors. cbn [for_each round_lines ret snd].
    symmetry. apply append_nil_r.
  - destruct (poll_sensor_ok env (Some (FileHandle p)) rt (loc, sd) w
                (Hdriver _)) as (Hok & Hd & _).
    rewrite (poll_sensors_step env (Some (FileHandle p)) rt (loc, sd) rest w
               Hok), IH, Hd.
    cbn [round_lines snd].
    destruct (Hdriver (dht_calls (calls w))) as (h & c & Hdr). rewrite Hdr.
    assert (Hcase : (exists h' c', h = Some h' /\ c = Some c')
                    \/ h = None \/ c = None).
    { destruct h, c; eauto. }
    destruct Hcase as [(h' & c' & -> & ->) | Habs].
    + rewrite <- append_assoc. f_equal.
      rewrite (poll_sensor_complete env (Some (FileHandle p)) rt loc sd w
                 h' c' Hdr).
      destruct (append_google_sheet_frame env (Some (reading_of rt h' c'))
                  (Dict.get "id" sd) rt
                  (snd (append_file env (Some (FileHandle p))
                          (Some (reading_of rt h' c')) rt (Dict.get "pin" sd)
                          (after_read DHT22 (Dict.get "pin" sd) w))))
        as (Hl & _).
      rewrite (log_text_local_view _ _ Hl), append_file_log_text.
      reflexivity.
    + assert (Hskip : match h, c with
                      | Some h', Some c' =>
                          log_line (reading_of rt h' c') rt (Dict.get "pin" sd)
                          +:+ round_lines env rt rest (S (dht_calls (calls w)))
                      | _, _ => round_lines env rt rest (S (dht_calls (calls w)))
                      end
                      = round_lines env rt rest (S (dht_calls (calls w)))).
      { destruct Habs as [-> | ->]; [reflexivity|]. destruct h; reflexivity. }
      rewrite Hskip. f_equal.
      rewrite (poll_sensor_absent env (Some (FileHandle p)) rt loc sd w h c
                 Hdr Habs).
      destruct (append_google_sheet_frame env None (Dict.get "id" sd) rt
                  (record (EvPrint no_write)
                     (record (EvPrint no_data)
                        (after_read DHT22 (Dict.get "pin" sd) w))))
        as (Hl & _).
      rewrite (log_text_local_view _ _ Hl). reflexivity.
Qed.

End RoundLog.

(** X15: when the driver returns from every call and neither [write] nor
    [flush] fails, a round adds to the log exactly one line for every
    sensor whose reading is complete, in the order of the mapping, all
    stamped with the one [read_time] taken at the start of the round, and
    nothing for a sensor whose reading is not complete.  What the
    spreadsheet service and the clock do makes no difference. *)
Theorem round_logs_complete_readings (env : Env) (start_time : float)
  (sheet_ids : Dict.t (Dict.t string)) (p : string) (w : World) :
  driver_returns env ->
  (forall k, write_fails env k = false) ->
  (forall k, flush_fails env k = false) ->
  let w' := snd (poll_cycle env start_time sheet_ids (Some (FileHandle p)) w) in
  log_text p w'
  = log_text p w
    +:+ round_lines env (local_clock env (localtime_calls (calls w)))
          sheet_ids (dht_calls (calls w)).
Proof.
  intros Hd Hw Hf. cbn zeta.
  set (rt := local_clock env (localtime_calls (calls w))).
  set (w0 := set_calls (tick_localtime (calls w)) w).
  transitivity
    (log_text p (snd (poll_sensors env (Some (FileHandle p)) rt sheet_ids w0))).
  - apply log_text_local_view.
    unfold poll_cycle, bind. cbn [time_localtime]. fold rt. fold w0.
    destruct (poll_sensors env (Some (FileHandle p)) rt sheet_ids w0)
      as [[[]|e] w1]; cbn [snd]; [|reflexivity].
    unfold time_time, sleep_length.
    destruct (PyFloat.rem _ _) as [r|]; [|reflexivity].
    unfold ret, time_sleep, bind, emit.
    destruct (valid_sleep _); reflexivity.
  - exact (poll_sensors_log env p Hd Hw Hf rt sheet_ids w0).
Qed.

Lemma round_logs_complete_readings_witness :
  let w' := snd (poll_cycle Sample.env Sample.start_time
                   [Sample.livingroom; Cases.outside]
                   (Some (FileHandle "/var/log/dht22.csv")) Sample.world) in
  log_text "/var/log/dht22.csv" w'
  = log_text "/var/log/dht22.csv" Sample.world
    +:+ round_lines Sample.env
          (local_clock Sample.env (localtime_calls (calls Sample.world)))
          [Sample.livingroom; Cases.outside]
          (dht_calls (calls Sample.world)).
Proof.
  apply (round_logs_complete_readings Sample.env Sample.start_time
           [Sample.livingroom; Cases.outside] "/var/log/dht22.csv"
           Sample.world).
  - intros k. eexists _, _. reflexivity.
  - intros k. reflexivity.
  - intros k. reflexivity.
Defined.

(** X16: in a round in which the driver returns from every call, every
    sensor of the mapping is read exactly once, in the order of the
    mapping, as a DHT22 on the pin of its URL file (no pin when the file
    names none), and the round sleeps at most once. *)
Theorem round_reads_sensors_in_order (env : Env) (start_time : float)
  (sheet_ids : Dict.t (Dict.t string)) (f : option file_handle) (w : World) :
  driver_returns env ->
  let w' := snd (poll_cycle env start_time sheet_ids f w) in
  exists evs,
    trace w' = trace w ++ evs /\
    List.filter is_dht_read evs
    = map (fun item => EvDhtRead DHT22 (Dict.get "pin" item.2)) sheet_ids /\
    length (List.filter is_sleep evs) <= 1.
Proof.
  intros Hd. cbn zeta.
  unfold poll_cycle, bind. cbn [time_localtime].
  set (rt := local_clock env _).
  set (w0 := set_calls _ w).
  destruct (poll_sensors_ok env f Hd rt sheet_ids w0) as (Hok & _).
  destruct (poll_sensors_events env f rt sheet_ids w0)
    as (evs & Htr & Hs & Hr).
  specialize (Hr Hok).
  destruct (poll_sensors env f rt sheet_ids w0) as [[[]|e] w1];
    cbn [fst snd] in *; [|discriminate].
  change (trace w0) with (trace w) in Htr.
  unfold time_time, sleep_length.
  destruct (PyFloat.rem _ _) as [r|].
  - unfold ret, time_sleep, bind, emit.
    exists (evs ++ [EvSleep (120 - r)%float]).
    split; [|split].
    + destruct (valid_sleep _); unfold raise, ret;
        cbn [snd trace record set_calls];
        rewrite Htr, <- app_assoc; reflexivity.
    + rewrite List.filter_app, Hr. cbn. apply app_nil_r.
    + rewrite List.filter_app, Hs. cbn. lia.
  - exists evs. cbn [snd raise trace set_calls].
    split; [exact Htr|]. split; [exact Hr|]. rewrite Hs. cbn. lia.
Qed.

Lemma round_reads_sensors_in_order_witness :
  let w' := snd (poll_cycle Sample.env Sample.start_time
                   [Sample.livingroom; Cases.outside] None Sample.world) in
  exists evs,
    trace w' = trace Sample.world ++ evs /\
    List.filter is_dht_read evs
    = map (fun item => EvDhtRead DHT22 (Dict.get "pin" item.2))
          [Sample.livingroom; Cases.outside] /\
    length (List.filter is_sleep evs) <= 1.
Proof.
  apply (round_reads_sensors_in_order Sample.env Sample.start_time
           [Sample.livingroom; Cases.outside] None Sample.world).
  intros k. eexists _, _. reflexivity.
Defined.

(** ** Where [main] looks for the URL files *)

Lemma join_plain_eq (d t : string) :
  plain_end d -> String.prefix "/" t = false ->
  OsPath.join d t = d +:+ "/" +:+ t.
Proof.
  intros [Hs Hne] Hp. unfold OsPath.join, PyStr.endswith_sep.
  rewrite Hp, Hne, Hs, String.eqb_refl. reflexivity.
Qed.

Lemma glob_not_directory (tree : gmap string node) (pathname : string) :
  (forall names,
     tree !! Glob.listed_dir (fst (OsPath.split pathname)) <> Some (NDir names)) ->
  Glob.glob tree pathname = [].
Proof.
  unfold Glob.glob, Glob.glob1.
  destruct (OsPath.split pathname) as [dirname basename]. cbn [fst].
  intros Hno.
  destruct (tree !! Glob.listed_dir dirname) as [[text|names]|] eqn:Hd;
    try (destruct (PyStr.is_empty dirname); reflexivity).
  exfalso. exact (Hno names eq_refl).
Qed.

(** Opening the output file reads no sensor and uploads nothing. *)
Lemma open_tail_frame (env : Env) (w : World) :
  sheets (snd (open_tail env w)) = sheets w /\
  dht_calls (calls (snd (open_tail env w))) = dht_calls (calls w) /\
  upload_calls (calls (snd (open_tail env w))) = upload_calls (calls w).
Proof.
  unfold open_tail, try_except, bind, open_append, os_stat_size, file_write, ret.
  destruct (open_fails env); [repeat split; reflexivity|].
  destruct (fs w !! (OsPath.split (output_file_path env)).1) as [[text|names]|];
    try (repeat split; reflexivity).
  destruct (fs w !! output_file_path env) as [[c|sub]|];
    try (repeat split; reflexivity).
  - cbn [fs set_buffered].
    destruct (stat_fails env); [repeat split; reflexivity|].
    destruct (fs w !! output_file_path env) as [[c'|sub]|];
      try (repeat split; reflexivity).
    destruct (String.length c' =? 0)%nat; [|repeat split; reflexivity].
    cbn [calls set_buffered]. destruct (write_fails env _);
      repeat split; reflexivity.
  - cbn [fs set_buffered set_fs].
    destruct (stat_fails env); [repeat split; reflexivity|].
    rewrite lookup_insert_eq. cbn [String.length Nat.eqb calls set_fs set_buffered].
    destruct (write_fails env _); repeat split; reflexivity.
Qed.

Lemma open_output_file_frame (env : Env) (w : World) :
  sheets (snd (open_output_file env w)) = sheets w /\
  dht_calls (calls (snd (open_output_file env w))) = dht_calls (calls w) /\
  upload_calls (calls (snd (open_output_file env w))) = upload_calls (calls w).
Proof.
  rewrite open_output_file_steps.
  destruct (bool_decide (is_Some (fs w !! output_dir env)));
    [apply open_tail_frame|].
  destruct (makedirs_fails env); [repeat split; reflexivity|].
  apply (open_tail_frame env
           (set_fs (<[output_dir env := NDir [] ]> (fs w)) w)).
Qed.

(** A loop over no sensor looks at the clocks and sleeps. *)
Lemma poll_cycle_empty (env : Env) (start_time : float) f (w : World) :
  sheets (snd (poll_cycle env start_time [] f w)) = sheets w /\
  dht_calls (calls (snd (poll_cycle env start_time [] f w)))
  = dht_calls (calls w) /\
  upload_calls (calls (snd (poll_cycle env start_time [] f w)))
  = upload_calls (calls w).
Proof.
  unfold poll_cycle, poll_sensors, bind, time_localtime, time_time,
    sleep_length.
  cbn [for_each ret].
  destruct (PyFloat.rem _ _) as [r|]; [|repeat split; reflexivity].
  unfold ret, time_sleep, bind, emit.
  destruct (valid_sleep _); repeat split; reflexivity.
Qed.

Lemma poll_loop_empty (env : Env) (start_time : float) f (n : nat) (w : World) :
  sheets (snd (poll_loop env n start_time [] f w)) = sheets w /\
  dht_calls (calls (snd (poll_loop env n start_time [] f w)))
  = dht_calls (calls w) /\
  upload_calls (calls (snd (poll_loop env n start_time [] f w)))
  = upload_calls (calls w).
Proof.
  revert w. induction n as [|n IH]; intros w; [repeat split; reflexivity|].
  cbn [poll_loop]. unfold bind.
  destruct (poll_cycle_empty env start_time f w) as (Hs & Hd & Hu).
  destruct (poll_cycle env start_time [] f w) as [[[]|e] w1];
    cbn [fst snd] in *; [|auto].
  destruct (IH w1) as (Hs' & Hd' & Hu').
  rewrite Hs', Hd', Hu'. auto.
Qed.

(** X17: [main] joins [url] onto the path of the script and passes the
    result without a separator at its end, so that the loader's pattern is
    [<script path>/url*] and the directory it lists is the path of the
    script itself.  As that path is a file and not a directory, the loader
    returns the empty mapping, and [main] reads no sensor and uploads
    nothing, however long it runs. *)
Theorem main_scans_the_script_path (env : Env) (w : World) :
  plain_end (script_path env) ->
  (forall names, fs w !! script_path env <> Some (NDir names)) ->
  scanned_dir (url_file_dir_path env) = script_path env /\
  (forall sensor_list,
     open_url_files (url_file_dir_path env) sensor_list w = (Ok [], w)) /\
  forall n,
    dht_calls (calls (snd (main env n w))) = dht_calls (calls w) /\
    upload_calls (calls (snd (main env n w))) = upload_calls (calls w) /\
    sheets (snd (main env n w)) = sheets w.
Proof.
  intros Hplain Hfile.
  assert (Hscan : scanned_dir (url_file_dir_path env) = script_path env).
  { unfold scanned_dir, url_file_dir_path.
    rewrite (join_plain_eq _ "url" Hplain eq_refl), !append_assoc.
    change ("url" +:+ "*") with "url*".
    rewrite <- (join_plain_eq _ "url*" Hplain eq_refl).
    destruct (split_join_plain (script_path env) "url*" Hplain eq_refl eq_refl)
      as (-> & _).
    cbn [fst]. unfold Glob.listed_dir. destruct Hplain as [_ ->]. reflexivity. }
  split; [exact Hscan|].
  assert (Hload : forall sensor_list w', fs w' = fs w ->
            open_url_files (url_file_dir_path env) sensor_list w' = (Ok [], w')).
  { intros sl w' Hfs. unfold open_url_files, bind, glob_glob.
    rewrite glob_not_directory; [reflexivity|].
    fold (scanned_dir (url_file_dir_path env)). rewrite Hscan, Hfs.
    exact Hfile. }
  split; [intros sl; apply Hload; reflexivity|].
  intros n. unfold main, startup, bind, time_time.
  rewrite Hload by reflexivity.
  destruct (open_output_file_frame env (set_calls (tick_time (calls w)) w))
    as (Hs & Hd & Hu).
  destruct (open_output_file env (set_calls (tick_time (calls w)) w))
    as [[f|e] w1]; cbn [fst snd ret] in *.
  - destruct (poll_loop_empty env (wall_clock env (time_calls (calls w))) f n w1)
      as (Hs' & Hd' & Hu').
    rewrite Hs', Hd', Hu'. auto.
  - auto.
Qed.

Lemma main_scans_the_script_path_witness :
  scanned_dir (url_file_dir_path Sample.env) = script_path Sample.env /\
  (forall sensor_list,
     open_url_files (url_file_dir_path Sample.env) sensor_list
       Sample.installed_world = (Ok [], Sample.installed_world)) /\
  forall n,
    dht_calls (calls (snd (main Sample.env n Sample.installed_world)))
    = dht_calls (calls Sample.installed_world) /\
    upload_calls (calls (snd (main Sample.env n Sample.installed_world)))
    = upload_calls (calls Sample.installed_world) /\
    sheets (snd (main Sample.env n Sample.installed_world))
    = sheets Sample.installed_world.
Proof.
  apply (main_scans_the_script_path Sample.env Sample.installed_world).
  - split; reflexivity.
  - intros names H. vm_compute in H. discriminate.
Defined.

(** ** A run of the script as it is installed *)

(** The directory that [main] has the loader list is the path of the
    script. *)
Lemma main_scanned_dir (env : Env) :
  plain_end (script_path env) ->
  scanned_dir (url_file_dir_path env) = script_path env.
Proof.
  intros Hplain. unfold scanned_dir, url_file_dir_path.
  rewrite (join_plain_eq _ "url" Hplain eq_refl), !append_assoc.
  change ("url" +:+ "*") with "url*".
  rewrite <- (join_plain_eq _ "url*" Hplain eq_refl).
  destruct (split_join_plain (script_path env) "url*" Hplain eq_refl eq_refl)
    as (-> & _).
  cbn [fst]. unfold Glob.listed_dir. destruct Hplain as [_ ->]. reflexivity.
Qed.


